(** * Food recommendation system: catalog loading, index population,
      similarity search and the generation fallback

    A shallow embedding of [shared_functions.py], of the functions of
    [enhanced_rag_chatbot.py] and of the search console of
    [advanced_search.py], followed by the properties the specification
    states about them and by further properties of the code.

    Conventions of the embedding.
    - Python [str] is [string]; its characters are the code points below 256.
    - Python [int] is [Z]; [str] of an [int] is stdpp's [pretty].
    - Python [float] is read as the exact rational it denotes ([Q]); a
      subtraction of floats rounds its exact result as binary64
      arithmetic does ([Py.float_sub]).  A product that is only
      formatted is handed unrounded to the formatting parameter
      ([format_1f], [format_0f]), which stands for the rounding of the
      product and the formatting of the result together.  Infinities and
      NaN are outside the model.
    - A [try: ... except Exception] block is a computation in the error
      monad [Py.result] handled by [Py.try_except].  Signals that are not
      instances of [Exception] (keyboard interrupts and the like) are
      outside the model of these blocks, and so is what they [print]:
      the line a handler prints is added where the functions run on the
      console ([OnConsole]).
    - The vector index and the chat completion service are collaborators:
      they are arguments of the functions that call them.
    - The functions that talk to the user run on a console ([Console.io]):
      the lines [input] is still to read and the texts written so far.
      A text of the program that holds a character beyond code point 255
      (the pictographs of the messages) stands as the bytes of its UTF-8
      encoding; such texts are only written, never measured. *)

From Stdlib Require Import QArith Qabs Qpower Lqa Ascii.
From stdpp Require Import gmap strings list pretty.
From Corelib Require PrimFloat FloatOps.
Close Scope Q_scope.
Set Warnings "-register-all".

(** ** Python values and built-ins *)

Module Py.

(** Instances of [Exception], by class. *)
Inductive exn :=
| KeyError (key : string)
| TypeError
| AttributeError
| IndexError
| OSError
| JSONDecodeError
| ServiceError (message : string).

(** The outcome of an expression or block that may raise. *)
Inductive result (A : Type) :=
| Ok (a : A)
| Raise (e : exn).
Arguments Ok {A} a.
Arguments Raise {A} e.

Definition bind {A B} (r : result A) (k : A → result B) : result B :=
  match r with
  | Ok a => k a
  | Raise e => Raise e
  end.

(** Statements in sequence: [x ← r; k] runs [k] unless [r] raised. *)
#[export] Instance result_ret : MRet result := λ A a, Ok a.
#[export] Instance result_bind : MBind result := λ A B k r, bind r k.
#[export] Instance result_fmap : FMap result := λ A B f r, bind r (λ a, Ok (f a)).

(** [try: body / except Exception as e: handler e]. *)
Definition try_except {A} (body : result A) (handler : exn → result A) : result A :=
  match body with
  | Ok a => Ok a
  | Raise e => handler e
  end.

(** [l[i]] on a list: [IndexError] out of range. *)
Definition index {A} (l : list A) (i : nat) : result A :=
  match l !! i with
  | Some a => Ok a
  | None => Raise IndexError
  end.

(** What [json.load] produces.  An object keeps its keys in document
    order, which is the order [dict.items()] iterates in; [json.load]
    builds it with pairwise distinct keys. *)
Inductive json :=
| JNull
| JBool (b : bool)
| JInt (n : Z)
| JFloat (q : Q)
| JStr (s : string)
| JArr (l : list json)
| JObj (kv : list (string * json)).

Definition dict := list (string * json).

(** [d.get(k)] as an option, [k in d], and [d[k] = v] (in place for a
    key that is present, appended for a new one). *)
Fixpoint dict_get (k : string) (d : dict) : option json :=
  match d with
  | [] => None
  | (k', v) :: d' => if decide (k' = k) then Some v else dict_get k d'
  end.

Definition dict_has (k : string) (d : dict) : bool :=
  bool_decide (is_Some (dict_get k d)).

Fixpoint dict_set (k : string) (v : json) (d : dict) : dict :=
  match d with
  | [] => [(k, v)]
  | (k', v') :: d' =>
      if decide (k' = k) then (k, v) :: d' else (k', v') :: dict_set k v d'
  end.

(** [d.get(k, default)]. *)
Definition dict_get_default (k : string) (default : json) (d : dict) : json :=
  from_option id default (dict_get k d).

(** [d[k]]: [KeyError] for a missing key. *)
Definition dict_item (k : string) (d : dict) : result json :=
  match dict_get k d with
  | Some v => Ok v
  | None => Raise (KeyError k)
  end.

(** Truth value of a JSON value, as [if value:] tests it. *)
Definition truthy (v : json) : bool :=
  match v with
  | JNull => false
  | JBool b => b
  | JInt n => negb (n =? 0)%Z
  | JFloat q => negb (Qnum q =? 0)%Z
  | JStr s => negb (bool_decide (s = ""))
  | JArr l => match l with [] => false | _ :: _ => true end
  | JObj kv => match kv with [] => false | _ :: _ => true end
  end.

Definition newline : string := String "010"%char "".
Definition dquote : string := String "034"%char "".

(** [sep.join(parts)] for a list of [str]. *)
Definition join (sep : string) (parts : list string) : string :=
  String.concat sep parts.

(** [str.isspace] on the code points below 256. *)
Definition isspace (c : ascii) : bool :=
  let n := nat_of_ascii c in
  bool_decide (9 ≤ n ≤ 13) || bool_decide (28 ≤ n ≤ 32)
  || bool_decide (n = 133) || bool_decide (n = 160).

Fixpoint lstrip (s : string) : string :=
  match s with
  | String c s' => if isspace c then lstrip s' else s
  | EmptyString => EmptyString
  end.

(** [s.strip()]. *)
Definition strip (s : string) : string :=
  String.rev (lstrip (String.rev (lstrip s))).

(** [len(s)] as a Python int. *)
Definition len (s : string) : Z := Z.of_nat (String.length s).


(** [round] to the nearest integer, ties to even. *)
Definition round_half_even (x : Q) : Z :=
  let n := Qnum x in
  let d := Z.pos (Qden x) in
  let floor := (n / d)%Z in
  let rest := (n mod d)%Z in
  if (2 * rest <? d)%Z then floor
  else if (d <? 2 * rest)%Z then (floor + 1)%Z
  else if Z.even floor then floor else (floor + 1)%Z.

(** The exponent [e] of a positive number [x]: [2^e <= x < 2^(e+1)]. *)
Definition float_exponent (x : Q) : Z :=
  let e := (Z.log2 (Qnum x) - Z.log2 (Z.pos (Qden x)))%Z in
  if Qle_bool (2 ^ e) x then e else (e - 1)%Z.

(** The number with a significand of 53 bits that is nearest to [x],
    ties to even, as a reduced fraction: what binary64 arithmetic
    returns for an operation whose exact result is [x], as long as that
    result is not in the subnormal range and does not overflow. *)
Definition float_round (x : Q) : Q :=
  match Qnum x with
  | Z0 => 0
  | _ =>
      let e := float_exponent (Qabs x) in
      let significand := round_half_even (Qabs x * 2 ^ (52 - e)) in
      Qred (inject_Z (Z.sgn (Qnum x) * significand) * 2 ^ (e - 52))
  end.

(** [x - y] of two floats.  For [1 - d] with [d] a binary64 number the
    rounding is that of binary64: the exact difference is 0 or at least
    [2^-53] in magnitude (the binary64 numbers next to 1 are that far
    from it), so it is not subnormal, and it exceeds the largest
    binary64 number by 1 at most, so it does not overflow. *)
Definition float_sub (x y : Q) : Q := float_round (x - y).

(** The rational a binary64 number of the kernel denotes, when it is
    finite: the examples compare [float_sub] with the subtraction of
    these numbers. *)
Definition float_value (f : PrimFloat.float) : option Q :=
  match FloatOps.Prim2SF f with
  | SpecFloat.S754_zero _ => Some 0%Q
  | SpecFloat.S754_finite s m e =>
      Some (Qred (inject_Z (if s then Z.neg m else Z.pos m) * 2 ^ e))
  | SpecFloat.S754_infinity _ | SpecFloat.S754_nan => None
  end.

(** [f"{x:.1f}"] for a number that is exactly the rational [x]: one digit
    after the point.  A float that is printed goes through the
    [format_1f] parameter of the functions that print it; this rendering
    is what the examples pass for it. *)
Definition format_1f_exact (x : Q) : string :=
  let tenths := round_half_even (Qabs x * 10)%Q in
  (if Qlt_le_dec x 0 then "-" else "")
  +:+ pretty (tenths / 10)%Z +:+ "." +:+ pretty (tenths mod 10)%Z.

(** [sep.join(v)] for a JSON value [v]: a list must hold strings only; a
    string is joined character by character and an object by its keys;
    anything else is not iterable. *)
Definition join_value (sep : string) (v : json) : result string :=
  match v with
  | JArr l =>
      bind
        (foldr (λ x acc,
           bind acc (λ parts,
             match x with
             | JStr s => Ok (s :: parts)
             | _ => Raise TypeError
             end)) (Ok []) l)
        (λ parts, Ok (join sep parts))
  | JStr s => Ok (join sep ((λ c, String c "") <$> String.list_ascii_of_string s))
  | JObj kv => Ok (join sep (kv.*1))
  | JNull | JBool _ | JInt _ | JFloat _ => Raise TypeError
  end.

Section Str.
(** [repr] of a float and of a container is a parameter: the properties
    below hold whatever text it produces. *)
Variable repr : json → string.

(** [str(v)], which is also what an f-string field [{v}] renders. *)
Definition str (v : json) : string :=
  match v with
  | JStr s => s
  | JInt n => pretty n
  | JBool true => "True"
  | JBool false => "False"
  | JNull => "None"
  | JFloat _ | JArr _ | JObj _ => repr v
  end.
End Str.

End Py.

(** ** shared_functions.py *)

Module Shared.
Import Py.

(** *** The index collaborator *)

(** The [where] argument of [collection.query]: [{field: value}],
    [{field: {"$lte": bound}}] and [{"$and": [...]}]. *)
Inductive where_doc :=
| WhereEq (field : string) (value : string)
| WhereLte (field : string) (bound : Z)
| WhereAnd (filters : list where_doc).

(** The metadata mapping stored with a document, read with
    [metadata.get]: a field is [None] when the key is absent. *)
Record Metadata := {
  md_name : option string;
  md_description : option string;
  md_cuisine_type : option string;
  md_calories : option Z;
}.

(** What [collection.query] returns: one inner list per query text. *)
Record QueryResult := {
  ids : list (list string);
  distances : list (list Q);
  metadatas : list (list Metadata);
}.

(** The metadata mapping [populate_similarity_collection] builds for a
    document; a value taken from the food record is whatever JSON value
    the record holds. *)
Record DocMetadata := {
  doc_name : json;
  doc_cuisine_type : json;
  doc_ingredients : string;
  doc_calories : json;
  doc_description : json;
  doc_cooking_method : json;
  doc_health_benefits : json;
  doc_taste_profile : json;
}.

(** A collection, as far as the functions below use it:
    [query(query_texts, n_results, where, include)] with [include] fixed
    to documents, metadatas and distances, and
    [add(documents, metadatas, ids)]. *)
Record Collection := {
  query : list string → Z → option where_doc → result QueryResult;
  add : list string → list DocMetadata → list string → result unit;
}.

(** *** load_food_data and populate_similarity_collection *)

Section Catalog.
Variable repr : json → string.
Abbreviation str := (Py.str repr).

(** [if key not in item: item[key] = value]. *)
Definition assign_if_missing (key : string) (value : json) (item : dict) : dict :=
  if dict_has key item then item else dict_set key value item.

(** The body of [for i, item in enumerate(food_data)] for an item that is
    a dict. *)
Definition preprocess_record (i : nat) (item : dict) : dict :=
  let item :=
    match dict_get "food_id" item with
    | None => dict_set "food_id" (JStr (pretty (Z.of_nat i + 1)%Z)) item
    | Some v => dict_set "food_id" (JStr (str v)) item
    end in
  let item := assign_if_missing "food_ingredients" (JArr []) item in
  let item := assign_if_missing "food_description" (JStr "") item in
  let item := assign_if_missing "cuisine_type" (JStr "Unknown") item in
  let item := assign_if_missing "food_calories_per_serving" (JInt 0) item in
  match dict_get "food_features" item with
  | Some (JObj food_features) =>
      let taste_features :=
        fold_left (λ taste_features kv,
          if truthy kv.2 then taste_features ++ [str kv.2] else taste_features)
          food_features [] in
      dict_set "taste_profile" (JStr (join ", " taste_features)) item
  | _ => dict_set "taste_profile" (JStr "") item
  end.

(** The same body for any item.  On an item that is not a dict either
    the test ['food_id' not in item] or the subscript [item['food_id']]
    that follows it raises [TypeError]. *)
Definition preprocess_item (i : nat) (item : json) : result json :=
  match item with
  | JObj d => Ok (JObj (preprocess_record i d))
  | JNull | JBool _ | JInt _ | JFloat _ | JStr _ | JArr _ => Raise TypeError
  end.

Fixpoint preprocess_loop (i : nat) (items : list json) : result (list json) :=
  match items with
  | [] => Ok []
  | item :: rest =>
      item' ← preprocess_item i item;
      rest' ← preprocess_loop (S i) rest;
      Ok (item' :: rest')
  end.

(** What [enumerate(food_data)] iterates over: the elements of a list,
    the keys of an object, the characters of a string. *)
Definition iterate (food_data : json) : result (list json) :=
  match food_data with
  | JArr l => Ok l
  | JObj kv => Ok (JStr <$> kv.*1)
  | JStr s => Ok ((λ c, JStr (String c "")) <$> String.list_ascii_of_string s)
  | JNull | JBool _ | JInt _ | JFloat _ => Raise TypeError
  end.

(** [json_load file_path] stands for [open(file_path)] followed by
    [json.load(file)].  The records are updated in place, so the list
    that is returned holds the preprocessed records. *)
Definition load_food_data (json_load : string → result json)
    (file_path : string) : result json :=
  try_except
    (food_data ← json_load file_path;
     items ← iterate food_data;
     items' ← preprocess_loop 0 items;
     Ok (match food_data with
         | JArr _ => JArr items'
         | _ => food_data
         end))
    (λ e, Ok (JArr [])).

(** The text that is embedded for one food record. *)
Definition document_text (food : dict) : result string :=
  food_name ← dict_item "food_name" food;
  let text := "Name: " +:+ str food_name +:+ ". " in
  let text := text +:+ "Description: "
    +:+ str (dict_get_default "food_description" (JStr "") food) +:+ ". " in
  ingredients ← join_value ", " (dict_get_default "food_ingredients" (JArr []) food);
  let text := text +:+ "Ingredients: " +:+ ingredients +:+ ". " in
  let text := text +:+ "Cuisine: "
    +:+ str (dict_get_default "cuisine_type" (JStr "Unknown") food) +:+ ". " in
  let text := text +:+ "Cooking method: "
    +:+ str (dict_get_default "cooking_method" (JStr "") food) +:+ ". " in
  let taste_profile := dict_get_default "taste_profile" (JStr "") food in
  let text :=
    if truthy taste_profile
    then text +:+ "Taste and features: " +:+ str taste_profile +:+ ". "
    else text in
  let health_benefits := dict_get_default "food_health_benefits" (JStr "") food in
  let text :=
    if truthy health_benefits
    then text +:+ "Health benefits: " +:+ str health_benefits +:+ ". "
    else text in
  let text :=
    match dict_get "food_nutritional_factors" food with
    | Some (JObj nutrition) =>
        let nutrition_text :=
          join ", " ((λ kv, kv.1 +:+ ": " +:+ str kv.2) <$> nutrition) in
        text +:+ "Nutrition: " +:+ nutrition_text +:+ "."
    | _ => text
    end in
  Ok text.

(** [while unique_id in used_ids: unique_id = f"{base_id}_{counter}";
    counter += 1], run for at most [fuel] tests of the condition; [None]
    when the fuel runs out before the loop exits. *)
Fixpoint unique_id_loop (fuel : nat) (base_id unique_id : string)
    (counter : Z) (used_ids : gset string) : option string :=
  match fuel with
  | O => None
  | S fuel' =>
      if decide (unique_id ∈ used_ids)
      then unique_id_loop fuel' base_id
             (base_id +:+ "_" +:+ pretty counter) (counter + 1)%Z used_ids
      else Some unique_id
  end.

(** The ids the loop goes through: [base_id], then [base_id] with the
    suffixes [_1], [_2], ... *)
Definition candidate (base_id : string) (k : nat) : string :=
  match k with
  | O => base_id
  | S _ => base_id +:+ "_" +:+ pretty (Z.of_nat k)
  end.

(** The id given to a record.  The loop exits within [size used_ids + 1]
    tests ([unique_id_loop_exits] below), so the default is never used. *)
Definition unique_id (base_id : string) (used_ids : gset string) : string :=
  default base_id
    (unique_id_loop (S (size used_ids)) base_id base_id 1 used_ids).

(** The four accumulators of the loop of [populate_similarity_collection]. *)
Record Batch := {
  batch_documents : list string;
  batch_metadatas : list DocMetadata;
  batch_ids : list string;
  batch_used_ids : gset string;
}.

(** One iteration of [for i, food in enumerate(food_items)]. *)
Definition populate_step (b : Batch) (i : nat) (food : dict) : result Batch :=
  text ← document_text food;
  let base_id := str (dict_get_default "food_id" (JInt (Z.of_nat i)) food) in
  let unique_id := unique_id base_id (batch_used_ids b) in
  name ← dict_item "food_name" food;
  ingredients ← join_value ", " (dict_get_default "food_ingredients" (JArr []) food);
  Ok {| batch_documents := batch_documents b ++ [text];
        batch_ids := batch_ids b ++ [unique_id];
        batch_used_ids := {[unique_id]} ∪ batch_used_ids b;
        batch_metadatas := batch_metadatas b ++ [
          {| doc_name := name;
             doc_cuisine_type := dict_get_default "cuisine_type" (JStr "Unknown") food;
             doc_ingredients := ingredients;
             doc_calories := dict_get_default "food_calories_per_serving" (JInt 0) food;
             doc_description := dict_get_default "food_description" (JStr "") food;
             doc_cooking_method := dict_get_default "cooking_method" (JStr "") food;
             doc_health_benefits := dict_get_default "food_health_benefits" (JStr "") food;
             doc_taste_profile := dict_get_default "taste_profile" (JStr "") food |} ] |}.

Fixpoint populate_loop (b : Batch) (i : nat) (food_items : list dict) : result Batch :=
  match food_items with
  | [] => Ok b
  | food :: rest =>
      b' ← populate_step b i food;
      populate_loop b' (S i) rest
  end.

Definition empty_batch : Batch :=
  {| batch_documents := []; batch_metadatas := []; batch_ids := [];
     batch_used_ids := ∅ |}.

Definition populate_similarity_collection (collection : Collection)
    (food_items : list dict) : result unit :=
  b ← populate_loop empty_batch 0 food_items;
  add collection (batch_documents b) (batch_metadatas b) (batch_ids b).

End Catalog.

(** *** perform_similarity_search *)

(** One entry of the list a search returns. *)
Record SearchResult := {
  food_id : string;
  food_name : string;
  food_description : string;
  cuisine_type : string;
  food_calories_per_serving : Z;
  similarity_score : Q;
  distance : Q;
}.

(** The body of [for i in range(len(results['ids'][0]))]. *)
Definition format_result (results : QueryResult) (i : nat) : result SearchResult :=
  distances0 ← index (distances results) 0;
  distance_i ← index distances0 i;
  let similarity_score := float_sub 1 distance_i in
  metadatas0 ← index (metadatas results) 0;
  metadata ← index metadatas0 i;
  ids0 ← index (ids results) 0;
  id_i ← index ids0 i;
  distances0' ← index (distances results) 0;
  distance_i' ← index distances0' i;
  Ok {| food_id := id_i;
        food_name := default "N/A" (md_name metadata);
        food_description := default "N/A" (md_description metadata);
        cuisine_type := default "N/A" (md_cuisine_type metadata);
        food_calories_per_serving := default 0%Z (md_calories metadata);
        similarity_score := similarity_score;
        distance := distance_i' |}.

(** The loop: [formatted_results.append(result)] for each index. *)
Fixpoint format_loop (results : QueryResult) (indices : list nat)
    (formatted_results : list SearchResult) : result (list SearchResult) :=
  match indices with
  | [] => Ok formatted_results
  | i :: rest =>
      r ← format_result results i;
      format_loop results rest (formatted_results ++ [r])
  end.

(** What follows the call of [collection.query] in either search. *)
Definition format_results (results : QueryResult) : result (list SearchResult) :=
  match ids results with
  | [] => Ok []
  | ids0 :: _ =>
      if bool_decide (length ids0 = 0) then Ok []
      else format_loop results (seq 0 (length ids0)) []
  end.

Definition perform_similarity_search (collection : Collection)
    (query_text : string) (n_results : Z) : result (list SearchResult) :=
  try_except
    (results ← query collection [query_text] n_results None;
     format_results results)
    (λ e, Ok []).

(** *** perform_filtered_similarity_search *)

(** The list [filters] after the two [if] statements. *)
Definition build_filters (cuisine_filter : option string)
    (max_calories : option Z) : list where_doc :=
  let filters := [] in
  let filters :=
    match cuisine_filter with
    | Some c => if bool_decide (c = "") then filters
                else filters ++ [WhereEq "cuisine_type" c]
    | None => filters
    end in
  let filters :=
    match max_calories with
    | Some m => filters ++ [WhereLte "calories" m]
    | None => filters
    end in
  filters.

(** [where_clause] as passed to [collection.query]. *)
Definition build_where_clause (cuisine_filter : option string)
    (max_calories : option Z) : option where_doc :=
  let filters := build_filters cuisine_filter max_calories in
  match filters with
  | [] => None
  | [f] => Some f
  | _ :: _ :: _ => Some (WhereAnd filters)
  end.

Definition perform_filtered_similarity_search (collection : Collection)
    (query_text : string) (cuisine_filter : option string)
    (max_calories : option Z) (n_results : Z) : result (list SearchResult) :=
  let where_clause := build_where_clause cuisine_filter max_calories in
  try_except
    (results ← query collection [query_text] n_results where_clause;
     format_results results)
    (λ e, Ok []).

End Shared.

(** ** enhanced_rag_chatbot.py *)

Module Rag.
Import Py.
Import Shared.

(** The value under ['food_ingredients'] when a result carries one: a
    list of names, or anything else, which is rendered as it is. *)
Inductive ingredients_value :=
| IngredientList (names : list string)
| IngredientText (text : string).

(** A search result as the functions below read it: the entry a search
    returned, and the four keys read with [result.get], each [None]
    when the key is absent. *)
Record Result := {
  hit :> SearchResult;
  food_ingredients : option ingredients_value;
  food_health_benefits : option string;
  cooking_method : option string;
  taste_profile : option string;
}.

(** A result exactly as a search returns it. *)
Definition of_search_result (r : SearchResult) : Result :=
  {| hit := r; food_ingredients := None; food_health_benefits := None;
     cooking_method := None; taste_profile := None |}.

(** [if result.get(key):] for a text value. *)
Definition text_present (v : option string) : option string :=
  match v with
  | Some s => if bool_decide (s = "") then None else Some s
  | None => None
  end.

(** The lines appended to [food_context] for the ingredients. *)
Definition ingredient_lines (v : option ingredients_value) : list string :=
  match v with
  | Some (IngredientList []) | Some (IngredientText "") | None => []
  | Some (IngredientList ingredients) =>
      ["  - Key ingredients: " +:+ join ", " (take 5 ingredients)]
  | Some (IngredientText ingredients) =>
      ["  - Key ingredients: " +:+ ingredients]
  end.

Section Context.
(** [f"{x:.1f}"] of a float [x] is a parameter, as [repr] is. *)
Variable format_1f : Q → string.

(** [food_context] for the result numbered [i]. *)
Definition food_context (i : Z) (result : Result) : list string :=
  let food_context := [] in
  let food_context := food_context ++ ["Option " +:+ pretty i +:+ ": " +:+ food_name result] in
  let food_context := food_context ++ ["  - Description: " +:+ food_description result] in
  let food_context := food_context ++ ["  - Cuisine: " +:+ cuisine_type result] in
  let food_context := food_context ++
    ["  - Calories: " +:+ pretty (food_calories_per_serving result) +:+ " per serving"] in
  let food_context := food_context ++ ingredient_lines (food_ingredients result) in
  let food_context :=
    match text_present (food_health_benefits result) with
    | Some v => food_context ++ ["  - Health benefits: " +:+ v]
    | None => food_context
    end in
  let food_context :=
    match text_present (cooking_method result) with
    | Some v => food_context ++ ["  - Cooking method: " +:+ v]
    | None => food_context
    end in
  let food_context :=
    match text_present (taste_profile result) with
    | Some v => food_context ++ ["  - Taste profile: " +:+ v]
    | None => food_context
    end in
  let food_context := food_context ++
    ["  - Similarity score: " +:+ format_1f (similarity_score result * 100)%Q +:+ "%"] in
  food_context ++ [""].

(** [for i, result in enumerate(..., 1): context_parts.extend(food_context)]. *)
Fixpoint context_loop (i : Z) (results : list Result)
    (context_parts : list string) : list string :=
  match results with
  | [] => context_parts
  | result :: rest =>
      context_loop (i + 1)%Z rest (context_parts ++ food_context i result)
  end.

Definition no_results_context : string :=
  "No relevant food items found in the database.".

Definition context_header : string :=
  "Based on the user's query, here are the most relevant food options from our database:".

Definition prepare_context_for_llm (query : string)
    (search_results : list Result) : string :=
  match search_results with
  | [] => no_results_context
  | _ :: _ =>
      let context_parts := [context_header; ""] in
      let context_parts := context_loop 1 (take 3 search_results) context_parts in
      join newline context_parts
  end.

End Context.

Definition no_match_response : string :=
  "I couldn't find any food items matching your request. Try describing what you're in the mood for with different words!".

Definition generate_fallback_response (query : string)
    (search_results : list Result) : string :=
  match search_results with
  | [] => no_match_response
  | top_result :: _ =>
      let response_parts := [] in
      let response_parts := response_parts ++
        ["Based on your request for '" +:+ query +:+ "', I'd recommend "
           +:+ food_name top_result +:+ "."] in
      let response_parts := response_parts ++
        ["It's a " +:+ cuisine_type top_result +:+ " dish with "
           +:+ pretty (food_calories_per_serving top_result)
           +:+ " calories per serving."] in
      let response_parts :=
        if bool_decide (1 < length search_results) then
          match (search_results !! 1%nat : option Result) with
          | Some second_choice =>
              response_parts ++
                ["Another great option would be " +:+ food_name second_choice +:+ "."]
          | None => response_parts
          end
        else response_parts in
      join " " response_parts
  end.

(** The chat completion service: the request it is sent and, of the
    completion it returns, [message.content] of each choice. *)
Record ChatRequest := {
  model : string;
  messages : list (string * string);
  max_tokens : Z;
  temperature : Q;
}.

Record Completion := {
  choices : list (option string);
}.

Definition rag_prompt (query context : string) : string :=
  join newline [
    "You are a helpful food recommendation assistant. A user is asking for food recommendations, and I've retrieved relevant options from a food database.";
    "";
    "User Query: " +:+ dquote +:+ query +:+ dquote;
    "";
    "Retrieved Food Information:";
    context;
    "";
    "Please provide a helpful, short response that:";
    "1. Acknowledges the user's request";
    "2. Recommends 2-3 specific food items from the retrieved options";
    "3. Explains why these recommendations match their request";
    "4. Includes relevant details like cuisine type, calories, or health benefits";
    "5. Uses a friendly, conversational tone";
    "6. Keeps the response concise but informative";
    "";
    "Response:" ].

(** The arguments of the call of [chat.completions.create]. *)
Definition rag_request (prompt : string) : ChatRequest :=
  {| model := "gpt-3.5-turbo";
     messages :=
       [("system", "You are a helpful food recommendation assistant.");
        ("user", prompt)];
     max_tokens := 400;
     temperature := 7 # 10 |}.

(** [client_openai] stands for [client_openai.chat.completions.create]. *)
Definition generate_llm_rag_response (format_1f : Q → string)
    (client_openai : ChatRequest → result Completion)
    (query : string) (search_results : list Result) : result string :=
  try_except
    (let context := prepare_context_for_llm format_1f query search_results in
     let prompt := rag_prompt query context in
     completion ← client_openai (rag_request prompt);
     choice ← index (choices completion) 0;
     generated_response ←
       match choice with
       | Some content => Ok content
       | None => Raise AttributeError
       end;
     let response_text := strip generated_response in
     if bool_decide (len response_text < 50)%Z
     then Ok (generate_fallback_response query search_results)
     else Ok response_text)
    (λ e, Ok (generate_fallback_response query search_results)).

(** *** generate_simple_comparison and generate_llm_comparison *)

(** [not results] for a list. *)
Definition is_empty {A} (l : list A) : bool :=
  match l with
  | [] => true
  | _ :: _ => false
  end.

Definition generate_simple_comparison (query1 query2 : string)
    (results1 results2 : list Result) : string :=
  if is_empty results1 && is_empty results2 then
    "No results found for either query."
  else if is_empty results1 then
    "Found results for '" +:+ query2 +:+ "' but none for '" +:+ query1 +:+ "'."
  else if is_empty results2 then
    "Found results for '" +:+ query1 +:+ "' but none for '" +:+ query2 +:+ "'."
  else
    let rec1 :=
      match results1 with
      | first :: _ => food_name first
      | [] => "no specific recommendation"
      end in
    let rec2 :=
      match results2 with
      | first :: _ => food_name first
      | [] => "no specific recommendation"
      end in
    "For '" +:+ query1 +:+ "', I recommend " +:+ rec1 +:+ ". For '"
      +:+ query2 +:+ "', " +:+ rec2 +:+ " would be perfect.".

Definition comparison_prompt (query1 query2 context1 context2 : string) : string :=
  join newline [
    "You are analyzing and comparing two different food preference queries. Please provide a thoughtful comparison.";
    "";
    "Query 1: " +:+ dquote +:+ query1 +:+ dquote;
    "Top Results for Query 1:";
    context1;
    "";
    "Query 2: " +:+ dquote +:+ query2 +:+ dquote;
    "Top Results for Query 2:";
    context2;
    "";
    "Please provide a short comparison that:";
    "1. Highlights the key differences between these two food preferences";
    "2. Notes any similarities or overlaps";
    "3. Explains which query might be better for different situations";
    "4. Recommends the best option from each query";
    "5. Keeps the analysis concise but insightful";
    "";
    "Comparison:" ].

Definition comparison_request (prompt : string) : ChatRequest :=
  {| model := "gpt-3.5-turbo";
     messages :=
       [("system",
         "You are a helpful food recommendation assistant for comparing queries.");
        ("user", prompt)];
     max_tokens := 500;
     temperature := 7 # 10 |}.

Definition generate_llm_comparison (format_1f : Q → string)
    (client_openai : ChatRequest → result Completion)
    (query1 query2 : string) (results1 results2 : list Result) : result string :=
  try_except
    (let context1 := prepare_context_for_llm format_1f query1 (take 3 results1) in
     let context2 := prepare_context_for_llm format_1f query2 (take 3 results2) in
     let prompt := comparison_prompt query1 query2 context1 context2 in
     completion ← client_openai (comparison_request prompt);
     choice ← index (choices completion) 0;
     content ←
       match choice with
       | Some content => Ok content
       | None => Raise AttributeError
       end;
     Ok (strip content))
    (λ e, Ok (generate_simple_comparison query1 query2 results1 results2)).

End Rag.

(** ** The console *)

Module Console.
Import Py.

(** What [input()] meets on standard input: a line, or the interrupt key. *)
Inductive key :=
| Line (text : string)
| Interrupt.

(** What a console program can raise: an exception of the functions
    above, [ValueError] (from [int]), [EOFError] (from [input]), and
    [KeyboardInterrupt], which is not an instance of [Exception]. *)
Inductive signal :=
| Exception (e : exn)
| ValueError
| EOFError
| KeyboardInterrupt.

Inductive outcome (A : Type) :=
| Return (a : A)
| Raised (s : signal).
Arguments Return {A} a.
Arguments Raised {A} s.

(** The lines still to be read and the texts written so far, one entry
    per call of [print] or [input]. *)
Record console := {
  stdin : list key;
  stdout : list string;
}.

(** A console program: it changes the console and returns or raises. *)
Definition io (A : Type) : Type := console → console * outcome A.

#[export] Instance io_ret : MRet io := λ A a c, (c, Return a).
#[export] Instance io_bind : MBind io := λ A B k m c,
  match m c with
  | (c', Return a) => k a c'
  | (c', Raised s) => (c', Raised s)
  end.

Definition raise {A} (s : signal) : io A := λ c, (c, Raised s).

(** [print(text)] writes the text and a newline. *)
Definition print (text : string) : io unit := λ c,
  ({| stdin := stdin c; stdout := stdout c ++ [text +:+ newline] |}, Return ()).

(** [input(prompt)] writes the prompt and reads a line. *)
Definition input (prompt : string) : io string := λ c,
  let c' := {| stdin := tail (stdin c); stdout := stdout c ++ [prompt] |} in
  match stdin c with
  | Line text :: _ => (c', Return text)
  | Interrupt :: _ => (c', Raised KeyboardInterrupt)
  | [] => (c', Raised EOFError)
  end.

(** [try: body / except KeyboardInterrupt: on_interrupt /
    except Exception as e: on_exception e]. *)
Definition try_except_interrupt {A} (body : io A) (on_interrupt : io A)
    (on_exception : signal → io A) : io A := λ c,
  match body c with
  | (c', Return a) => (c', Return a)
  | (c', Raised KeyboardInterrupt) => on_interrupt c'
  | (c', Raised s) => on_exception s c'
  end.

(** A program that writes [lines] and returns [a], without reading. *)
Definition writes {A} (m : io A) (lines : list string) (a : A) : Prop :=
  ∀ c, m c = ({| stdin := stdin c; stdout := stdout c ++ lines |}, Return a).

(** [text * n]. *)
Fixpoint repeat_str (text : string) (n : nat) : string :=
  match n with
  | O => ""
  | S n' => text +:+ repeat_str text n'
  end.

(** [c.isdigit()] on the code points below 256: the digits and the
    superscripts two, three and one. *)
Definition isdigit_char (c : ascii) : bool :=
  let n := nat_of_ascii c in
  bool_decide (48 ≤ n ≤ 57) || bool_decide (n = 178) || bool_decide (n = 179)
  || bool_decide (n = 185).

(** [s.isdigit()]: every character is a digit and there is at least one. *)
Definition isdigit (s : string) : bool :=
  match s with
  | EmptyString => false
  | String _ _ => forallb isdigit_char (String.list_ascii_of_string s)
  end.

Fixpoint int_digits (acc : Z) (s : string) : option Z :=
  match s with
  | EmptyString => Some acc
  | String c s' =>
      let n := nat_of_ascii c in
      if bool_decide (48 ≤ n ≤ 57)
      then int_digits (10 * acc + (Z.of_nat n - 48))%Z s'
      else None
  end.

(** [int(s)] for a string on which [isdigit] holds: the number it
    writes in base 10, and [ValueError] when it holds a superscript.
    (From Python 3.11 on [int] also raises [ValueError] on more than
    4300 digits; what is proved of [int] below is about shorter texts.) *)
Definition int (s : string) : io Z :=
  match int_digits 0 s with
  | Some n => mret n
  | None => raise ValueError
  end.

End Console.

(** ** The handlers that print

    Where a function of the first part of this file handles an
    exception, the handler first prints a line naming it.  On the console
    that line is part of what is written: these are the same functions
    with it. *)

Module OnConsole.
Import Py.
Import Shared.
Import Rag.
Import Console.

Section Reports.
(** [f"{x:.1f}"] of a float and the text [str(e)] of an exception are
    parameters; [client_openai] is the global client, as far as
    [chat.completions.create] goes. *)
Variable format_1f : Q → string.
Variable str_exception : signal → string.
Variable client_openai : ChatRequest → result Completion.

(** [try: body / except Exception as e: print(f"<message>{e}");
    return fallback]. *)
Definition try_except_print {A} (body : result A) (message : string)
    (fallback : A) : io A :=
  match body with
  | Ok a => mret a
  | Raise e => print (message +:+ str_exception (Exception e));; mret fallback
  end.

Definition perform_similarity_search (collection : Collection)
    (query_text : string) (n_results : Z) : io (list SearchResult) :=
  try_except_print
    (results ← query collection [query_text] n_results None;
     format_results results)
    "Error in similarity search: " [].

Definition perform_filtered_similarity_search (collection : Collection)
    (query_text : string) (cuisine_filter : option string)
    (max_calories : option Z) (n_results : Z) : io (list SearchResult) :=
  let where_clause := build_where_clause cuisine_filter max_calories in
  try_except_print
    (results ← query collection [query_text] n_results where_clause;
     format_results results)
    "Error in filtered search: " [].

Definition generate_llm_rag_response (query : string)
    (search_results : list Result) : io string :=
  try_except_print
    (let context := prepare_context_for_llm format_1f query search_results in
     let prompt := rag_prompt query context in
     completion ← client_openai (rag_request prompt);
     choice ← index (choices completion) 0;
     generated_response ←
       match choice with
       | Some content => Ok content
       | None => Raise AttributeError
       end;
     let response_text := strip generated_response in
     if bool_decide (len response_text < 50)%Z
     then Ok (generate_fallback_response query search_results)
     else Ok response_text)
    "❌ LLM Error during RAG response generation: "
    (generate_fallback_response query search_results).

Definition generate_llm_comparison (query1 query2 : string)
    (results1 results2 : list Result) : io string :=
  try_except_print
    (let context1 := prepare_context_for_llm format_1f query1 (take 3 results1) in
     let context2 := prepare_context_for_llm format_1f query2 (take 3 results2) in
     let prompt := comparison_prompt query1 query2 context1 context2 in
     completion ← client_openai (comparison_request prompt);
     choice ← index (choices completion) 0;
     content ←
       match choice with
       | Some content => Ok content
       | None => Raise AttributeError
       end;
     Ok (strip content))
    "❌ LLM Error during comparison generation: "
    (generate_simple_comparison query1 query2 results1 results2).

End Reports.

End OnConsole.

(** ** advanced_search.py *)

Module Advanced.
Import Py.
Import Shared.
Import Console.

Section Handlers.
(** [f"{x:.1f}"] of a float, [s.title()] and the text [str(e)] of an
    exception are parameters. *)
Variable format_1f : Q → string.
Variable str_title : string → string.
Variable str_exception : signal → string.

(** [for i, result in enumerate(results, 1)] of [display_search_results]. *)
Fixpoint display_loop (i : Z) (results : list SearchResult)
    (show_details : bool) : io unit :=
  match results with
  | [] => mret ()
  | result :: rest =>
      let score_percentage := (similarity_score result * 100)%Q in
      (if show_details then
         print (newline +:+ pretty i +:+ ". 🍽️  " +:+ food_name result);;
         print ("   📊 Similarity Score: " +:+ format_1f score_percentage +:+ "%");;
         print ("   🏷️  Cuisine: " +:+ cuisine_type result);;
         print ("   🔥 Calories: " +:+ pretty (food_calories_per_serving result));;
         print ("   📝 Description: " +:+ food_description result)
       else
         print ("   " +:+ pretty i +:+ ". " +:+ food_name result +:+ " ("
                +:+ format_1f score_percentage +:+ "% match)"));;
      display_loop (i + 1)%Z rest show_details
  end.

Definition display_search_results (results : list SearchResult)
    (title : string) (show_details : bool) : io unit :=
  print (newline +:+ "📋 " +:+ title);;
  print (repeat_str "=" 50);;
  match results with
  | [] =>
      print "❌ No matching results found";;
      print "💡 Try adjusting your search terms or filters"
  | _ :: _ =>
      display_loop 1 results show_details;;
      print (repeat_str "=" 50)
  end.

Definition perform_basic_search (collection : Collection) : io unit :=
  print (newline +:+ "🔍 BASIC SIMILARITY SEARCH");;
  print (repeat_str "-" 30);;
  query_line ← input "Enter search query: ";
  let query := strip query_line in
  if bool_decide (query = "") then
    print "❌ Please enter a search term"
  else
    print (newline +:+ "🔍 Searching for '" +:+ query +:+ "'...");;
    results ← OnConsole.perform_similarity_search str_exception collection query 5;
    display_search_results results "Basic Search Results" true.

Definition cuisines : list string :=
  ["Italian"; "Thai"; "Mexican"; "Indian"; "Japanese"; "French";
   "Mediterranean"; "American"; "Health Food"; "Dessert"; "International"].

(** [for i, cuisine in enumerate(cuisines, 1): print(f"  {i}. {cuisine}")]. *)
Fixpoint print_cuisines (i : Z) (cuisines : list string) : io unit :=
  match cuisines with
  | [] => mret ()
  | cuisine :: rest =>
      print ("  " +:+ pretty i +:+ ". " +:+ cuisine);;
      print_cuisines (i + 1)%Z rest
  end.

(** [if x:] for a value that is [None] or a text. *)
Definition truthy_text (x : option string) : bool :=
  match x with
  | Some s => negb (bool_decide (s = ""))
  | None => false
  end.

Definition perform_cuisine_filtered_search (collection : Collection) : io unit :=
  print (newline +:+ "🍽️ CUISINE-FILTERED SEARCH");;
  print (repeat_str "-" 30);;
  print "Available cuisines:";;
  print_cuisines 1 cuisines;;
  query_line ← input (newline +:+ "Enter search query: ");
  let query := strip query_line in
  choice_line ← input "Enter cuisine number (or cuisine name): ";
  let cuisine_choice := strip choice_line in
  if bool_decide (query = "") then
    print "❌ Please enter a search term"
  else
    cuisine_filter ←
      (if isdigit cuisine_choice then
         n ← int cuisine_choice;
         let idx := (n - 1)%Z in
         if bool_decide (0 ≤ idx < Z.of_nat (length cuisines))%Z
         then mret (cuisines !! Z.to_nat idx)
         else mret None
       else
         mret (if bool_decide (cuisine_choice = "") then None
               else Some (str_title cuisine_choice)));
    match cuisine_filter with
    | Some cuisine =>
        if bool_decide (cuisine = "") then
          print "❌ Invalid cuisine selection or empty input."
        else
          print (newline +:+ "🔍 Searching for '" +:+ query +:+ "' in "
                 +:+ cuisine +:+ " cuisine...");;
          results ← OnConsole.perform_filtered_similarity_search str_exception
                       collection query cuisine_filter None 5;
          display_search_results results
            ("Cuisine-Filtered Results (" +:+ cuisine +:+ ")") true
    | None =>
        print "❌ Invalid cuisine selection or empty input."
    end.

(** [if max_calories:] for a value that is [None] or a number. *)
Definition truthy_number (x : option Z) : bool :=
  match x with
  | Some n => negb (n =? 0)%Z
  | None => false
  end.

(** An f-string field for a value that is [None] or a number. *)
Definition str_number (x : option Z) : string :=
  match x with
  | Some n => pretty n
  | None => "None"
  end.

Definition perform_calorie_filtered_search (collection : Collection) : io unit :=
  print (newline +:+ "🔥 CALORIE-FILTERED SEARCH");;
  print (repeat_str "-" 30);;
  query_line ← input "Enter search query: ";
  let query := strip query_line in
  calories_line ← input "Enter maximum calories (or press Enter for no limit): ";
  let max_calories_input := strip calories_line in
  if bool_decide (query = "") then
    print "❌ Please enter a search term"
  else
    let search (max_calories : option Z) : io unit :=
      print (newline +:+ "🔍 Searching for '" +:+ query +:+ "'"
             +:+ (if truthy_number max_calories
                  then " with max " +:+ str_number max_calories +:+ " calories..."
                  else "..."));;
      results ← OnConsole.perform_filtered_similarity_search str_exception
                   collection query None max_calories 5;
      let calorie_text :=
        if truthy_number max_calories
        then "under " +:+ str_number max_calories +:+ " calories"
        else "any calories" in
      display_search_results results
        ("Calorie-Filtered Results (" +:+ calorie_text +:+ ")") true in
    if isdigit max_calories_input then
      n ← int max_calories_input;
      search (Some n)
    else if negb (bool_decide (max_calories_input = "")) then
      print "❌ Invalid calorie input. Please enter a number or leave blank."
    else
      search None.

Definition perform_combined_filtered_search (collection : Collection) : io unit :=
  print (newline +:+ "🎯 COMBINED FILTERS SEARCH");;
  print (repeat_str "-" 30);;
  query_line ← input "Enter search query: ";
  let query := strip query_line in
  cuisine_line ← input "Enter cuisine type (optional): ";
  let cuisine := strip cuisine_line in
  calories_line ← input "Enter maximum calories (optional): ";
  let max_calories_input := strip calories_line in
  if bool_decide (query = "") then
    print "❌ Please enter a search term"
  else
    let cuisine_filter :=
      if bool_decide (cuisine = "") then None else Some (str_title cuisine) in
    max_calories ←
      (if isdigit max_calories_input
       then n ← int max_calories_input; mret (Some n)
       else mret None);
    let filter_description := [] in
    let filter_description :=
      if truthy_text cuisine_filter
      then filter_description ++ ["cuisine: " +:+ default "" cuisine_filter]
      else filter_description in
    let filter_description :=
      match max_calories with
      | Some n => filter_description ++ ["max calories: " +:+ pretty n]
      | None => filter_description
      end in
    let filter_text :=
      match filter_description with
      | [] => "no filters"
      | _ :: _ => join ", " filter_description
      end in
    print (newline +:+ "🔍 Searching for '" +:+ query +:+ "' with "
           +:+ filter_text +:+ "...");;
    results ← OnConsole.perform_filtered_similarity_search str_exception
                 collection query cuisine_filter max_calories 5;
    display_search_results results
      ("Combined Filtered Results (" +:+ filter_text +:+ ")") true.

(** One entry of [demonstrations]. *)
Record Demonstration := {
  demo_title : string;
  demo_query : string;
  demo_cuisine_filter : option string;
  demo_max_calories : option Z;
}.

Definition demonstrations : list Demonstration :=
  [{| demo_title := "Italian Cuisine Search"; demo_query := "creamy pasta";
      demo_cuisine_filter := Some "Italian"; demo_max_calories := None |};
   {| demo_title := "Low-Calorie Healthy Options"; demo_query := "healthy meal";
      demo_cuisine_filter := None; demo_max_calories := Some 300%Z |};
   {| demo_title := "Asian Light Dishes"; demo_query := "light fresh meal";
      demo_cuisine_filter := Some "Japanese"; demo_max_calories := Some 250%Z |}].

(** [for i, demo in enumerate(demonstrations, 1)]. *)
Fixpoint demonstration_loop (collection : Collection) (i : Z)
    (demos : list Demonstration) : io unit :=
  match demos with
  | [] => mret ()
  | demo :: rest =>
      print (newline +:+ pretty i +:+ ". " +:+ demo_title demo);;
      print ("   Query: '" +:+ demo_query demo +:+ "'");;
      let filters := [] in
      let filters :=
        if truthy_text (demo_cuisine_filter demo)
        then filters ++ ["Cuisine: " +:+ default "" (demo_cuisine_filter demo)]
        else filters in
      let filters :=
        match demo_max_calories demo with
        | Some n => filters ++ ["Max Calories: " +:+ pretty n]
        | None => filters
        end in
      match filters with
      | [] => mret ()
      | _ :: _ => print ("   Filters: " +:+ join ", " filters)
      end;;
      results ← OnConsole.perform_filtered_similarity_search str_exception
                   collection (demo_query demo) (demo_cuisine_filter demo)
                   (demo_max_calories demo) 3;
      display_search_results results (demo_title demo) false;;
      input (newline +:+ "⏸️  Press Enter to continue to next demonstration...");;
      demonstration_loop collection (i + 1)%Z rest
  end.

Definition run_search_demonstrations (collection : Collection) : io unit :=
  print (newline +:+ "📊 SEARCH DEMONSTRATIONS");;
  print (repeat_str "=" 40);;
  demonstration_loop collection 1 demonstrations.

Definition show_advanced_help : io unit :=
  print (newline +:+ "📖 ADVANCED SEARCH HELP");;
  print (repeat_str "=" 40);;
  print "Search Types:";;
  print "  1. Basic Search - Standard similarity search";;
  print "  2. Cuisine Filter - Search within specific cuisine types";;
  print "  3. Calorie Filter - Search for foods under calorie limits";;
  print "  4. Combined Filters - Use multiple filters together";;
  print "  5. Demonstrations - See predefined search examples";;
  print (newline +:+ "Tips:");;
  print "  • Use descriptive terms: 'creamy', 'spicy', 'light'";;
  print "  • Combine ingredients: 'chicken vegetables'";;
  print "  • Try cuisine names: 'Italian', 'Thai', 'Mexican'";;
  print "  • Filter by calories for dietary goals".

(** The body of [while True:] of [interactive_advanced_search]; it
    returns whether the loop is left. *)
Definition option_step (collection : Collection) : io bool :=
  try_except_interrupt
    (choice_line ← input (newline +:+ "📋 Select option (1-7): ");
     let choice := strip choice_line in
     if bool_decide (choice = "1") then
       perform_basic_search collection;; mret false
     else if bool_decide (choice = "2") then
       perform_cuisine_filtered_search collection;; mret false
     else if bool_decide (choice = "3") then
       perform_calorie_filtered_search collection;; mret false
     else if bool_decide (choice = "4") then
       perform_combined_filtered_search collection;; mret false
     else if bool_decide (choice = "5") then
       run_search_demonstrations collection;; mret false
     else if bool_decide (choice = "6") then
       show_advanced_help;; mret false
     else if bool_decide (choice = "7") then
       print "👋 Exiting Advanced Search System. Goodbye!";; mret true
     else
       print "❌ Invalid option. Please select 1-7.";; mret false)
    (print (newline +:+ newline +:+ "👋 System interrupted. Goodbye!");; mret true)
    (λ e, print ("❌ Error: " +:+ str_exception e);; mret false).

(** The loop, run for at most [fuel] iterations: [Some ()] when it was
    left, [None] when it is still running after them. *)
Fixpoint option_loop (fuel : nat) (collection : Collection) : io (option unit) :=
  match fuel with
  | O => mret None
  | S fuel' =>
      leave ← option_step collection;
      if leave : bool then mret (Some ()) else option_loop fuel' collection
  end.

Definition interactive_advanced_search (fuel : nat) (collection : Collection)
    : io (option unit) :=
  print (newline +:+ repeat_str "=" 50);;
  print "🔧 ADVANCED SEARCH WITH FILTERS";;
  print (repeat_str "=" 50);;
  print "Search Options:";;
  print "  1. Basic similarity search";;
  print "  2. Cuisine-filtered search";;
  print "  3. Calorie-filtered search";;
  print "  4. Combined filters search";;
  print "  5. Demonstration mode";;
  print "  6. Help";;
  print "  7. Exit";;
  print (repeat_str "-" 50);;
  option_loop fuel collection.

End Handlers.

End Advanced.

(** ** The console functions of enhanced_rag_chatbot.py *)

Module Chatbot.
Import Py.
Import Shared.
Import Rag.
Import Console.

(** [c.lower()] on the code points below 256. *)
Definition lower_char (c : ascii) : ascii :=
  let n := nat_of_ascii c in
  if bool_decide (65 ≤ n ≤ 90) || (bool_decide (192 ≤ n ≤ 222) && negb (bool_decide (n = 215)))
  then ascii_of_nat (n + 32)
  else c.

(** [s.lower()]. *)
Fixpoint lower (s : string) : string :=
  match s with
  | EmptyString => EmptyString
  | String c s' => String (lower_char c) (lower s')
  end.

(** [s[:n]]. *)
Fixpoint str_take (n : nat) (s : string) : string :=
  match n, s with
  | S n', String c s' => String c (str_take n' s')
  | _, _ => EmptyString
  end.

(** [f"{s:<width}"]. *)
Definition ljust (width : nat) (s : string) : string :=
  s +:+ repeat_str " " (width - String.length s).

Section Handlers.
(** [f"{x:.1f}"] and [f"{x:.0f}"] of a float and the text [str(e)] of an
    exception are parameters; [client_openai] is the global client, as
    far as [chat.completions.create] goes. *)
Variable format_1f : Q → string.
Variable format_0f : Q → string.
Variable str_exception : signal → string.
Variable client_openai : ChatRequest → result Completion.

(** [for i, result in enumerate(search_results[:3], 1)] of
    [handle_enhanced_rag_query]. *)
Fixpoint details_loop (i : Z) (results : list SearchResult) : io unit :=
  match results with
  | [] => mret ()
  | result :: rest =>
      print (pretty i +:+ ". 🍽️  " +:+ food_name result);;
      print ("   📍 " +:+ cuisine_type result +:+ " | 🔥 "
             +:+ pretty (food_calories_per_serving result) +:+ " cal | 📈 "
             +:+ format_1f (similarity_score result * 100)%Q +:+ "% match");;
      (if bool_decide (i < 3)%Z then print "" else mret ());;
      details_loop (i + 1)%Z rest
  end.

Definition handle_enhanced_rag_query (collection : Collection) (query : string)
    (conversation_history : list string) : io unit :=
  print (newline +:+ "🔍 Searching vector database for: '" +:+ query +:+ "'...");;
  search_results ← OnConsole.perform_similarity_search str_exception
                     collection query 3;
  match search_results with
  | [] =>
      print "🤖 Bot: I couldn't find any food items matching your request.";;
      print "      Try describing what you're in the mood for with different words!"
  | _ :: _ =>
      print ("✅ Found " +:+ pretty (Z.of_nat (length search_results))
             +:+ " relevant matches");;
      print "🧠 Generating AI-powered response...";;
      ai_response ← OnConsole.generate_llm_rag_response format_1f str_exception
                       client_openai query (of_search_result <$> search_results);
      print (newline +:+ "🤖 Bot: " +:+ ai_response);;
      print (newline +:+ "📊 Search Results Details:");;
      print (repeat_str "-" 45);;
      details_loop 1 (take 3 search_results)
  end.

(** One side of a row of the comparison table. *)
Definition table_cell (results : list SearchResult) (i : nat) : string :=
  match results !! i with
  | Some result =>
      food_name result +:+ " ("
      +:+ format_0f (similarity_score result * 100)%Q +:+ "%)"
  | None => "---"
  end.

(** [for i in range(min(max_results, 3))]. *)
Fixpoint table_loop (indices : list nat) (results1 results2 : list SearchResult)
    : io unit :=
  match indices with
  | [] => mret ()
  | i :: rest =>
      let left := table_cell results1 i in
      let right := table_cell results2 i in
      print (ljust 30 (str_take 30 left) +:+ " | " +:+ str_take 30 right);;
      table_loop rest results1 results2
  end.

Definition handle_enhanced_comparison_mode (collection : Collection) : io unit :=
  print (newline +:+ "🔄 ENHANCED COMPARISON MODE");;
  print "   Powered by AI Analysis";;
  print (repeat_str "-" 35);;
  query1_line ← input "Enter first food query: ";
  let query1 := strip query1_line in
  query2_line ← input "Enter second food query: ";
  let query2 := strip query2_line in
  if bool_decide (query1 = "") || bool_decide (query2 = "") then
    print "❌ Please enter both queries for comparison"
  else
    print (newline +:+ "🔍 Analyzing '" +:+ query1 +:+ "' vs '" +:+ query2
           +:+ "' with AI...");;
    results1 ← OnConsole.perform_similarity_search str_exception
                 collection query1 3;
    results2 ← OnConsole.perform_similarity_search str_exception
                 collection query2 3;
    comparison_response ← OnConsole.generate_llm_comparison format_1f
                            str_exception client_openai query1 query2
                            (of_search_result <$> results1)
                            (of_search_result <$> results2);
    print (newline +:+ "🤖 AI Analysis: " +:+ comparison_response);;
    print (newline +:+ "📊 DETAILED COMPARISON");;
    print (repeat_str "=" 60);;
    print (ljust 30
             (if bool_decide (20 < len query1)%Z
              then "Query 1: " +:+ str_take 20 query1 +:+ "..."
              else "Query 1: " +:+ query1)
           +:+ " | "
           +:+ (if bool_decide (20 < len query2)%Z
                then "Query 2: " +:+ str_take 20 query2 +:+ "..."
                else "Query 2: " +:+ query2));;
    print (repeat_str "-" 60);;
    let max_results := length results1 `max` length results2 in
    table_loop (seq 0 (max_results `min` 3)) results1 results2.

(** The tip about dietary restrictions is a bare string in the source,
    not a call of [print]: it is not written. *)
Definition show_enhanced_rag_help : io unit :=
  print (newline +:+ "📖 ENHANCED RAG CHATBOT HELP");;
  print (repeat_str "=" 45);;
  print "🧠 This chatbot uses OpenAI's models to understand your";;
  print "   food preferences and provide intelligent recommendations.";;
  print (newline +:+ "How to get the best recommendations:");;
  print "  • Be specific: 'healthy Italian pasta under 350 calories'";;
  print "  • Mention preferences: 'spicy comfort food for cold weather'";;
  print "  • Include context: 'light breakfast for busy morning'";;
  print "  • Ask about benefits: 'protein-rich foods for workout recovery'";;
  print (newline +:+ "Special features:");;
  print "  • 🔍 Vector similarity search finds relevant foods";;
  print "  • 🧠 AI analysis provides contextual explanations";;
  print "  • 📊 Detailed nutritional and cuisine information";;
  print "  • 🔄 Smart comparison between different preferences";;
  print (newline +:+ "Commands:");;
  print "  • 'compare' - AI-powered comparison of two queries";;
  print "  • 'help' - Show this help menu";;
  print "  • 'quit' - Exit the chatbot";;
  print (newline +:+ "Tips for better results:");;
  print "  • Use natural language - talk like you would to a friend";;
  print "  • Include meal timing (breakfast, lunch, dinner)";;
  print "  • Specify if you want healthy, comfort, or indulgent options".

(** [conversation_history[-3:]]. *)
Definition last_three (history : list string) : list string :=
  drop (length history - 3) history.

(** The body of [while True:] of [enhanced_rag_food_chatbot]: it returns
    whether the loop is left, and the conversation history. *)
Definition chatbot_step (collection : Collection)
    (conversation_history : list string) : io (bool * list string) :=
  try_except_interrupt
    (input_line ← input (newline +:+ "👤 You: ");
     let user_input := strip input_line in
     if bool_decide (user_input = "") then
       print "🤖 Bot: Please tell me what kind of food you're looking for!";;
       mret (false, conversation_history)
     else if bool_decide (lower user_input ∈ ["quit"; "exit"; "q"]) then
       print (newline +:+ "🤖 Bot: Thank you for using the Enhanced RAG Food Chatbot!");;
       print "      Hope you found some delicious recommendations! 👋";;
       mret (true, conversation_history)
     else if bool_decide (lower user_input ∈ ["help"; "h"]) then
       show_enhanced_rag_help;;
       mret (false, conversation_history)
     else if bool_decide (lower user_input ∈ ["compare"]) then
       handle_enhanced_comparison_mode collection;;
       mret (false, conversation_history)
     else
       handle_enhanced_rag_query collection user_input conversation_history;;
       let conversation_history := conversation_history ++ [user_input] in
       let conversation_history :=
         if bool_decide (5 < length conversation_history)
         then last_three conversation_history
         else conversation_history in
       mret (false, conversation_history))
    (print (newline +:+ newline
            +:+ "🤖 Bot: Goodbye! Hope you find something delicious! 👋");;
     mret (true, conversation_history))
    (λ e,
       print ("❌ Bot: Sorry, I encountered an error: " +:+ str_exception e);;
       mret (false, conversation_history)).

(** The loop, run for at most [fuel] iterations: [Some history] when it
    was left, [None] when it is still running after them. *)
Fixpoint chatbot_loop (fuel : nat) (collection : Collection)
    (conversation_history : list string) : io (option (list string)) :=
  match fuel with
  | O => mret None
  | S fuel' =>
      step ← chatbot_step collection conversation_history;
      if step.1 : bool then mret (Some step.2)
      else chatbot_loop fuel' collection step.2
  end.

Definition enhanced_rag_food_chatbot (fuel : nat) (collection : Collection)
    : io (option (list string)) :=
  print (newline +:+ repeat_str "=" 70);;
  print "🤖 ENHANCED RAG FOOD RECOMMENDATION CHATBOT";;
  print "   Powered by OpenAI Models";;
  print (repeat_str "=" 70);;
  print "💬 Ask me about food recommendations using natural language!";;
  print (newline +:+ "Example queries:");;
  print "  • 'I want something spicy and healthy for dinner'";;
  print "  • 'What Italian dishes do you recommend under 400 calories?'";;
  print "  • 'I'm craving comfort food for a cold evening'";;
  print "  • 'Suggest some protein-rich breakfast options'";;
  print (newline +:+ "Commands:");;
  print "  • 'help' - Show detailed help menu";;
  print "  • 'compare' - Compare recommendations for two different queries";;
  print "  • 'quit' - Exit the chatbot";;
  print (repeat_str "-" 70);;
  chatbot_loop fuel collection [].

End Handlers.

End Chatbot.

(** ** The specification's wording, for comparison *)

Module Spec.
Import Shared.
Import Rag.

(** Filter composition as the specification words it: nothing when both
    constraints are [None], the single predicate when one is given, the
    conjunction of both when both are given. *)
Definition compose (cuisine_filter : option string) (max_calories : option Z)
    : option where_doc :=
  match cuisine_filter, max_calories with
  | None, None => None
  | Some c, None => Some (WhereEq "cuisine_type" c)
  | None, Some m => Some (WhereLte "calories" m)
  | Some c, Some m =>
      Some (WhereAnd [WhereEq "cuisine_type" c; WhereLte "calories" m])
  end.

(** The block of the context the specification describes for the
    result numbered [i]: its name, description, cuisine and calories;
    its ingredients, a list through its first five entries; its health
    benefits, cooking method and taste profile, each when it is present
    and not empty; its score as a percentage; and an empty line. *)
Definition optional_line (label : string) (v : option string) : list string :=
  match v with
  | Some text =>
      if bool_decide (text = "") then []
      else ["  - " +:+ label +:+ ": " +:+ text]
  | None => []
  end.

Definition ingredients_line (v : option ingredients_value) : list string :=
  match v with
  | Some (IngredientList (name :: names)) =>
      ["  - Key ingredients: " +:+ Py.join ", " (take 5 (name :: names))]
  | Some (IngredientText text) =>
      if bool_decide (text = "") then []
      else ["  - Key ingredients: " +:+ text]
  | Some (IngredientList []) | None => []
  end.

Definition context_block (format_1f : Q → string) (i : Z)
    (result : Result) : list string :=
  ["Option " +:+ pretty i +:+ ": " +:+ food_name result;
   "  - Description: " +:+ food_description result;
   "  - Cuisine: " +:+ cuisine_type result;
   "  - Calories: " +:+ pretty (food_calories_per_serving result)
     +:+ " per serving"]
  ++ ingredients_line (food_ingredients result)
  ++ optional_line "Health benefits" (food_health_benefits result)
  ++ optional_line "Cooking method" (cooking_method result)
  ++ optional_line "Taste profile" (taste_profile result)
  ++ ["  - Similarity score: "
        +:+ format_1f (similarity_score result * 100)%Q +:+ "%";
      ""].

(** A result with its list of ingredients cut to the first five. *)
Definition first_five_ingredients (result : Result) : Result :=
  {| hit := hit result;
     food_ingredients :=
       match food_ingredients result with
       | Some (IngredientList names) =>
           Some (IngredientList (take 5 names))
       | v => v
       end;
     food_health_benefits := food_health_benefits result;
     cooking_method := cooking_method result;
     taste_profile := taste_profile result |}.

(** The lines [display_search_results] is expected to write for the
    result numbered [i]. *)
Definition result_lines (format_1f : Q → string) (show_details : bool)
    (i : Z) (result : SearchResult) : list string :=
  let score := format_1f (similarity_score result * 100)%Q in
  if show_details then
    [Py.newline +:+ pretty i +:+ ". 🍽️  " +:+ food_name result +:+ Py.newline;
     "   📊 Similarity Score: " +:+ score +:+ "%" +:+ Py.newline;
     "   🏷️  Cuisine: " +:+ cuisine_type result +:+ Py.newline;
     "   🔥 Calories: " +:+ pretty (food_calories_per_serving result)
       +:+ Py.newline;
     "   📝 Description: " +:+ food_description result +:+ Py.newline]
  else
    ["   " +:+ pretty i +:+ ". " +:+ food_name result +:+ " (" +:+ score
       +:+ "% match)" +:+ Py.newline].

(** The lines [display_search_results] is expected to write. *)
Definition display_lines (format_1f : Q → string) (title : string)
    (show_details : bool) (results : list SearchResult) : list string :=
  [Py.newline +:+ "📋 " +:+ title +:+ Py.newline;
   Console.repeat_str "=" 50 +:+ Py.newline]
  ++ match results with
     | [] =>
         ["❌ No matching results found" +:+ Py.newline;
          "💡 Try adjusting your search terms or filters" +:+ Py.newline]
     | _ :: _ =>
         concat (imap (λ k result,
                   result_lines format_1f show_details (1 + Z.of_nat k) result)
                 results)
         ++ [Console.repeat_str "=" 50 +:+ Py.newline]
     end.

(** The two lines one of which ends [interactive_advanced_search]. *)
Definition goodbye : list string :=
  ["👋 Exiting Advanced Search System. Goodbye!" +:+ Py.newline;
   Py.newline +:+ Py.newline +:+ "👋 System interrupted. Goodbye!"
     +:+ Py.newline].

(** The source read as a sequence of mapping records, when it is one. *)
Definition records_of (source : Py.result Py.json) : option (list Py.dict) :=
  match source with
  | Py.Ok (Py.JArr items) =>
      mapM (λ item, match item with Py.JObj d => Some d | _ => None end) items
  | _ => None
  end.

(** The entry a search is expected to return for a hit with the given
    id, distance and metadata. *)
Definition hit_entry (id : string) (d : Q) (m : Metadata) : SearchResult :=
  {| food_id := id;
     food_name := default "N/A" (md_name m);
     food_description := default "N/A" (md_description m);
     cuisine_type := default "N/A" (md_cuisine_type m);
     food_calories_per_serving := default 0%Z (md_calories m);
     similarity_score := Py.float_sub 1 d;
     distance := d |}.

End Spec.

(** ** Sample inputs

    Concrete collaborators and records on which the functions above are
    run in the examples that accompany the properties. *)

Module Samples.
Import Py.
Import Shared.
Import Rag.

Definition margherita : Metadata :=
  {| md_name := Some "Margherita"; md_description := Some "Tomato and mozzarella";
     md_cuisine_type := Some "Italian"; md_calories := Some 200%Z |}.

Definition green_curry : Metadata :=
  {| md_name := Some "Green curry"; md_description := None;
     md_cuisine_type := Some "Thai"; md_calories := None |}.

(** An answer with two hits, the second one farther than orthogonal. *)
Definition two_hits : QueryResult :=
  {| ids := [["1"; "2"]];
     distances := [[(1 # 4)%Q; (3 # 2)%Q]];
     metadatas := [[margherita; green_curry]] |}.

Definition no_hits : QueryResult :=
  {| ids := [[]]; distances := [[]]; metadatas := [[]] |}.

(** An index that answers every query with [two_hits]. *)
Definition stub_collection : Collection :=
  {| query := λ _ _ _, Ok two_hits; add := λ _ _ _, Ok () |}.

(** An index that has nothing to return. *)
Definition empty_collection : Collection :=
  {| query := λ _ _ _, Ok no_hits; add := λ _ _ _, Ok () |}.

(** An index whose every call raises. *)
Definition failing_collection : Collection :=
  {| query := λ _ _ _, Raise (ServiceError "index unavailable");
     add := λ _ _ _, Raise (ServiceError "index unavailable") |}.

Definition margherita_hit : SearchResult :=
  {| food_id := "1"; food_name := "Margherita";
     food_description := "Tomato and mozzarella"; cuisine_type := "Italian";
     food_calories_per_serving := 200; similarity_score := (3 # 4)%Q;
     distance := (1 # 4)%Q |}.

Definition green_curry_hit : SearchResult :=
  {| food_id := "2"; food_name := "Green curry"; food_description := "N/A";
     cuisine_type := "Thai"; food_calories_per_serving := 0;
     similarity_score := (-1 # 2)%Q; distance := (3 # 2)%Q |}.

(** An answer with two ids and a single distance, and an index that
    gives it. *)
Definition short_answer : QueryResult :=
  {| ids := [["1"; "2"]];
     distances := [[(1 # 4)%Q]];
     metadatas := [[margherita; green_curry]] |}.

Definition misaligned_collection : Collection :=
  {| query := λ _ _ _, Ok short_answer; add := λ _ _ _, Ok () |}.

(** A result that carries ingredients and the other optional keys. *)
Definition pad_thai : Result :=
  {| hit := {| food_id := "3"; food_name := "Pad Thai";
               food_description := "Stir-fried rice noodles";
               cuisine_type := "Thai"; food_calories_per_serving := 350;
               similarity_score := (4 # 5)%Q; distance := (1 # 5)%Q |};
     food_ingredients :=
       Some (IngredientList
         ["noodles"; "egg"; "tofu"; "peanuts"; "lime"; "sprouts"; "chili"]);
     food_health_benefits := Some "Protein";
     cooking_method := Some "";
     taste_profile := None |}.

Definition four_results : list Result :=
  [of_search_result margherita_hit; pad_thai; of_search_result green_curry_hit;
   of_search_result margherita_hit].

(** A catalog in which three records carry the id 7 and one carries the
    id that the second of them is given. *)
Definition catalog_with_duplicates : list dict :=
  [[("food_name", JStr "Pad Thai"); ("food_id", JStr "7")];
   [("food_name", JStr "Green curry"); ("food_id", JStr "7");
    ("food_ingredients", JArr [JStr "coconut milk"; JStr "basil"])];
   [("food_name", JStr "Tom yum"); ("food_id", JStr "7_1")];
   [("food_name", JStr "Satay"); ("food_id", JInt 7)];
   [("food_name", JStr "Larb")]].

(** A catalog whose ids are distinct; the last record has none. *)
Definition catalog_with_distinct_ids : list dict :=
  [[("food_name", JStr "Pad Thai"); ("food_id", JStr "a")];
   [("food_name", JStr "Green curry"); ("food_id", JInt 7);
    ("cuisine_type", JStr "Thai"); ("food_calories_per_serving", JInt 320)];
   [("food_name", JStr "Larb")]].

(** A catalog whose second record has no name. *)
Definition catalog_with_nameless_record : list dict :=
  [[("food_name", JStr "Pad Thai"); ("food_id", JStr "a")];
   [("food_id", JStr "b")]].

(** The source of a catalog: two records, the second without most fields. *)
Definition raw_catalog : json :=
  JArr [JObj [("food_id", JInt 7); ("food_name", JStr "Pad Thai");
              ("cuisine_type", JStr "Thai");
              ("food_features", JObj [("taste", JStr "sweet");
                                      ("spicy", JBool false);
                                      ("texture", JStr "soft")])];
        JObj [("food_name", JStr "Larb")]].

(** A completion service that raises, one that answers with too short a
    text, and one that answers with a text that is long enough, between
    blanks. *)
Definition raising_client : ChatRequest → result Completion :=
  λ _, Raise (ServiceError "quota exceeded").

Definition terse_client : ChatRequest → result Completion :=
  λ _, Ok {| choices := [Some "  Try the curry.  "] |}.

Definition helpful_client : ChatRequest → result Completion :=
  λ _, Ok {| choices :=
    [Some "  Margherita is a light Italian classic at 200 calories. Enjoy!  "] |}.

(** What the examples pass for [f"{x:.0f}"], for [str.title] (right on
    a text that is in title case already) and for the text of an
    exception. *)
Definition format_0f_exact (x : Q) : string :=
  (if Qlt_le_dec x 0 then "-" else "") +:+ pretty (round_half_even (Qabs x)).

Definition str_title (s : string) : string := s.

Definition str_exception (s : Console.signal) : string :=
  match s with
  | Console.Exception (ServiceError message) => message
  | Console.Exception _ => "error"
  | Console.ValueError => "invalid literal for int() with base 10"
  | Console.EOFError => "EOF when reading a line"
  | Console.KeyboardInterrupt => ""
  end.

End Samples.

(** * Properties *)

Import Py Shared Rag.

(** ** Similarity search *)

(** Inversion of a sequenced statement that did not raise. *)
Lemma bind_Ok {A B} (r : result A) (k : A → result B) (b : B) :
  r ≫= k = Ok b → ∃ a, r = Ok a ∧ k a = Ok b.
Proof. destruct r as [a|e]; [eauto | discriminate]. Qed.

Lemma index_Ok {A} (l : list A) (i : nat) (a : A) :
  index l i = Ok a → l !! i = Some a.
Proof. unfold index. destruct (l !! i); congruence. Qed.

Ltac inv_bind H :=
  repeat (apply bind_Ok in H as (? & ?%index_Ok & H)); cbn in H.

(** ** Binary64 subtraction *)

(** Rounding to the nearest integer, ties to even, is off by a half at
    most and never crosses an integer. *)
Lemma round_half_even_cases (q : Q) :
  let d := Z.pos (Qden q) in
  let m := round_half_even q in
  (2 * Qnum q - d ≤ 2 * m * d ≤ 2 * Qnum q + d)%Z.
Proof.
  destruct q as [n d]. unfold round_half_even. cbn [Qnum Qden].
  pose proof (Z.div_mod n (Z.pos d) ltac:(done)) as Hdiv.
  pose proof (Z.mod_pos_bound n (Z.pos d) ltac:(done)) as Hmod.
  repeat case_match;
    repeat match goal with
    | H : (_ <? _)%Z = true |- _ => apply Z.ltb_lt in H
    | H : (_ <? _)%Z = false |- _ => apply Z.ltb_ge in H
    end; nia.
Qed.

Lemma round_half_even_lower (N : Z) (q : Q) :
  (inject_Z N <= q)%Q → (N ≤ round_half_even q)%Z.
Proof.
  destruct q as [n d]. unfold Qle. cbn [Qnum Qden inject_Z]. intros H.
  pose proof (round_half_even_cases (n # d)) as Hc. cbn [Qnum Qden] in Hc.
  cbv zeta in Hc. nia.
Qed.

Lemma round_half_even_upper (N : Z) (q : Q) :
  (q <= inject_Z N)%Q → (round_half_even q ≤ N)%Z.
Proof.
  destruct q as [n d]. unfold Qle. cbn [Qnum Qden inject_Z]. intros H.
  pose proof (round_half_even_cases (n # d)) as Hc. cbn [Qnum Qden] in Hc.
  cbv zeta in Hc. nia.
Qed.

Lemma round_half_even_error (q : Q) :
  (Qabs (inject_Z (round_half_even q) - q) <= 1 # 2)%Q.
Proof.
  pose proof (round_half_even_cases q) as Hc. cbv zeta in Hc.
  apply Qabs_Qle_condition. destruct q as [n d]. cbn [Qnum Qden] in Hc.
  unfold Qle, Qminus, Qplus, Qopp, inject_Z. cbn [Qnum Qden]. split; nia.
Qed.

Lemma pow2_pos (e : Z) : (0 < 2 ^ e)%Q.
Proof. by apply Qpower_0_lt. Qed.

Lemma pow2_plus (e1 e2 : Z) : (2 ^ (e1 + e2) == 2 ^ e1 * 2 ^ e2)%Q.
Proof. by apply Qpower_plus. Qed.

Lemma pow2_inject (e : Z) : (0 ≤ e)%Z → (inject_Z (2 ^ e) == 2 ^ e)%Q.
Proof. intros He. by rewrite Zpower_Qpower. Qed.

Lemma float_exponent_spec (x : Q) :
  (0 < x)%Q →
  (2 ^ float_exponent x <= x)%Q ∧ (x < 2 ^ (float_exponent x + 1))%Q.
Proof.
  intros Hx. unfold float_exponent.
  set (a := Z.log2 (Qnum x)). set (b := Z.log2 (Z.pos (Qden x))).
  assert (0 < Qnum x)%Z as Hn.
  { destruct x as [n d]. unfold Qlt in Hx. cbn in *. lia. }
  destruct (Z.log2_spec (Qnum x) Hn) as [Ha1 Ha2]. fold a in Ha1, Ha2.
  destruct (Z.log2_spec (Z.pos (Qden x)) ltac:(done)) as [Hb1 Hb2].
  fold b in Hb1, Hb2.
  assert (0 ≤ a)%Z as Ha0 by apply Z.log2_nonneg.
  assert (0 ≤ b)%Z as Hb0 by apply Z.log2_nonneg.
  set (N := inject_Z (Qnum x)). set (D := inject_Z (Z.pos (Qden x))).
  assert (x * D == N)%Q as HxD.
  { destruct x as [n d]. unfold N, D, Qeq, Qmult, inject_Z. cbn. lia. }
  assert (0 < D)%Q as HD by (unfold D, Qlt, inject_Z; cbn; lia).
  assert (2 ^ a <= N)%Q as HA1.
  { rewrite <-pow2_inject by done. unfold N. by rewrite <-Zle_Qle. }
  assert (N < 2 * 2 ^ a)%Q as HA2.
  { rewrite <-(pow2_inject a) by done. unfold N.
    change 2%Q with (inject_Z 2). rewrite <-inject_Z_mult, <-Zlt_Qlt.
    rewrite Z.pow_succ_r in Ha2 by done. lia. }
  assert (2 ^ b <= D)%Q as HB1.
  { rewrite <-pow2_inject by done. unfold D. by rewrite <-Zle_Qle. }
  assert (D < 2 * 2 ^ b)%Q as HB2.
  { rewrite <-(pow2_inject b) by done. unfold D.
    change 2%Q with (inject_Z 2). rewrite <-inject_Z_mult, <-Zlt_Qlt.
    rewrite Z.pow_succ_r in Hb2 by done. lia. }
  assert (2 ^ (a - b) * 2 ^ b == 2 ^ a)%Q as HE.
  { rewrite <-pow2_plus. by replace (a - b + b)%Z with a by lia. }
  pose proof (pow2_pos a) as HAp. pose proof (pow2_pos b) as HBp.
  pose proof (pow2_pos (a - b)) as HEp.
  destruct (Qle_bool (2 ^ (a - b)) x) eqn:Htest.
  - apply Qle_bool_iff in Htest. split; [done|].
    rewrite pow2_plus. change (2 ^ 1)%Q with 2%Q.
    generalize dependent (2 ^ (a - b))%Q. generalize dependent (2 ^ a)%Q.
    generalize dependent (2 ^ b)%Q. intros B HB1 HB2 HBp A HA1 HA2 HAp E HE HEp Htest.
    nra.
  - assert (x < 2 ^ (a - b))%Q as Hlt.
    { apply Qnot_le_lt. intros H%Qle_bool_iff. congruence. }
    replace (a - b - 1 + 1)%Z with (a - b)%Z by lia. split; [|done].
    assert (2 ^ (a - b - 1) * 2 == 2 ^ (a - b))%Q as HE1.
    { change 2%Q with (2 ^ 1)%Q at 2. rewrite <-pow2_plus.
      by replace (a - b - 1 + 1)%Z with (a - b)%Z by lia. }
    pose proof (pow2_pos (a - b - 1)) as HE1p.
    generalize dependent (2 ^ (a - b - 1))%Q.
    generalize dependent (2 ^ (a - b))%Q. generalize dependent (2 ^ a)%Q.
    generalize dependent (2 ^ b)%Q.
    intros B HB1 HB2 HBp A HA1 HA2 HAp E HE HEp _ Hlt E1 HE1 HE1p.
    nra.
Qed.

(** The significand [float_round] keeps has 53 bits. *)
Lemma float_round_significand (x : Q) :
  (0 < x)%Q →
  (2 ^ 52 ≤ round_half_even (x * 2 ^ (52 - float_exponent x)) ≤ 2 ^ 53)%Z.
Proof.
  intros Hx. destruct (float_exponent_spec x Hx) as [Hlow Hhigh].
  set (e := float_exponent x) in *.
  pose proof (pow2_pos (52 - e)) as Hup.
  split.
  - apply round_half_even_lower. rewrite pow2_inject by done.
    replace 52%Z with (e + (52 - e))%Z at 1 by lia. rewrite pow2_plus.
    apply Qmult_le_compat_r; [done | by apply Qlt_le_weak].
  - apply round_half_even_upper. rewrite pow2_inject by done.
    replace 53%Z with (e + 1 + (52 - e))%Z by lia. rewrite pow2_plus.
    apply Qmult_le_compat_r; by apply Qlt_le_weak.
Qed.

(** The magnitude of [float_round x] for a positive [x]: it is positive,
    at most 1 when [x] is, and off [x] by at most its fraction [2^-53]. *)
Lemma float_round_magnitude (x : Q) :
  (0 < x)%Q →
  let e := float_exponent x in
  let mag := (inject_Z (round_half_even (x * 2 ^ (52 - e))) * 2 ^ (e - 52))%Q in
  (0 < mag)%Q
  ∧ ((x <= 1)%Q → (mag <= 1)%Q)
  ∧ (Qabs (mag - x) <= x * (1 # 9007199254740992))%Q.
Proof.
  intros Hx e mag. destruct (float_exponent_spec x Hx) as [Hlow _]. fold e in Hlow.
  set (s := (x * 2 ^ (52 - e))%Q) in *. set (m := round_half_even s) in *.
  pose proof (pow2_pos e) as Hep. pose proof (pow2_pos (52 - e)) as Hup.
  pose proof (pow2_pos (e - 52)) as Hdp.
  assert (2 ^ (52 - e) * 2 ^ (e - 52) == 1)%Q as Hinv.
  { rewrite <-pow2_plus. by replace (52 - e + (e - 52))%Z with 0%Z by lia. }
  assert (2 ^ e * 2 ^ (52 - e) == inject_Z (2 ^ 52))%Q as H52.
  { rewrite <-pow2_plus. replace (e + (52 - e))%Z with 52%Z by lia.
    by rewrite pow2_inject. }
  assert (inject_Z (2 ^ 52) <= s)%Q as Hs.
  { rewrite <-H52. unfold s. apply Qmult_le_compat_r; [done|]. by apply Qlt_le_weak. }
  apply round_half_even_lower in Hs. fold m in Hs.
  assert (inject_Z (2 ^ 52) <= inject_Z m)%Q as Hm by by rewrite <-Zle_Qle.
  assert (0 < inject_Z (2 ^ 52))%Q as H52p by done.
  split; [|split].
  - unfold mag. apply Qmult_lt_0_compat; [|done].
    eapply Qlt_le_trans; [exact H52p | exact Hm].
  - intros H1. assert (e ≤ 0)%Z as He.
    { apply (Qpower_le_compat_l_inv 2); [|done].
      change (2 ^ 0)%Q with 1%Q. by apply (Qle_trans _ x). }
    assert (s <= inject_Z (2 ^ (52 - e)))%Q as Hsu.
    { rewrite pow2_inject by lia. unfold s.
      rewrite <-(Qmult_1_l (2 ^ (52 - e))) at 2.
      apply Qmult_le_compat_r; [done|]. by apply Qlt_le_weak. }
    apply round_half_even_upper in Hsu. fold m in Hsu.
    assert (inject_Z m <= 2 ^ (52 - e))%Q as Hmu.
    { rewrite <-pow2_inject by lia. by rewrite <-Zle_Qle. }
    unfold mag. rewrite <-Hinv. apply Qmult_le_compat_r; [done|].
    by apply Qlt_le_weak.
  - pose proof (round_half_even_error s) as Herr. fold m in Herr.
    apply Qabs_Qle_condition in Herr as [Herr1 Herr2].
    assert (s * 2 ^ (e - 52) == x)%Q as Hsx.
    { unfold s. rewrite <-Qmult_assoc, Hinv. apply Qmult_1_r. }
    assert (2 ^ (e - 52) * inject_Z (2 ^ 52) == 2 ^ e)%Q as Hd52.
    { rewrite pow2_inject by done. rewrite <-pow2_plus.
      by replace (e - 52 + 52)%Z with e by lia. }
    apply Qabs_Qle_condition. unfold mag.
    change (inject_Z (2 ^ 52)) with 4503599627370496%Q in *.
    generalize dependent (inject_Z m). generalize dependent (2 ^ (e - 52))%Q.
    generalize dependent (2 ^ (52 - e))%Q. generalize dependent (2 ^ e)%Q.
    intros. split; nra.
Qed.

(** [float_round] keeps the sign, keeps a number of [[-1,1]] there, and
    is off by at most the fraction [2^-53] of the number. *)
Lemma float_round_spec (x : Q) :
  ((0 < x)%Q → (0 < float_round x)%Q)
  ∧ ((x < 0)%Q → (float_round x < 0)%Q)
  ∧ ((x == 0)%Q → float_round x = 0%Q)
  ∧ ((-1 <= x <= 1)%Q → (-1 <= float_round x <= 1)%Q)
  ∧ (Qabs (float_round x - x) <= Qabs x * (1 # 9007199254740992))%Q.
Proof.
  destruct x as [[|p|p] d].
  - unfold float_round. cbn [Qnum]. split; [|split; [|split; [|split]]].
    + done.
    + done.
    + done.
    + intros _. split; discriminate.
    + discriminate.
  - assert (0 < Z.pos p # d)%Q as Hx by reflexivity.
    destruct (float_round_magnitude _ Hx) as (Hpos & Hunit & Herr).
    cbv zeta in Hpos, Hunit, Herr.
    set (mag := (inject_Z _ * _)%Q) in *.
    assert (float_round (Z.pos p # d) == mag)%Q as Hfr.
    { unfold float_round. cbn [Qnum Qabs Z.abs Z.sgn]. rewrite Qred_correct.
      by rewrite Z.mul_1_l. }
    split; [|split; [|split; [|split]]].
    + intros _. by rewrite Hfr.
    + intros H. destruct (Qlt_irrefl 0). by apply (Qlt_trans _ (Z.pos p # d)).
    + intros H. rewrite H in Hx. by destruct (Qlt_irrefl 0).
    + intros [_ H1]. rewrite Hfr. split; [|by apply Hunit].
      apply Qlt_le_weak, (Qlt_trans _ 0); [reflexivity|done].
    + rewrite Hfr. by rewrite (Qabs_pos (Z.pos p # d)) by by apply Qlt_le_weak.
  - assert (0 < Z.pos p # d)%Q as Hx by reflexivity.
    destruct (float_round_magnitude _ Hx) as (Hpos & Hunit & Herr).
    cbv zeta in Hpos, Hunit, Herr.
    set (mag := (inject_Z _ * _)%Q) in *.
    assert (float_round (Z.neg p # d) == - mag)%Q as Hfr.
    { unfold float_round. cbn [Qnum Qabs Z.abs Z.sgn]. rewrite Qred_correct.
      rewrite Z.mul_comm, <-Z.opp_eq_mul_m1, inject_Z_opp. unfold mag.
      change (Z.abs (Z.neg p)) with (Z.pos p).
      generalize (2 ^ (float_exponent (Z.pos p # d) - 52))%Q. intros u. ring. }
    assert (Z.neg p # d == - (Z.pos p # d))%Q as Hneg by reflexivity.
    split; [|split; [|split; [|split]]].
    + intros H. rewrite Hneg in H. lra.
    + intros _. rewrite Hfr. lra.
    + intros H. rewrite Hneg in H. lra.
    + intros [H1 _]. rewrite Hneg in H1. rewrite Hfr.
      assert (mag <= 1)%Q by (apply Hunit; lra). lra.
    + rewrite Hfr, Hneg, Qabs_opp, (Qabs_pos (Z.pos p # d))
        by by apply Qlt_le_weak.
      assert (- mag - - (Z.pos p # d) == - (mag - (Z.pos p # d)))%Q as Hopp
        by ring.
      by rewrite Hopp, Qabs_opp.
Qed.

(** The score of a distance of the cosine range. *)
Lemma float_sub_range (d : Q) :
  (0 <= d <= 2)%Q →
  (-1 <= float_sub 1 d <= 1)%Q
  ∧ ((0 <= float_sub 1 d <= 1)%Q ↔ (0 <= d <= 1)%Q).
Proof.
  intros Hd. unfold float_sub.
  destruct (float_round_spec (1 - d)) as (Hpos & Hneg & Hzero & Hunit & _).
  assert (-1 <= float_round (1 - d) <= 1)%Q as Hrange by (apply Hunit; lra).
  split; [done|]. split.
  - intros [H0 _]. split; [lra|]. apply Qnot_lt_le. intros Hlt.
    assert (float_round (1 - d) < 0)%Q by (apply Hneg; lra). lra.
  - intros [_ H1]. split; [|lra].
    destruct (Qlt_le_dec 0 (1 - d)) as [Hp|Hz].
    + apply Qlt_le_weak, Hpos, Hp.
    + rewrite Hzero; [done|lra].
Qed.

(** One formatted result: its score is one minus its distance, and its
    distance and id are what the index returned at that position. *)
Lemma format_result_Ok (results : QueryResult) (i : nat) (r : SearchResult) :
  format_result results i = Ok r →
  similarity_score r = float_sub 1 (distance r)
  ∧ (distances results !! 0 ≫= (.!! i)) = Some (distance r)
  ∧ (ids results !! 0 ≫= (.!! i)) = Some (food_id r).
Proof.
  unfold format_result. intros H. inv_bind H.
  injection H as <-. cbn. simplify_eq.
  repeat match goal with H : _ !! _ = Some _ |- _ => rewrite H; clear H end.
  done.
Qed.

(** The loop appends one formatted result per index, in index order. *)
Lemma format_loop_Ok (results : QueryResult) (indices : list nat)
    (acc rs : list SearchResult) :
  format_loop results indices acc = Ok rs →
  ∃ new, rs = acc ++ new
         ∧ Forall2 (λ i r, format_result results i = Ok r) indices new.
Proof.
  revert acc. induction indices as [|i rest IH]; intros acc H; cbn in H.
  - injection H as <-. exists []. by rewrite app_nil_r.
  - apply bind_Ok in H as (r & Hr & H).
    apply IH in H as (new & -> & Hnew).
    exists (r :: new). split; [by rewrite <-app_assoc | by constructor].
Qed.

Lemma format_results_Ok (results : QueryResult) (rs : list SearchResult)
    (i : nat) (r : SearchResult) :
  format_results results = Ok rs → rs !! i = Some r →
  format_result results i = Ok r.
Proof.
  unfold format_results. intros H Hi.
  destruct (ids results) as [|ids0 ?]; [by simplify_eq|].
  case_bool_decide; [by simplify_eq|].
  apply format_loop_Ok in H as (new & -> & Hall). cbn in Hi.
  destruct (Forall2_lookup_r _ _ _ _ _ Hall Hi) as (j & Hj & Hr).
  apply lookup_seq in Hj as [-> _]. done.
Qed.

(** Either search returns what [format_results] makes of the answer of
    the index, and the empty list when the query or the formatting raised. *)
Lemma perform_similarity_search_Ok collection query_text n_results :
  perform_similarity_search collection query_text n_results =
    match query collection [query_text] n_results None ≫= format_results with
    | Ok rs => Ok rs
    | Raise _ => Ok []
    end.
Proof. done. Qed.

Lemma perform_filtered_similarity_search_Ok collection query_text
    cuisine_filter max_calories n_results :
  perform_filtered_similarity_search collection query_text cuisine_filter
      max_calories n_results =
    match query collection [query_text] n_results
            (build_where_clause cuisine_filter max_calories) ≫= format_results with
    | Ok rs => Ok rs
    | Raise _ => Ok []
    end.
Proof. done. Qed.

(** A search result is a formatted hit of the answer the index gave. *)
Lemma search_result_formatted collection query_text n_results where_clause
    (rs : list SearchResult) (i : nat) (r : SearchResult) :
  match query collection [query_text] n_results where_clause ≫= format_results with
  | Ok rs => Ok rs
  | Raise _ => Ok []
  end = Ok rs →
  rs !! i = Some r →
  ∃ results, query collection [query_text] n_results where_clause = Ok results
             ∧ format_result results i = Ok r.
Proof.
  intros H Hi.
  destruct (query collection _ _ _) as [results|e] eqn:Hq; cbn in H.
  - exists results. split; [done|].
    destruct (format_results results) as [rs'|e] eqn:Hf; simplify_eq.
    by eapply format_results_Ok.
  - by simplify_eq.
Qed.

(** C1. Every result of the unfiltered and of the filtered search has
    [similarity_score = 1 - distance], the subtraction being that of
    binary64 arithmetic: the score is the binary64 number nearest to the
    exact difference, from which it is off by at most the fraction
    [2^-53] of it.  [distance] is the distance the index returned for
    that hit (the entry at the same position of the first list of
    distances). *)
Theorem similarity_score_is_one_minus_distance
    (collection : Collection) (query_text : string) (n_results : Z)
    (cuisine_filter : option string) (max_calories : option Z) :
  (∀ rs i r,
     perform_similarity_search collection query_text n_results = Ok rs →
     rs !! i = Some r →
     similarity_score r = float_sub 1 (distance r)
     ∧ (Qabs (similarity_score r - (1 - distance r))
        <= Qabs (1 - distance r) * (1 # 9007199254740992))%Q
     ∧ ∃ results,
         query collection [query_text] n_results None = Ok results
         ∧ (distances results !! 0 ≫= (.!! i)) = Some (distance r))
  ∧ (∀ rs i r,
     perform_filtered_similarity_search collection query_text cuisine_filter
       max_calories n_results = Ok rs →
     rs !! i = Some r →
     similarity_score r = float_sub 1 (distance r)
     ∧ (Qabs (similarity_score r - (1 - distance r))
        <= Qabs (1 - distance r) * (1 # 9007199254740992))%Q
     ∧ ∃ results,
         query collection [query_text] n_results
           (build_where_clause cuisine_filter max_calories) = Ok results
         ∧ (distances results !! 0 ≫= (.!! i)) = Some (distance r)).
Proof.
  split; intros rs i r H Hi.
  - rewrite perform_similarity_search_Ok in H.
    destruct (search_result_formatted _ _ _ _ _ _ _ H Hi) as (results & Hq & Hf).
    apply format_result_Ok in Hf as (Hs & ? & _).
    split; [done|]. split; [|eauto].
    rewrite Hs. apply float_round_spec.
  - rewrite perform_filtered_similarity_search_Ok in H.
    destruct (search_result_formatted _ _ _ _ _ _ _ H Hi) as (results & Hq & Hf).
    apply format_result_Ok in Hf as (Hs & ? & _).
    split; [done|]. split; [|eauto].
    rewrite Hs. apply float_round_spec.
Qed.

(** The sample index returns two hits; the scores are 3/4 and -1/2. *)
Example stub_collection_search :
  perform_similarity_search Samples.stub_collection "pasta" 5
  = Ok [Samples.margherita_hit; Samples.green_curry_hit].
Proof. reflexivity. Qed.

Lemma similarity_score_is_one_minus_distance_witness :
  similarity_score Samples.green_curry_hit
    = float_sub 1 (distance Samples.green_curry_hit)
  ∧ (Qabs (similarity_score Samples.green_curry_hit
           - (1 - distance Samples.green_curry_hit))
     <= Qabs (1 - distance Samples.green_curry_hit) * (1 # 9007199254740992))%Q
  ∧ ∃ results,
      query Samples.stub_collection ["pasta"] 5 None = Ok results
      ∧ (distances results !! 0 ≫= (.!! 1)) = Some (distance Samples.green_curry_hit).
Proof.
  apply (proj1 (similarity_score_is_one_minus_distance
                  Samples.stub_collection "pasta" 5 None None)
           [Samples.margherita_hit; Samples.green_curry_hit] 1);
    reflexivity.
Defined.

(** C2, as stated, fails: the sample index returns a hit at distance
    3/2, inside the cosine range [0,2], and its score is -1/2. *)
Lemma similarity_score_below_zero :
  perform_similarity_search Samples.stub_collection "pasta" 5
    = Ok [Samples.margherita_hit; Samples.green_curry_hit]
  ∧ (0 <= distance Samples.green_curry_hit <= 2)%Q
  ∧ ¬ (0 <= similarity_score Samples.green_curry_hit <= 1)%Q.
Proof.
  split; [reflexivity|]. split; [split; discriminate|].
  intros [H _]. by apply H.
Qed.

(** The subtraction of that hit is exact in binary64 arithmetic, where
    the score is negative as well.  On the binary64 numbers of the
    kernel, [float_sub] is the subtraction: for 0.1, whose difference
    from 1 is rounded, for the neighbours of 1, for distances beyond the
    cosine range, and for the smallest and the largest number. *)
Section Binary64.
Import PrimFloat.

Example binary64_score_below_zero :
  (1 - 1.5 =? -0.5)%float = true ∧ (1 - 1.5 <? 0)%float = true.
Proof. split; reflexivity. Qed.

Example float_sub_is_binary64 :
  Forall (λ d, float_value (1 - d) = float_sub 1 <$> float_value d)
    [0x1.999999999999ap-4; 0x1.3333333333333p-2; 0x1.8p+0; 0x0p+0;
     0x1p+0; 0x1.fffffffffffffp-1; 0x1.0000000000001p+0; 0x1p+1;
     0x1.5555555555555p-2; 0x1.2p-60; 0x1.c6bf52634p+49; 0x1p-1074;
     0x1.fffffffffffffp+1023]%float.
Proof. repeat constructor. Qed.

(** At distance 0.1 the score is the binary64 number 0.9, which is not
    the exact difference. *)
Example float_sub_rounds :
  float_value 0x1.999999999999ap-4%float
    = Some (3602879701896397 # 36028797018963968)%Q
  ∧ float_sub 1 (3602879701896397 # 36028797018963968)
    = (8106479329266893 # 9007199254740992)%Q
  ∧ ¬ (float_sub 1 (3602879701896397 # 36028797018963968)
       == 1 - (3602879701896397 # 36028797018963968))%Q.
Proof.
  split; [reflexivity|]. split; [reflexivity|].
  intros H. vm_compute in H. discriminate H.
Qed.

End Binary64.

(** C2, amended. For a distance in the cosine range [0,2] the score of
    a result of either search lies in [-1,1]; it lies in [0,1] exactly
    when the distance is at most 1. *)
Theorem similarity_score_range
    (collection : Collection) (query_text : string) (n_results : Z)
    (cuisine_filter : option string) (max_calories : option Z) :
  (∀ rs i r,
     perform_similarity_search collection query_text n_results = Ok rs →
     rs !! i = Some r →
     (0 <= distance r <= 2)%Q →
     (-1 <= similarity_score r <= 1)%Q
     ∧ ((0 <= similarity_score r <= 1)%Q ↔ (0 <= distance r <= 1)%Q))
  ∧ (∀ rs i r,
     perform_filtered_similarity_search collection query_text cuisine_filter
       max_calories n_results = Ok rs →
     rs !! i = Some r →
     (0 <= distance r <= 2)%Q →
     (-1 <= similarity_score r <= 1)%Q
     ∧ ((0 <= similarity_score r <= 1)%Q ↔ (0 <= distance r <= 1)%Q)).
Proof.
  split; intros rs i r H Hi Hd.
  - rewrite perform_similarity_search_Ok in H.
    destruct (search_result_formatted _ _ _ _ _ _ _ H Hi) as (results & _ & Hf).
    apply format_result_Ok in Hf as (Hs & _). rewrite Hs.
    by apply float_sub_range.
  - rewrite perform_filtered_similarity_search_Ok in H.
    destruct (search_result_formatted _ _ _ _ _ _ _ H Hi) as (results & _ & Hf).
    apply format_result_Ok in Hf as (Hs & _). rewrite Hs.
    by apply float_sub_range.
Qed.

Lemma similarity_score_range_witness :
  (-1 <= similarity_score Samples.green_curry_hit <= 1)%Q
  ∧ ((0 <= similarity_score Samples.green_curry_hit <= 1)%Q
     ↔ (0 <= distance Samples.green_curry_hit <= 1)%Q).
Proof.
  apply (proj1 (similarity_score_range Samples.stub_collection "pasta" 5 None None)
           [Samples.margherita_hit; Samples.green_curry_hit] 1).
  - reflexivity.
  - reflexivity.
  - split; discriminate.
Defined.

(** C4. When the query of the index raises, either search returns the
    empty list, which is also what it returns for an answer without
    hits; no call of a search raises. *)
Theorem search_failure_returns_empty
    (collection : Collection) (query_text : string) (n_results : Z)
    (cuisine_filter : option string) (max_calories : option Z) :
  let where_clause := build_where_clause cuisine_filter max_calories in
  (∀ e, query collection [query_text] n_results None = Raise e →
        perform_similarity_search collection query_text n_results = Ok [])
  ∧ (∀ e, query collection [query_text] n_results where_clause = Raise e →
        perform_filtered_similarity_search collection query_text cuisine_filter
          max_calories n_results = Ok [])
  ∧ (∀ results, query collection [query_text] n_results None = Ok results →
        ids results = [] ∨ ids results !! 0 = Some [] →
        perform_similarity_search collection query_text n_results = Ok [])
  ∧ (∀ results, query collection [query_text] n_results where_clause = Ok results →
        ids results = [] ∨ ids results !! 0 = Some [] →
        perform_filtered_similarity_search collection query_text cuisine_filter
          max_calories n_results = Ok [])
  ∧ (∃ rs, perform_similarity_search collection query_text n_results = Ok rs)
  ∧ (∃ rs, perform_filtered_similarity_search collection query_text cuisine_filter
             max_calories n_results = Ok rs).
Proof.
  cbv zeta.
  rewrite perform_similarity_search_Ok, perform_filtered_similarity_search_Ok.
  assert (∀ results, ids results = [] ∨ ids results !! 0 = Some [] →
                     format_results results = Ok []) as Hzero.
  { intros results [H|H]; unfold format_results.
    - by rewrite H.
    - destruct (ids results) as [|ids0 ?]; [done|]. by simplify_eq/=. }
  repeat split.
  - by intros e ->.
  - by intros e ->.
  - intros results -> H. cbn. by rewrite (Hzero _ H).
  - intros results -> H. cbn. by rewrite (Hzero _ H).
  - destruct (_ ≫= _); eauto.
  - destruct (_ ≫= _); eauto.
Qed.

Lemma search_failure_returns_empty_witness :
  perform_similarity_search Samples.failing_collection "pasta" 5 = Ok []
  ∧ perform_filtered_similarity_search Samples.failing_collection "pasta"
      (Some "Italian") (Some 300%Z) 5 = Ok []
  ∧ perform_similarity_search Samples.empty_collection "pasta" 5 = Ok [].
Proof.
  pose proof (search_failure_returns_empty Samples.failing_collection "pasta" 5
                (Some "Italian") (Some 300%Z)) as (H1 & H2 & _).
  pose proof (search_failure_returns_empty Samples.empty_collection "pasta" 5
                None None) as (_ & _ & H3 & _).
  split; [|split].
  - by apply (H1 (ServiceError "index unavailable")).
  - by apply (H2 (ServiceError "index unavailable")).
  - apply (H3 Samples.no_hits); [done | by right].
Defined.

(** ** Filter composition *)

(** C3, as stated, fails for the empty cuisine string: it is a cuisine
    filter that is not [None], yet no predicate is built for it. *)
Lemma empty_cuisine_builds_no_predicate :
  build_filters (Some "") None = []
  ∧ build_where_clause (Some "") None = None
  ∧ build_where_clause (Some "") None ≠ Spec.compose (Some "") None.
Proof. by repeat split. Qed.

(** C3, amended. For a cuisine filter that is [None] or a non-empty
    string, and any calorie bound: no predicate when both are [None], the
    single predicate when one is given, the conjunction of both when both
    are given. *)
Theorem filter_composition
    (cuisine_filter : option string) (max_calories : option Z) :
  cuisine_filter ≠ Some "" →
  build_where_clause cuisine_filter max_calories
    = Spec.compose cuisine_filter max_calories
  ∧ build_filters cuisine_filter max_calories
    = match cuisine_filter, max_calories with
      | None, None => []
      | Some c, None => [WhereEq "cuisine_type" c]
      | None, Some m => [WhereLte "calories" m]
      | Some c, Some m => [WhereEq "cuisine_type" c; WhereLte "calories" m]
      end.
Proof.
  intros Hc. unfold build_where_clause, build_filters.
  destruct cuisine_filter as [c|], max_calories as [m|]; cbn;
    try case_bool_decide; by simplify_eq.
Qed.

Lemma filter_composition_witness :
  (build_where_clause (Some "Thai") (Some 300%Z)
     = Spec.compose (Some "Thai") (Some 300%Z)
   ∧ build_filters (Some "Thai") (Some 300%Z)
     = [WhereEq "cuisine_type" "Thai"; WhereLte "calories" 300])
  ∧ (build_where_clause (Some "Thai") None = Spec.compose (Some "Thai") None
     ∧ build_filters (Some "Thai") None = [WhereEq "cuisine_type" "Thai"])
  ∧ (build_where_clause None (Some 300%Z) = Spec.compose None (Some 300%Z)
     ∧ build_filters None (Some 300%Z) = [WhereLte "calories" 300])
  ∧ (build_where_clause None None = Spec.compose None None
     ∧ build_filters None None = []).
Proof.
  split; [|split; [|split]].
  - apply (filter_composition (Some "Thai") (Some 300%Z)). discriminate.
  - apply (filter_composition (Some "Thai") None). discriminate.
  - apply (filter_composition None (Some 300%Z)). discriminate.
  - apply (filter_composition None None). discriminate.
Defined.

(** C10. The two constraints are tested differently.  The filters hold
    a cuisine predicate exactly when the cuisine filter is a string that
    is not empty, and it is the equality with that string: the empty
    string adds none, and the filtered search then does what it does for
    [None], on the console as well.  They hold a calories predicate
    exactly when there is a bound, whatever the bound, and it is
    [calories <= bound]: a bound of 0 adds [calories <= 0].  They hold
    nothing else. *)
Theorem empty_cuisine_ignored_zero_calories_kept
    (str_exception : Console.signal → string)
    (collection : Collection) (query_text : string) (n_results : Z)
    (cuisine_filter : option string) (max_calories : option Z) :
  (∀ c, WhereEq "cuisine_type" c ∈ build_filters cuisine_filter max_calories
        ↔ cuisine_filter = Some c ∧ c ≠ "")
  ∧ (∀ m, WhereLte "calories" m ∈ build_filters cuisine_filter max_calories
          ↔ max_calories = Some m)
  ∧ (∀ p, p ∈ build_filters cuisine_filter max_calories →
          (∃ c, p = WhereEq "cuisine_type" c) ∨ (∃ m, p = WhereLte "calories" m))
  ∧ build_filters (Some "") max_calories = build_filters None max_calories
  ∧ build_where_clause (Some "") max_calories
    = build_where_clause None max_calories
  ∧ perform_filtered_similarity_search collection query_text (Some "")
      max_calories n_results
    = perform_filtered_similarity_search collection query_text None
        max_calories n_results
  ∧ OnConsole.perform_filtered_similarity_search str_exception collection
      query_text (Some "") max_calories n_results
    = OnConsole.perform_filtered_similarity_search str_exception collection
        query_text None max_calories n_results
  ∧ (∀ m, build_where_clause cuisine_filter (Some m)
          = match cuisine_filter with
            | Some c =>
                if bool_decide (c = "") then Some (WhereLte "calories" m)
                else Some (WhereAnd [WhereEq "cuisine_type" c;
                                     WhereLte "calories" m])
            | None => Some (WhereLte "calories" m)
            end)
  ∧ WhereLte "calories" 0 ∈ build_filters cuisine_filter (Some 0%Z)
  ∧ build_filters None (Some 0%Z) = [WhereLte "calories" 0]
  ∧ build_where_clause None (Some 0%Z) = Some (WhereLte "calories" 0).
Proof.
  assert (∀ mc, build_filters cuisine_filter mc
            = match cuisine_filter with
              | Some c => if bool_decide (c = "") then []
                          else [WhereEq "cuisine_type" c]
              | None => []
              end
              ++ match mc with
                 | Some m => [WhereLte "calories" m]
                 | None => []
                 end) as Hfilters.
  { intros mc. unfold build_filters.
    destruct cuisine_filter as [c|], mc as [m|]; cbn;
      try case_bool_decide; by rewrite ?app_nil_r. }
  split; [|split; [|split; [|split; [|split; [|split; [|split; [|split; [|split]]]]]]]];
    try done.
  - intros c. rewrite Hfilters, elem_of_app. split.
    + intros [H|H].
      * destruct cuisine_filter as [c'|]; [|by apply elem_of_nil in H].
        case_bool_decide as Hc; [by apply elem_of_nil in H|].
        by apply list_elem_of_singleton in H as [= ->].
      * destruct max_calories as [m|]; [|by apply elem_of_nil in H].
        by apply list_elem_of_singleton in H.
    + intros [-> Hc]. left. rewrite bool_decide_eq_false_2 by done.
      by apply list_elem_of_singleton.
  - intros m. rewrite Hfilters, elem_of_app. split.
    + intros [H|H].
      * destruct cuisine_filter as [c'|]; [|by apply elem_of_nil in H].
        case_bool_decide as Hc; [by apply elem_of_nil in H|].
        by apply list_elem_of_singleton in H.
      * destruct max_calories as [m'|]; [|by apply elem_of_nil in H].
        by apply list_elem_of_singleton in H as [= ->].
    + intros ->. right. by apply list_elem_of_singleton.
  - intros p. rewrite Hfilters, elem_of_app. intros [H|H].
    + destruct cuisine_filter as [c'|]; [|by apply elem_of_nil in H].
      case_bool_decide as Hc; [by apply elem_of_nil in H|].
      apply list_elem_of_singleton in H. eauto.
    + destruct max_calories as [m'|]; [|by apply elem_of_nil in H].
      apply list_elem_of_singleton in H. eauto.
  - intros m. unfold build_where_clause. rewrite Hfilters.
    destruct cuisine_filter as [c|]; [case_bool_decide|]; done.
  - rewrite Hfilters, elem_of_app, list_elem_of_singleton. by right.
Qed.

(** ** Fallback summary *)

Lemma append_assoc (a b c : string) : (a +:+ b) +:+ c = a +:+ (b +:+ c).
Proof.
  induction a as [|x a IH]; [done|].
  change (String x ((a +:+ b) +:+ c) = String x (a +:+ b +:+ c)).
  by rewrite IH.
Qed.

Lemma append_nil_r (a : string) : a +:+ "" = a.
Proof.
  induction a as [|x a IH]; [done|].
  change (String x (a +:+ "") = String x a). by rewrite IH.
Qed.

(** Two texts built from the same pieces, whatever the bracketing. *)
Ltac string_eq := rewrite ?append_assoc, ?append_nil_r; reflexivity.

(** The sentences of the fallback summary for a list that is not empty:
    two about the first result and, when there is a second result, one
    about it. *)
Lemma generate_fallback_response_cons (query : string) (top : Result)
    (rest : list Result) :
  generate_fallback_response query (top :: rest)
  = join " "
      (["Based on your request for '" +:+ query +:+ "', I'd recommend "
          +:+ food_name top +:+ ".";
        "It's a " +:+ cuisine_type top +:+ " dish with "
          +:+ pretty (food_calories_per_serving top) +:+ " calories per serving."]
       ++ match rest with
          | second :: _ =>
              ["Another great option would be " +:+ food_name second +:+ "."]
          | [] => []
          end).
Proof.
  unfold generate_fallback_response.
  destruct rest as [|second rest]; case_bool_decide; cbn in *; done || lia.
Qed.


(** ** Context for the generation prompt *)

(** The lines of one block, in the order they are appended. *)
Lemma food_context_lines (format_1f : Q → string) (i : Z) (result : Result) :
  let optional label v :=
    match text_present v with
    | Some text => ["  - " +:+ label +:+ ": " +:+ text]
    | None => []
    end in
  food_context format_1f i result
  = ["Option " +:+ pretty i +:+ ": " +:+ food_name result;
     "  - Description: " +:+ food_description result;
     "  - Cuisine: " +:+ cuisine_type result;
     "  - Calories: " +:+ pretty (food_calories_per_serving result) +:+ " per serving"]
    ++ ingredient_lines (food_ingredients result)
    ++ optional "Health benefits" (food_health_benefits result)
    ++ optional "Cooking method" (cooking_method result)
    ++ optional "Taste profile" (taste_profile result)
    ++ ["  - Similarity score: "
          +:+ format_1f (similarity_score result * 100)%Q +:+ "%"; ""].
Proof.
  unfold food_context. cbn.
  destruct (text_present (food_health_benefits result)),
    (text_present (cooking_method result)),
    (text_present (taste_profile result));
    cbn; rewrite <-?app_assoc; cbn; rewrite ?app_nil_r; reflexivity.
Qed.

(** The loop appends the blocks of the results in the order of the list,
    numbered from [i]. *)
Lemma context_loop_blocks (format_1f : Q → string) (results : list Result)
    (i : Z) (context_parts : list string) :
  context_loop format_1f i results context_parts
  = context_parts
    ++ concat (imap (λ k result, food_context format_1f (i + Z.of_nat k) result)
                 results).
Proof.
  revert i context_parts.
  induction results as [|result rest IH]; intros i context_parts; cbn.
  - by rewrite app_nil_r.
  - rewrite IH, <-app_assoc, Z.add_0_r. do 2 f_equal.
    f_equal. apply imap_ext. intros k r _. cbn. f_equal. lia.
Qed.

(** A block as the code builds it and as the specification describes it. *)
Lemma food_context_block (format_1f : Q → string) (i : Z) (result : Result) :
  food_context format_1f i result = Spec.context_block format_1f i result.
Proof.
  rewrite food_context_lines. cbv zeta. unfold Spec.context_block.
  assert (ingredient_lines (food_ingredients result)
          = Spec.ingredients_line (food_ingredients result)) as ->.
  { destruct (food_ingredients result) as [[[|name names]|text]|]; try done.
    cbn. destruct text; [done|]. by rewrite bool_decide_eq_false_2. }
  assert (∀ label v,
            match text_present v with
            | Some text => ["  - " +:+ label +:+ ": " +:+ text]
            | None => []
            end = Spec.optional_line label v) as Hoptional.
  { intros label [text|]; [|done]. cbn. by case_bool_decide. }
  by rewrite !Hoptional.
Qed.

(** The entries of an ingredients list after the fifth are not read. *)
Lemma food_context_first_five (format_1f : Q → string) (i : Z) (result : Result) :
  food_context format_1f i (Spec.first_five_ingredients result)
  = food_context format_1f i result.
Proof.
  rewrite !food_context_lines. cbv zeta.
  destruct result as [h [[names|text]|] hb cm tp]; cbn; try done.
  destruct names as [|name names]; [done|]. cbn [ingredient_lines take].
  by rewrite take_take.
Qed.

(** C7. For an empty list the context is the fixed sentinel, which is
    not the empty string.  Otherwise the context is the header, an empty
    line and, for each of the first three results at most, in the order
    of the list and numbered from 1, the block the specification
    describes: name, description, cuisine, calories, ingredients, the
    optional texts that are present, the score and an empty line.  What
    follows the third result has no effect, and neither has what follows
    the fifth entry of an ingredients list. *)
Theorem context_renders_first_three (format_1f : Q → string) (query : string) :
  prepare_context_for_llm format_1f query []
    = "No relevant food items found in the database."
  ∧ prepare_context_for_llm format_1f query [] ≠ ""
  ∧ (∀ first rest,
       prepare_context_for_llm format_1f query (first :: rest)
       = join newline
           (["Based on the user's query, here are the most relevant food options from our database:";
             ""]
            ++ concat (imap (λ k result,
                         Spec.context_block format_1f (1 + Z.of_nat k) result)
                       (take 3 (first :: rest)))))
  ∧ (∀ search_results,
       length (take 3 search_results) ≤ 3
       ∧ prepare_context_for_llm format_1f query search_results
         = prepare_context_for_llm format_1f query (take 3 search_results))
  ∧ (∀ search_results,
       prepare_context_for_llm format_1f query search_results
       = prepare_context_for_llm format_1f query
           (Spec.first_five_ingredients <$> search_results))
  ∧ (∀ names,
       ingredient_lines (Some (IngredientList names))
       = ingredient_lines (Some (IngredientList (take 5 names))))
  ∧ (∀ i result name names,
       food_ingredients result = Some (IngredientList (name :: names)) →
       "  - Key ingredients: " +:+ join ", " (take 5 (name :: names))
         ∈ food_context format_1f i result).
Proof.
  split; [done|]. split; [done|]. split; [|split; [|split; [|split]]].
  - intros first rest. unfold prepare_context_for_llm.
    rewrite context_loop_blocks. do 3 f_equal.
    apply imap_ext. intros k result _. apply food_context_block.
  - intros search_results. split.
    + rewrite length_take. lia.
    + destruct search_results as [|first rest]; [done|].
      unfold prepare_context_for_llm. cbn [take]. by rewrite take_take.
  - intros [|first rest]; [done|].
    rewrite fmap_cons. unfold prepare_context_for_llm.
    rewrite <-fmap_cons, <-fmap_take, !context_loop_blocks. do 3 f_equal.
    rewrite imap_fmap. apply imap_ext. intros k result _. cbn.
    symmetry. apply food_context_first_five.
  - intros [|name names]; [done|]. cbn [ingredient_lines].
    by rewrite take_take.
  - intros i result name names Hingredients.
    rewrite food_context_lines. cbv zeta. rewrite Hingredients.
    cbn [ingredient_lines]. rewrite !elem_of_app, !elem_of_cons. auto.
Qed.

(** The context of four results: three blocks, five ingredients. *)
Example context_of_four_results :
  prepare_context_for_llm format_1f_exact "thai" Samples.four_results
  = join newline
      ["Based on the user's query, here are the most relevant food options from our database:";
       "";
       "Option 1: Margherita";
       "  - Description: Tomato and mozzarella";
       "  - Cuisine: Italian";
       "  - Calories: 200 per serving";
       "  - Similarity score: 75.0%";
       "";
       "Option 2: Pad Thai";
       "  - Description: Stir-fried rice noodles";
       "  - Cuisine: Thai";
       "  - Calories: 350 per serving";
       "  - Key ingredients: noodles, egg, tofu, peanuts, lime";
       "  - Health benefits: Protein";
       "  - Similarity score: 80.0%";
       "";
       "Option 3: Green curry";
       "  - Description: N/A";
       "  - Cuisine: Thai";
       "  - Calories: 0 per serving";
       "  - Similarity score: -50.0%";
       ""].
Proof. vm_compute. reflexivity. Qed.

(** ** Generation with fallback *)

(** C5. When the completion service raises, or answers with a text
    whose stripped length is below 50, the recommendation is the fallback
    summary for the same query and results. *)
Theorem generation_falls_back (format_1f : Q → string)
    (client_openai : ChatRequest → result Completion)
    (query : string) (search_results : list Result) :
  let prompt :=
    rag_prompt query (prepare_context_for_llm format_1f query search_results) in
  (∃ e, client_openai (rag_request prompt) = Raise e)
  ∨ (∃ completion text,
       client_openai (rag_request prompt) = Ok completion
       ∧ choices completion !! 0 = Some (Some text)
       ∧ (len (strip text) < 50)%Z) →
  generate_llm_rag_response format_1f client_openai query search_results
  = Ok (generate_fallback_response query search_results).
Proof.
  intros prompt H. unfold generate_llm_rag_response. fold prompt.
  destruct H as [[e ->] | (completion & text & -> & Hchoice & Hshort)].
  - done.
  - cbn. unfold index. rewrite Hchoice. cbn.
    by rewrite bool_decide_true.
Qed.

Lemma generation_falls_back_witness :
  generate_llm_rag_response format_1f_exact Samples.raising_client "something light"
    Samples.four_results
  = Ok (generate_fallback_response "something light" Samples.four_results)
  ∧ generate_llm_rag_response format_1f_exact Samples.terse_client "something light"
      Samples.four_results
    = Ok (generate_fallback_response "something light" Samples.four_results).
Proof.
  split.
  - apply generation_falls_back. left.
    by exists (ServiceError "quota exceeded").
  - apply generation_falls_back. right.
    exists {| choices := [Some "  Try the curry.  "] |}, "  Try the curry.  ".
    split; [reflexivity | split; [reflexivity | vm_compute; reflexivity]].
Defined.

(** An answer that is long enough is returned stripped, and a completion
    without content or without choices leads to the fallback as well. *)
Lemma generation_returns_long_answer (format_1f : Q → string)
    (client_openai : ChatRequest → result Completion)
    (query : string) (search_results : list Result)
    (completion : Completion) (text : string) :
  client_openai
    (rag_request
       (rag_prompt query (prepare_context_for_llm format_1f query search_results)))
    = Ok completion →
  (choices completion !! 0 = Some (Some text) → (50 ≤ len (strip text))%Z →
   generate_llm_rag_response format_1f client_openai query search_results
   = Ok (strip text))
  ∧ (choices completion !! 0 = Some None ∨ choices completion = [] →
     generate_llm_rag_response format_1f client_openai query search_results
     = Ok (generate_fallback_response query search_results)).
Proof.
  intros Hclient. unfold generate_llm_rag_response. rewrite Hclient. cbn.
  unfold index. split.
  - intros -> Hlong. cbn. rewrite bool_decide_false by lia. done.
  - intros [-> | ->]; done.
Qed.

Example helpful_answer_is_returned :
  generate_llm_rag_response format_1f_exact Samples.helpful_client "light"
    [of_search_result Samples.margherita_hit]
  = Ok "Margherita is a light Italian classic at 200 calories. Enjoy!".
Proof. vm_compute. reflexivity. Qed.

(** ** Catalog loading *)

(** Reading a key after an assignment. *)
Lemma dict_get_set (k k' : string) (v : json) (d : dict) :
  dict_get k' (dict_set k v d)
  = if decide (k = k') then Some v else dict_get k' d.
Proof.
  induction d as [|[k'' v''] d IH]; cbn; repeat case_decide; cbn;
    repeat case_decide; congruence.
Qed.

Lemma dict_has_get (k : string) (d : dict) :
  dict_has k d = match dict_get k d with Some _ => true | None => false end.
Proof.
  unfold dict_has. destruct (dict_get k d) eqn:H.
  - by apply bool_decide_eq_true.
  - apply bool_decide_eq_false. by intros [? ?].
Qed.

(** A key that is present keeps its value, a missing one gets the
    default, and no other key changes. *)
Lemma dict_get_assign_if_missing (k k' : string) (v : json) (d : dict) :
  dict_get k' (assign_if_missing k v d)
  = if decide (k = k') then Some (default v (dict_get k' d)) else dict_get k' d.
Proof.
  unfold assign_if_missing. rewrite dict_has_get.
  case_decide as Hk; [subst k'|].
  - destruct (dict_get k d) eqn:H; [done|]. rewrite dict_get_set.
    by case_decide.
  - destruct (dict_get k d); [done|]. rewrite dict_get_set. by case_decide.
Qed.

(** The value of a key of a preprocessed record, in terms of the
    assignments that precede the one of [taste_profile]. *)
Lemma dict_get_preprocess_record (repr : json → string) (i : nat) (d : dict)
    (k : string) :
  k ≠ "taste_profile" →
  dict_get k (preprocess_record repr i d)
  = dict_get k
      (assign_if_missing "food_calories_per_serving" (JInt 0)
         (assign_if_missing "cuisine_type" (JStr "Unknown")
            (assign_if_missing "food_description" (JStr "")
               (assign_if_missing "food_ingredients" (JArr [])
                  (dict_set "food_id"
                     (JStr (match dict_get "food_id" d with
                            | Some v => str repr v
                            | None => pretty (Z.of_nat i + 1)%Z
                            end)) d))))).
Proof.
  intros Hk. unfold preprocess_record. cbv zeta.
  destruct (dict_get "food_id" d) eqn:Hid;
    repeat case_match; rewrite dict_get_set; by case_decide.
Qed.

Ltac dict_get_simpl :=
  rewrite ?dict_get_preprocess_record by done;
  rewrite ?dict_get_assign_if_missing, ?dict_get_set;
  repeat case_decide; simplify_eq; try done.

(** A list of records is preprocessed record by record, counting from [i]. *)
Lemma preprocess_loop_records (repr : json → string) (records : list dict)
    (i : nat) :
  preprocess_loop repr i (JObj <$> records)
  = Ok (JObj <$> imap (λ k, preprocess_record repr (i + k)) records).
Proof.
  revert i. induction records as [|d records IH]; intros i; [done|].
  cbn. rewrite IH. cbn. rewrite Nat.add_0_r. do 3 f_equal.
  apply imap_ext. intros k r _. cbn. f_equal. lia.
Qed.

(** A list that holds something else than records makes the loop raise. *)
Lemma preprocess_loop_not_records (repr : json → string) (items : list json)
    (i : nat) :
  mapM (λ item, match item with JObj d => Some d | _ => None end) items = None →
  preprocess_loop repr i items = Raise TypeError.
Proof.
  revert i. induction items as [|item items IH]; intros i H; [done|].
  cbn in H. destruct item; try done. cbn in H |- *.
  destruct (mapM _ items) eqn:Hrest; [done|]. by rewrite IH.
Qed.

Lemma records_of_Some (source : result json) (records : list dict) :
  Spec.records_of source = Some records → source = Ok (JArr (JObj <$> records)).
Proof.
  destruct source as [[]|]; try done. cbn. intros H. do 2 f_equal.
  apply mapM_Some in H. induction H as [|item d items ds Hd _ IH]; [done|].
  destruct item; try done. injection Hd as ->. cbn. by f_equal.
Qed.

(** C8, as stated, fails: a source that cannot be parsed makes the
    loader return the empty list, not fail; so does a list that holds
    something else than a record. *)
Lemma load_food_data_swallows_errors :
  let repr := λ _ : json, "" in
  let unreadable := λ _ : string, @Raise json JSONDecodeError in
  let not_records := λ _ : string, Ok (JArr [JObj []; JInt 3]) in
  Spec.records_of (unreadable "foods.json") = None
  ∧ load_food_data repr unreadable "foods.json" = Ok (JArr [])
  ∧ Spec.records_of (not_records "foods.json") = None
  ∧ load_food_data repr not_records "foods.json" = Ok (JArr [])
  ∧ ¬ (∃ e, load_food_data repr unreadable "foods.json" = Raise e)
  ∧ ¬ (∃ e, load_food_data repr not_records "foods.json" = Raise e).
Proof. repeat split; by intros [e He]. Qed.

(** C8, amended. The loader never fails.  When the source cannot be read
    or parsed as a sequence of mapping records it returns the empty list
    (a top-level empty object or empty string is returned as it is).
    When the source is a sequence of records it returns them
    preprocessed, and a field that a record lacks is given its default:
    the 1-based position as a string for [food_id], the empty string for
    the description, ["Unknown"] for the cuisine, 0 for the calories and
    the empty list for the ingredients; a field that is present keeps
    its value ([food_id] converted with [str]). *)
Theorem load_food_data_never_fails (repr : json → string)
    (json_load : string → result json) (file_path : string) :
  let loaded := load_food_data repr json_load file_path in
  (∃ food_data, loaded = Ok food_data)
  ∧ (Spec.records_of (json_load file_path) = None →
       loaded = Ok (JArr [])
       ∨ (json_load file_path = Ok (JObj []) ∧ loaded = Ok (JObj []))
       ∨ (json_load file_path = Ok (JStr "") ∧ loaded = Ok (JStr "")))
  ∧ (∀ records,
       Spec.records_of (json_load file_path) = Some records →
       loaded = Ok (JArr (JObj <$> imap (preprocess_record repr) records))
       ∧ ∀ i record, records !! i = Some record →
           let item := preprocess_record repr i record in
           (dict_get "food_id" record = None →
            dict_get "food_id" item = Some (JStr (pretty (Z.of_nat i + 1)%Z)))
           ∧ (dict_get "food_description" record = None →
              dict_get "food_description" item = Some (JStr ""))
           ∧ (dict_get "cuisine_type" record = None →
              dict_get "cuisine_type" item = Some (JStr "Unknown"))
           ∧ (dict_get "food_calories_per_serving" record = None →
              dict_get "food_calories_per_serving" item = Some (JInt 0))
           ∧ (dict_get "food_ingredients" record = None →
              dict_get "food_ingredients" item = Some (JArr []))
           ∧ (∀ v, dict_get "food_id" record = Some v →
                   dict_get "food_id" item = Some (JStr (str repr v)))
           ∧ (∀ k v, k ≠ "food_id" → k ≠ "taste_profile" →
                     dict_get k record = Some v → dict_get k item = Some v)).
Proof.
  cbv zeta. unfold load_food_data. split; [|split].
  - destruct (_ ≫= _); cbn; eauto.
  - intros Hnot. destruct (json_load file_path) as [food_data|e]; [|by left].
    destruct food_data as [| | | |s|items|kv]; try by left.
    + destruct s as [|c s]; [right; right; done | by left].
    + cbn in Hnot |- *.
      rewrite (preprocess_loop_not_records _ _ _ Hnot). by left.
    + destruct kv as [|[k v] kv]; [right; left; done | by left].
  - intros records Hrecords. apply records_of_Some in Hrecords.
    rewrite Hrecords. split.
    { cbn. by rewrite preprocess_loop_records. }
    intros i record _. repeat split.
    + intros Hnone. dict_get_simpl. by rewrite Hnone.
    + intros Hnone. dict_get_simpl. by rewrite Hnone.
    + intros Hnone. dict_get_simpl. by rewrite Hnone.
    + intros Hnone. dict_get_simpl. by rewrite Hnone.
    + intros Hnone. dict_get_simpl. by rewrite Hnone.
    + intros v Hv. dict_get_simpl. by rewrite Hv.
    + intros k v Hk Htaste Hv. dict_get_simpl; by rewrite Hv.
Qed.

(** ** Document ids *)

(** Distinct suffixes give distinct ids. *)
Lemma candidate_inj (base_id : string) : Inj (=) (=) (candidate base_id).
Proof.
  assert (∀ k, base_id ≠ candidate base_id (S k)) as Hbase.
  { intros k H. unfold candidate in H.
    rewrite <-(append_nil_r base_id) in H at 1.
    by apply (inj (String.app base_id)) in H. }
  intros [|j] [|k] H; [done | by apply Hbase in H | symmetry in H; by apply Hbase in H |].
  unfold candidate in H.
  apply (inj (String.app base_id)), (inj (String.app "_")), (inj pretty) in H.
  lia.
Qed.

(** What the loop returns when it starts at the candidate numbered [j]:
    the first candidate from there on that is not in use, if one is met
    before the fuel runs out. *)
Lemma unique_id_loop_spec (fuel : nat) (base_id : string) (j : nat)
    (used_ids : gset string) :
  match unique_id_loop fuel base_id (candidate base_id j) (Z.of_nat (S j)) used_ids with
  | Some unique_id =>
      ∃ k, (j ≤ k < j + fuel)
           ∧ unique_id = candidate base_id k
           ∧ (candidate base_id k ∉ used_ids)
           ∧ ∀ k', (j ≤ k' < k) → candidate base_id k' ∈ used_ids
  | None => ∀ k, (j ≤ k < j + fuel) → candidate base_id k ∈ used_ids
  end.
Proof.
  revert j. induction fuel as [|fuel IH]; intros j; cbn [unique_id_loop].
  - intros k Hk. lia.
  - case_decide as Hin.
    + specialize (IH (S j)).
      replace (Z.of_nat (S j) + 1)%Z with (Z.of_nat (S (S j))) by lia.
      change (base_id +:+ "_" +:+ pretty (Z.of_nat (S j)))
        with (candidate base_id (S j)).
      destruct (unique_id_loop fuel base_id _ _ used_ids) as [unique_id|].
      * destruct IH as (k & Hk & -> & Hfree & Hused).
        exists k. repeat split; [lia | lia | done |].
        intros k' Hk'. destruct (decide (k' = j)) as [->|]; [done|].
        apply Hused. lia.
      * intros k Hk. destruct (decide (k = j)) as [->|]; [done|].
        apply IH. lia.
    + exists j. repeat split; [lia | lia | done |]. intros k' Hk'. lia.
Qed.

(** The loop exits: among [size used_ids + 1] distinct candidates one is
    not in use. *)
Lemma unique_id_loop_exits (base_id : string) (used_ids : gset string) :
  ∃ k, unique_id_loop (S (size used_ids)) base_id base_id 1 used_ids
       = Some (candidate base_id k)
       ∧ (candidate base_id k ∉ used_ids)
       ∧ ∀ k', k' < k → candidate base_id k' ∈ used_ids.
Proof.
  pose proof (unique_id_loop_spec (S (size used_ids)) base_id 0 used_ids) as H.
  change (candidate base_id 0) with base_id in H.
  change (Z.of_nat 1) with 1%Z in H.
  destruct (unique_id_loop _ _ _ _ _) as [unique_id|].
  - destruct H as (k & _ & -> & Hfree & Hused).
    exists k. repeat split; [done|]. intros k' Hk'. apply Hused. lia.
  - exfalso.
    set (tried := candidate base_id <$> seq 0 (S (size used_ids))).
    assert (NoDup tried) as Hnodup.
    { pose proof (candidate_inj base_id). apply (NoDup_fmap_2 _), NoDup_seq. }
    assert (list_to_set tried ⊆ used_ids) as Hsub.
    { intros x [k [-> Hk%elem_of_seq]]%elem_of_list_to_set%list_elem_of_fmap.
      apply H. lia. }
    apply subseteq_size in Hsub.
    rewrite size_list_to_set in Hsub by done.
    unfold tried in Hsub. rewrite length_fmap, length_seq in Hsub. lia.
Qed.

(** The id given to a record is the first candidate that is not in use. *)
Lemma unique_id_spec (base_id : string) (used_ids : gset string) :
  ∃ k, unique_id base_id used_ids = candidate base_id k
       ∧ (candidate base_id k ∉ used_ids)
       ∧ ∀ k', k' < k → candidate base_id k' ∈ used_ids.
Proof.
  destruct (unique_id_loop_exits base_id used_ids) as (k & Hloop & H).
  exists k. unfold unique_id. by rewrite Hloop.
Qed.

(** One iteration appends one id: the first candidate for the id of the
    record that is not among the ids in use. *)
Lemma populate_step_Ok (repr : json → string) (b b' : Batch) (i : nat)
    (food : dict) :
  populate_step repr b i food = Ok b' →
  let base_id := str repr (dict_get_default "food_id" (JInt (Z.of_nat i)) food) in
  batch_ids b' = batch_ids b ++ [unique_id base_id (batch_used_ids b)]
  ∧ batch_used_ids b'
    = {[unique_id base_id (batch_used_ids b)]} ∪ batch_used_ids b
  ∧ length (batch_documents b') = S (length (batch_documents b))
  ∧ length (batch_metadatas b') = S (length (batch_metadatas b)).
Proof.
  unfold populate_step. intros H.
  apply bind_Ok in H as (text & _ & H).
  apply bind_Ok in H as (name & _ & H).
  apply bind_Ok in H as (ingredients & _ & H).
  injection H as <-. cbn. rewrite !length_app. cbn. repeat split; lia.
Qed.

(** The loop keeps [used_ids] equal to the set of the ids given so far,
    keeps these ids distinct, and gives the record at position [k] the
    first candidate that is not among the ids given before it. *)
Lemma populate_loop_Ok (repr : json → string) (food_items : list dict)
    (b b' : Batch) (i : nat) :
  populate_loop repr b i food_items = Ok b' →
  batch_used_ids b = list_to_set (batch_ids b) →
  NoDup (batch_ids b) →
  ∃ new,
    batch_ids b' = batch_ids b ++ new
    ∧ batch_used_ids b' = list_to_set (batch_ids b')
    ∧ NoDup (batch_ids b')
    ∧ length new = length food_items
    ∧ length (batch_documents b')
      = length (batch_documents b) + length food_items
    ∧ length (batch_metadatas b')
      = length (batch_metadatas b) + length food_items
    ∧ ∀ k food, food_items !! k = Some food →
        new !! k
        = Some (unique_id
                  (str repr (dict_get_default "food_id"
                               (JInt (Z.of_nat (i + k))) food))
                  (list_to_set (batch_ids b ++ take k new))).
Proof.
  revert b i. induction food_items as [|food rest IH]; intros b i H Hused Hnodup.
  - injection H as <-. exists []. rewrite app_nil_r. cbn.
    repeat split; [done | done | lia | lia | done].
  - cbn in H. apply bind_Ok in H as (b1 & Hstep & H).
    apply populate_step_Ok in Hstep as (Hids & Hused1 & Hdocs & Hmetas).
    cbv zeta in Hids, Hused1.
    set (unique := unique_id _ (batch_used_ids b)) in Hids, Hused1.
    destruct (unique_id_spec
                (str repr (dict_get_default "food_id" (JInt (Z.of_nat i)) food))
                (batch_used_ids b)) as (j & Hj & Hfree & _).
    fold unique in Hj. rewrite <-Hj in Hfree.
    apply IH in H as (new & Hids' & Hused' & Hnodup' & Hlen & Hd & Hm & Hnew).
    + exists (unique :: new).
      assert (batch_ids b' = batch_ids b ++ unique :: new) as Heq
        by (by rewrite Hids', Hids, <-app_assoc).
      repeat split; [done | done | done | cbn; lia | cbn; lia | cbn; lia |].
      intros [|k] food' Hfood; cbn in Hfood |- *.
      * simplify_eq. unfold unique. by rewrite app_nil_r, Nat.add_0_r, Hused.
      * specialize (Hnew k food' Hfood).
        rewrite Hids, <-app_assoc in Hnew.
        replace (i + S k) with (S i + k) by lia. exact Hnew.
    + rewrite Hused1, Hids, Hused, list_to_set_app_L. cbn.
      rewrite (right_id_L ∅ (∪)). apply (comm_L (∪)).
    + rewrite Hids. apply NoDup_app. repeat split; [done | | apply NoDup_singleton].
      intros x Hx ->%list_elem_of_singleton. apply Hfree.
      rewrite Hused. by apply elem_of_list_to_set.
Qed.

(** The loop does not raise on records that have a name and whose
    ingredients, when present, can be joined. *)
Lemma populate_loop_succeeds (repr : json → string) (food_items : list dict)
    (b : Batch) (i : nat) :
  Forall (λ food,
    (∃ name, dict_get "food_name" food = Some name)
    ∧ ∃ ingredients,
        join_value ", " (dict_get_default "food_ingredients" (JArr []) food)
        = Ok ingredients) food_items →
  ∃ b', populate_loop repr b i food_items = Ok b'.
Proof.
  intros Hall. revert b i.
  induction Hall as [|food rest [[name Hname] [ingredients Hjoin]] _ IH];
    intros b i; [by eexists|].
  cbn. unfold populate_step, document_text, dict_item.
  rewrite Hname. cbn. rewrite Hjoin. cbn. apply IH.
Qed.

(** When the loop raises, nothing is passed to [collection.add]. *)
Lemma populate_raises_before_add (repr : json → string)
    (collection : Collection) (food_items : list dict) (e : exn) :
  populate_loop repr empty_batch 0 food_items = Raise e →
  populate_similarity_collection repr collection food_items = Raise e.
Proof. unfold populate_similarity_collection. by intros ->. Qed.

(** C9. The ids passed to [collection.add] are pairwise distinct, one per
    record.  The id of a record is its own id when no earlier document
    has it, and otherwise its id with the first of the suffixes [_1],
    [_2], ... that gives an id no earlier document has; the search for it
    always ends.  Two records that both carry the id 7 get the ids [7]
    and [7_1]. *)
Theorem populated_ids_are_distinct (repr : json → string)
    (collection : Collection) (food_items : list dict) (b : Batch) :
  populate_loop repr empty_batch 0 food_items = Ok b →
  populate_similarity_collection repr collection food_items
    = add collection (batch_documents b) (batch_metadatas b) (batch_ids b)
  ∧ NoDup (batch_ids b)
  ∧ length (batch_ids b) = length food_items
  ∧ length (batch_documents b) = length food_items
  ∧ length (batch_metadatas b) = length food_items
  ∧ (∀ k food, food_items !! k = Some food →
       let base_id :=
         str repr (dict_get_default "food_id" (JInt (Z.of_nat k)) food) in
       let earlier := take k (batch_ids b) in
       ∃ n, batch_ids b !! k = Some (candidate base_id n)
            ∧ (candidate base_id n ∉ earlier)
            ∧ (∀ n', n' < n → candidate base_id n' ∈ earlier)
            ∧ unique_id_loop (S (size (list_to_set earlier : gset string)))
                base_id base_id 1 (list_to_set earlier)
              = Some (candidate base_id n))
  ∧ (∀ first second,
       food_items = [first; second] →
       dict_get "food_id" first = Some (JStr "7") →
       dict_get "food_id" second = Some (JStr "7") →
       batch_ids b = ["7"; "7_1"]).
Proof.
  intros Hloop.
  destruct (populate_loop_Ok repr food_items empty_batch b 0 Hloop)
    as (new & Hids & _ & Hnodup & Hlen & Hdocs & Hmetas & Hnew);
    [done | constructor |].
  cbn in Hids, Hdocs, Hmetas. subst new.
  assert (∀ k food, food_items !! k = Some food →
            let base_id :=
              str repr (dict_get_default "food_id" (JInt (Z.of_nat k)) food) in
            let earlier := take k (batch_ids b) in
            ∃ n, batch_ids b !! k = Some (candidate base_id n)
                 ∧ (candidate base_id n ∉ earlier)
                 ∧ (∀ n', n' < n → candidate base_id n' ∈ earlier)
                 ∧ unique_id_loop (S (size (list_to_set earlier : gset string)))
                     base_id base_id 1 (list_to_set earlier)
                   = Some (candidate base_id n)) as Hspec.
  { intros k food Hfood base_id earlier.
    specialize (Hnew k food Hfood).
    cbn [batch_ids empty_batch app Nat.add] in Hnew.
    fold base_id earlier in Hnew.
    destruct (unique_id_loop_exits base_id (list_to_set earlier))
      as (n & Hexit & Hfree & Hprev).
    exists n. unfold unique_id in Hnew. rewrite Hexit in Hnew.
    repeat split; [done | | | done].
    - by rewrite elem_of_list_to_set in Hfree.
    - intros n' Hn'. specialize (Hprev n' Hn').
      by rewrite elem_of_list_to_set in Hprev. }
  repeat split; [| done | done | done | done | exact Hspec |].
  - unfold populate_similarity_collection. by rewrite Hloop.
  - intros first second -> Hfirst Hsecond.
    destruct (batch_ids b) as [|id0 [|id1 [|? ?]]] eqn:Hb; try done.
    destruct (Hspec 0 first eq_refl) as (n0 & Hid0 & _ & Hprev0 & _).
    destruct (Hspec 1 second eq_refl) as (n1 & Hid1 & Hfree1 & Hprev1 & _).
    unfold dict_get_default in *. rewrite Hfirst in *. rewrite Hsecond in *.
    cbn in Hid0, Hid1, Hprev0, Hfree1, Hprev1.
    destruct n0 as [|n0]; [|by specialize (Hprev0 0 ltac:(lia)); apply elem_of_nil in Hprev0].
    injection Hid0 as ->.
    destruct n1 as [|[|n1]].
    + exfalso. apply Hfree1. by apply list_elem_of_singleton.
    + by injection Hid1 as ->.
    + specialize (Hprev1 1 ltac:(lia)). by apply list_elem_of_singleton in Hprev1.
Qed.

Lemma populated_ids_are_distinct_witness :
  ∃ b,
    populate_loop (λ _, "") empty_batch 0 Samples.catalog_with_duplicates = Ok b
    ∧ batch_ids b = ["7"; "7_1"; "7_1_1"; "7_2"; "4"]
    ∧ NoDup (batch_ids b)
    ∧ length (batch_documents b) = 5.
Proof.
  destruct (populate_loop (λ _, "") empty_batch 0 Samples.catalog_with_duplicates)
    as [b|e] eqn:Hloop; [|vm_compute in Hloop; discriminate].
  exists b.
  pose proof (populated_ids_are_distinct (λ _, "") Samples.stub_collection
                Samples.catalog_with_duplicates b Hloop)
    as (_ & Hnodup & _ & Hdocs & _).
  repeat split; [|done|done].
  vm_compute in Hloop. by injection Hloop as <-.
Defined.

(** Two records with the id 7, run. *)
Example two_records_with_id_7 :
  batch_ids <$> populate_loop (λ _, "") empty_batch 0
    [[("food_id", JStr "7"); ("food_name", JStr "A")];
     [("food_id", JStr "7"); ("food_name", JStr "B")]]
  = Ok ["7"; "7_1"].
Proof. vm_compute. reflexivity. Qed.

(** The sample source, loaded: the id of the first record becomes a
    string, the second record gets every default, and the taste profile
    joins the truthy features. *)
Example load_food_data_sample :
  load_food_data (λ _, "") (λ _, Ok Samples.raw_catalog) "foods.json"
  = Ok (JArr
      [JObj [("food_id", JStr "7"); ("food_name", JStr "Pad Thai");
             ("cuisine_type", JStr "Thai");
             ("food_features", JObj [("taste", JStr "sweet");
                                     ("spicy", JBool false);
                                     ("texture", JStr "soft")]);
             ("food_ingredients", JArr []); ("food_description", JStr "");
             ("food_calories_per_serving", JInt 0);
             ("taste_profile", JStr "sweet, soft")];
       JObj [("food_name", JStr "Larb"); ("food_id", JStr "2");
             ("food_ingredients", JArr []); ("food_description", JStr "");
             ("cuisine_type", JStr "Unknown");
             ("food_calories_per_serving", JInt 0);
             ("taste_profile", JStr "")]]).
Proof. vm_compute. reflexivity. Qed.

Lemma load_food_data_never_fails_witness :
  let larb := [("food_name", JStr "Larb")] in
  let item := preprocess_record (λ _, "") 1 larb in
  dict_get "food_id" item = Some (JStr "2")
  ∧ dict_get "food_calories_per_serving" item = Some (JInt 0)
  ∧ dict_get "cuisine_type" item = Some (JStr "Unknown")
  ∧ dict_get "food_name" item = Some (JStr "Larb").
Proof.
  intros larb item.
  destruct (load_food_data_never_fails (λ _, "") (λ _, Ok Samples.raw_catalog)
              "foods.json") as (_ & _ & H).
  destruct (H [[("food_id", JInt 7); ("food_name", JStr "Pad Thai");
                ("cuisine_type", JStr "Thai");
                ("food_features", JObj [("taste", JStr "sweet");
                                        ("spicy", JBool false);
                                        ("texture", JStr "soft")])]; larb]
              eq_refl) as (_ & Hitem).
  destruct (Hitem 1 larb eq_refl) as (Hid & _ & Hcuisine & Hcalories & _ & _ & Hkept).
  split; [|split; [|split]].
  - by apply Hid.
  - by apply Hcalories.
  - by apply Hcuisine.
  - by apply Hkept.
Defined.

(** * Further properties *)

(** ** The search results against the answer of the index *)

(** A hit whose id, distance and metadata are all there is formatted. *)
Lemma format_result_aligned (results : QueryResult) (i : nat)
    (id : string) (d : Q) (m : Metadata) :
  (ids results !! 0 ≫= (.!! i)) = Some id →
  (distances results !! 0 ≫= (.!! i)) = Some d →
  (metadatas results !! 0 ≫= (.!! i)) = Some m →
  format_result results i = Ok (Spec.hit_entry id d m).
Proof.
  unfold format_result, index. intros Hid Hd Hm.
  destruct (ids results !! 0) as [ids0|]; [|done].
  destruct (distances results !! 0) as [ds0|]; [|done].
  destruct (metadatas results !! 0) as [ms0|]; [|done].
  cbn in Hid, Hd, Hm |- *. by rewrite Hid, Hd, Hm.
Qed.

(** A hit that lacks its distance or its metadata makes the body raise. *)
Lemma format_result_misaligned (results : QueryResult) (i : nat) :
  (distances results !! 0 ≫= (.!! i)) = None
  ∨ (metadatas results !! 0 ≫= (.!! i)) = None →
  format_result results i = Raise IndexError.
Proof.
  unfold format_result, index. intros [H|H].
  - destruct (distances results !! 0) as [ds0|]; [|done].
    cbn in H |- *. by rewrite H.
  - destruct (distances results !! 0) as [ds0|]; [|done]. cbn.
    destruct (ds0 !! i); [|done]. cbn.
    destruct (metadatas results !! 0) as [ms0|]; [|done].
    cbn in H |- *. by rewrite H.
Qed.

Lemma format_loop_all_Ok (results : QueryResult) (indices : list nat)
    (acc new : list SearchResult) :
  Forall2 (λ i r, format_result results i = Ok r) indices new →
  format_loop results indices acc = Ok (acc ++ new).
Proof.
  intros H. revert acc.
  induction H as [|i r indices new Hr _ IH]; intros acc; cbn.
  - by rewrite app_nil_r.
  - rewrite Hr. cbn. by rewrite IH, <-app_assoc.
Qed.

Lemma format_loop_Raise (results : QueryResult) (indices : list nat)
    (acc : list SearchResult) (i : nat) (e : exn) :
  i ∈ indices → format_result results i = Raise e →
  ∃ e', format_loop results indices acc = Raise e'.
Proof.
  intros Hi He. revert acc.
  induction indices as [|j rest IH]; intros acc; [by apply elem_of_nil in Hi|].
  cbn. destruct (format_result results j) as [r|e'] eqn:Hj; [|by eexists].
  cbn. apply IH. apply elem_of_cons in Hi as [->|]; [congruence | done].
Qed.

(** The answer of the index, formatted, when every hit has its distance
    and its metadata: one entry per id, in the order of the ids. *)
Lemma format_results_aligned (results : QueryResult)
    (ids0 : list string) (ds0 : list Q) (ms0 : list Metadata) :
  ids results !! 0 = Some ids0 →
  distances results !! 0 = Some ds0 →
  metadatas results !! 0 = Some ms0 →
  length ids0 ≤ length ds0 → length ids0 ≤ length ms0 →
  ∃ rs, format_results results = Ok rs
        ∧ length rs = length ids0
        ∧ ∀ i id d m, ids0 !! i = Some id → ds0 !! i = Some d →
            ms0 !! i = Some m → rs !! i = Some (Spec.hit_entry id d m).
Proof.
  intros Hids Hds Hms Hlen_d Hlen_m.
  assert (∀ i, i < length ids0 →
            ∃ id d m, ids0 !! i = Some id ∧ ds0 !! i = Some d ∧ ms0 !! i = Some m
                      ∧ format_result results i = Ok (Spec.hit_entry id d m))
    as Hhit.
  { intros i Hi.
    destruct (lookup_lt_is_Some_2 ids0 i Hi) as [id Hid].
    destruct (lookup_lt_is_Some_2 ds0 i ltac:(lia)) as [d Hd].
    destruct (lookup_lt_is_Some_2 ms0 i ltac:(lia)) as [m Hm].
    exists id, d, m. repeat split; [done..|].
    apply format_result_aligned; by rewrite ?Hids, ?Hds, ?Hms. }
  assert (∃ rs, Forall2 (λ i r, format_result results i = Ok r)
                  (seq 0 (length ids0)) rs) as [rs Hrs].
  { assert (∀ n, n ≤ length ids0 →
              ∃ rs, Forall2 (λ i r, format_result results i = Ok r) (seq 0 n) rs)
      as Hn; [|by apply Hn].
    induction n as [|n IHn]; intros Hle; [by exists []|].
    destruct IHn as [rs Hrs]; [lia|].
    destruct (Hhit n ltac:(lia)) as (id & d & m & _ & _ & _ & Hf).
    exists (rs ++ [Spec.hit_entry id d m]). rewrite seq_S.
    apply Forall2_app; [done | by constructor]. }
  exists rs.
  assert (length rs = length ids0) as Hlen.
  { apply Forall2_length in Hrs. by rewrite length_seq in Hrs. }
  split; [|split; [done|]].
  - unfold format_results.
    destruct (ids results) as [|ids0' ?]; simplify_eq/=.
    case_bool_decide as Hzero.
    + destruct rs; [done | cbn in Hlen; lia].
    + by rewrite (format_loop_all_Ok _ _ [] rs Hrs).
  - intros i id d m Hid Hd Hm.
    assert (i < length ids0) as Hi by (by eapply lookup_lt_Some).
    destruct (Hhit i Hi) as (id' & d' & m' & ? & ? & ? & Hf). simplify_eq.
    destruct (Forall2_lookup_l _ _ _ i i Hrs) as (r & Hr & Hfr).
    { by apply lookup_seq. }
    rewrite Hr. congruence.
Qed.

(** An answer in which a hit lacks its distance or its metadata cannot be
    formatted. *)
Lemma format_results_misaligned (results : QueryResult)
    (ids0 : list string) (i : nat) :
  ids results !! 0 = Some ids0 → i < length ids0 →
  (distances results !! 0 ≫= (.!! i)) = None
  ∨ (metadatas results !! 0 ≫= (.!! i)) = None →
  ∃ e, format_results results = Raise e.
Proof.
  intros Hids Hi Hmissing. unfold format_results.
  destruct (ids results) as [|ids0' ?]; simplify_eq/=.
  case_bool_decide; [lia|].
  apply (format_loop_Raise _ _ _ i IndexError).
  - apply elem_of_seq. lia.
  - by apply format_result_misaligned.
Qed.

(** X1. When the index answers with at least as many distances and
    metadatas as ids, either search returns one entry per id, in the
    order of the ids: the entry at position [i] carries the id at
    position [i], its distance, [1 - distance] subtracted in binary64
    as score, and the name,
    description and cuisine of its metadata (["N/A"] for one that is
    absent) and its calories (0 when absent). *)
Theorem search_mirrors_index_answer
    (collection : Collection) (query_text : string) (n_results : Z)
    (cuisine_filter : option string) (max_calories : option Z)
    (results : QueryResult)
    (ids0 : list string) (ds0 : list Q) (ms0 : list Metadata) :
  ids results !! 0 = Some ids0 →
  distances results !! 0 = Some ds0 →
  metadatas results !! 0 = Some ms0 →
  length ids0 ≤ length ds0 → length ids0 ≤ length ms0 →
  let mirrors (found : result (list SearchResult)) :=
    ∃ rs, found = Ok rs
          ∧ length rs = length ids0
          ∧ ∀ i id d m, ids0 !! i = Some id → ds0 !! i = Some d →
              ms0 !! i = Some m → rs !! i = Some (Spec.hit_entry id d m) in
  (query collection [query_text] n_results None = Ok results →
   mirrors (perform_similarity_search collection query_text n_results))
  ∧ (query collection [query_text] n_results
       (build_where_clause cuisine_filter max_calories) = Ok results →
     mirrors (perform_filtered_similarity_search collection query_text
                cuisine_filter max_calories n_results)).
Proof.
  intros Hids Hds Hms Hlen_d Hlen_m mirrors.
  destruct (format_results_aligned results ids0 ds0 ms0 Hids Hds Hms Hlen_d Hlen_m)
    as (rs & Hrs & Hlen & Hentries).
  split; intros Hquery; exists rs; (split; [|done]).
  - rewrite perform_similarity_search_Ok, Hquery. cbn. by rewrite Hrs.
  - rewrite perform_filtered_similarity_search_Ok, Hquery. cbn. by rewrite Hrs.
Qed.

Lemma search_mirrors_index_answer_witness :
  ∃ rs, perform_filtered_similarity_search Samples.stub_collection "pasta"
          (Some "Thai") None 5 = Ok rs
        ∧ length rs = 2
        ∧ ∀ i id d m, ["1"; "2"] !! i = Some id →
            [(1 # 4)%Q; (3 # 2)%Q] !! i = Some d →
            [Samples.margherita; Samples.green_curry] !! i = Some m →
            rs !! i = Some (Spec.hit_entry id d m).
Proof.
  apply (search_mirrors_index_answer Samples.stub_collection "pasta" 5
           (Some "Thai") None Samples.two_hits
           ["1"; "2"] [(1 # 4)%Q; (3 # 2)%Q]
           [Samples.margherita; Samples.green_curry]);
    (reflexivity || (cbn; lia)).
Defined.

(** X2. When the index answers with an id whose distance or metadata is
    missing (a list of distances or metadatas shorter than the list of
    ids), either search returns the empty list: the entries already
    formatted are dropped with the error. *)
Theorem search_drops_misaligned_answer
    (collection : Collection) (query_text : string) (n_results : Z)
    (cuisine_filter : option string) (max_calories : option Z)
    (results : QueryResult) (ids0 : list string) (i : nat) :
  ids results !! 0 = Some ids0 → i < length ids0 →
  (distances results !! 0 ≫= (.!! i)) = None
  ∨ (metadatas results !! 0 ≫= (.!! i)) = None →
  (query collection [query_text] n_results None = Ok results →
   perform_similarity_search collection query_text n_results = Ok [])
  ∧ (query collection [query_text] n_results
       (build_where_clause cuisine_filter max_calories) = Ok results →
     perform_filtered_similarity_search collection query_text
       cuisine_filter max_calories n_results = Ok []).
Proof.
  intros Hids Hi Hmissing.
  destruct (format_results_misaligned results ids0 i Hids Hi Hmissing) as [e He].
  split; intros Hquery.
  - rewrite perform_similarity_search_Ok, Hquery. cbn. by rewrite He.
  - rewrite perform_filtered_similarity_search_Ok, Hquery. cbn. by rewrite He.
Qed.

Lemma search_drops_misaligned_answer_witness :
  perform_similarity_search Samples.misaligned_collection "pasta" 5 = Ok [].
Proof.
  apply (search_drops_misaligned_answer Samples.misaligned_collection "pasta" 5
           None None Samples.short_answer ["1"; "2"] 1);
    [reflexivity | cbn; lia | by left | reflexivity].
Defined.

(** ** The loaded catalog *)

(** Assigning to a key the value it has changes nothing. *)
Lemma dict_set_same (k : string) (v : json) (d : dict) :
  dict_get k d = Some v → dict_set k v d = d.
Proof.
  induction d as [|[k' v'] d IH]; cbn; [done|].
  case_decide as Hk; [by intros [= ->]; subst | intros Hv; by rewrite IH].
Qed.

Lemma assign_if_missing_present (k : string) (v : json) (d : dict) :
  is_Some (dict_get k d) → assign_if_missing k v d = d.
Proof.
  intros [v' Hv]. unfold assign_if_missing. by rewrite dict_has_get, Hv.
Qed.

(** The taste profile computed from the features of a record. *)
Lemma taste_features_fold (repr : json → string)
    (food_features : list (string * json)) (acc : list string) :
  fold_left (λ taste_features kv,
      if truthy kv.2 then taste_features ++ [str repr kv.2] else taste_features)
    food_features acc
  = acc ++ (str repr <$> filter (λ v, truthy v) (food_features.*2)).
Proof.
  revert acc. induction food_features as [|[k v] rest IH]; intros acc.
  - cbn. by rewrite app_nil_r.
  - cbn [fold_left]. rewrite IH, fmap_cons. cbn [snd].
    destruct (truthy v) eqn:Hv.
    + rewrite filter_cons_True by (rewrite Hv; exact I).
      by rewrite fmap_cons, <-app_assoc.
    + by rewrite filter_cons_False by (rewrite Hv; exact id).
Qed.

(** A preprocessed record: the id and the four defaults, then the taste
    profile computed from the features. *)
Lemma preprocess_record_unfold (repr : json → string) (i : nat) (d : dict) :
  let item :=
    assign_if_missing "food_calories_per_serving" (JInt 0)
      (assign_if_missing "cuisine_type" (JStr "Unknown")
         (assign_if_missing "food_description" (JStr "")
            (assign_if_missing "food_ingredients" (JArr [])
               (dict_set "food_id"
                  (JStr (match dict_get "food_id" d with
                         | Some v => str repr v
                         | None => pretty (Z.of_nat i + 1)%Z
                         end)) d)))) in
  preprocess_record repr i d
  = dict_set "taste_profile"
      (JStr (match dict_get "food_features" d with
             | Some (JObj food_features) =>
                 join ", " (str repr <$> filter (λ v, truthy v) (food_features.*2))
             | _ => ""
             end)) item.
Proof.
  intros item. unfold preprocess_record. cbv zeta.
  assert (dict_get "food_features" item = dict_get "food_features" d) as Hfeatures.
  { unfold item. rewrite !dict_get_assign_if_missing, dict_get_set.
    repeat case_decide; simplify_eq; done. }
  fold item.
  replace (match dict_get "food_id" d with
           | Some v => dict_set "food_id" (JStr (str repr v)) d
           | None => dict_set "food_id" (JStr (pretty (Z.of_nat i + 1)%Z)) d
           end)
    with (dict_set "food_id"
            (JStr (match dict_get "food_id" d with
                   | Some v => str repr v
                   | None => pretty (Z.of_nat i + 1)%Z
                   end)) d)
    by (by destruct (dict_get "food_id" d)).
  fold item. rewrite Hfeatures.
  destruct (dict_get "food_features" d) as [[]|]; try done.
  by rewrite taste_features_fold.
Qed.

(** Loading a sequence of records gives the records preprocessed, each
    with its position. *)
Lemma load_food_data_records (repr : json → string)
    (json_load : string → result json) (file_path : string)
    (records : list dict) :
  json_load file_path = Ok (JArr (JObj <$> records)) →
  load_food_data repr json_load file_path
  = Ok (JArr (JObj <$> imap (preprocess_record repr) records)).
Proof.
  intros Hsource. unfold load_food_data. rewrite Hsource. cbn.
  by rewrite preprocess_loop_records.
Qed.

(** What the loader can return: nothing, or the preprocessed records. *)
Lemma load_food_data_cases (repr : json → string)
    (json_load : string → result json) (file_path : string) (loaded : json) :
  load_food_data repr json_load file_path = Ok loaded →
  loaded = JArr [] ∨ loaded = JObj [] ∨ loaded = JStr ""
  ∨ ∃ records, json_load file_path = Ok (JArr (JObj <$> records))
               ∧ loaded = JArr (JObj <$> imap (preprocess_record repr) records).
Proof.
  intros Hload.
  destruct (Spec.records_of (json_load file_path)) as [records|] eqn:Hrecords.
  - apply records_of_Some in Hrecords.
    rewrite (load_food_data_records _ _ _ _ Hrecords) in Hload.
    injection Hload as <-. right; right; right. by exists records.
  - unfold load_food_data in Hload.
    destruct (json_load file_path) as [food_data|e]; [|left; by simplify_eq/=].
    destruct food_data as [| | | |s|items|kv]; try (left; by simplify_eq/=).
    + destruct s as [|c s]; [right; right; left | left]; by simplify_eq/=.
    + cbn in Hrecords, Hload.
      rewrite (preprocess_loop_not_records _ _ _ Hrecords) in Hload.
      left. by simplify_eq/=.
    + destruct kv as [|[k v] kv]; [right; left | left]; by simplify_eq/=.
Qed.

(** Preprocessing a preprocessed record, at whatever position, changes
    nothing. *)
Lemma preprocess_record_idempotent (repr : json → string) (i j : nat) (d : dict) :
  preprocess_record repr j (preprocess_record repr i d) = preprocess_record repr i d.
Proof.
  set (P := preprocess_record repr i d).
  assert (∃ id, dict_get "food_id" P = Some (JStr id)) as [id Hid].
  { eexists. unfold P. dict_get_simpl. }
  assert (is_Some (dict_get "food_ingredients" P)) as Hingredients.
  { unfold P. dict_get_simpl. }
  assert (is_Some (dict_get "food_description" P)) as Hdescription.
  { unfold P. dict_get_simpl. }
  assert (is_Some (dict_get "cuisine_type" P)) as Hcuisine.
  { unfold P. dict_get_simpl. }
  assert (is_Some (dict_get "food_calories_per_serving" P)) as Hcalories.
  { unfold P. dict_get_simpl. }
  assert (dict_get "food_features" P = dict_get "food_features" d) as Hfeatures.
  { unfold P. dict_get_simpl. }
  rewrite (preprocess_record_unfold repr j P). cbv zeta.
  rewrite Hid. cbn [str]. rewrite (dict_set_same _ _ _ Hid).
  rewrite (assign_if_missing_present "food_ingredients" _ P Hingredients),
    (assign_if_missing_present "food_description" _ P Hdescription),
    (assign_if_missing_present "cuisine_type" _ P Hcuisine),
    (assign_if_missing_present "food_calories_per_serving" _ P Hcalories).
  rewrite Hfeatures. apply dict_set_same.
  unfold P at 1. rewrite preprocess_record_unfold. cbv zeta.
  rewrite dict_get_set. by case_decide.
Qed.

(** X4. The taste profile of every loaded record is computed from its
    [food_features]: the [str] of the truthy feature values, in document
    order, joined with [", "]; it is the empty string when the record has
    no features object.  A [taste_profile] in the source is overwritten. *)
Theorem loaded_taste_profile (repr : json → string)
    (json_load : string → result json) (file_path : string)
    (records : list dict) :
  json_load file_path = Ok (JArr (JObj <$> records)) →
  ∃ loaded,
    load_food_data repr json_load file_path = Ok (JArr (JObj <$> loaded))
    ∧ length loaded = length records
    ∧ ∀ i record, records !! i = Some record →
        ∃ item, loaded !! i = Some item
          ∧ dict_get "taste_profile" item
            = Some (JStr
                (match dict_get "food_features" record with
                 | Some (JObj food_features) =>
                     join ", "
                       (str repr <$> filter (λ v, truthy v) (food_features.*2))
                 | _ => ""
                 end)).
Proof.
  intros Hsource. exists (imap (preprocess_record repr) records).
  split; [by apply load_food_data_records|]. split; [by rewrite length_imap|].
  intros i record Hrecord. exists (preprocess_record repr i record).
  split; [by rewrite list_lookup_imap, Hrecord|].
  rewrite preprocess_record_unfold. cbv zeta. rewrite dict_get_set.
  by case_decide.
Qed.

Lemma loaded_taste_profile_witness :
  ∃ loaded,
    load_food_data (λ _, "") (λ _, Ok Samples.raw_catalog) "foods.json"
    = Ok (JArr (JObj <$> loaded))
    ∧ ∃ item, loaded !! 0 = Some item
        ∧ dict_get "taste_profile" item = Some (JStr "sweet, soft").
Proof.
  destruct (loaded_taste_profile (λ _, "") (λ _, Ok Samples.raw_catalog)
              "foods.json"
              [[("food_id", JInt 7); ("food_name", JStr "Pad Thai");
                ("cuisine_type", JStr "Thai");
                ("food_features", JObj [("taste", JStr "sweet");
                                        ("spicy", JBool false);
                                        ("texture", JStr "soft")])];
               [("food_name", JStr "Larb")]] eq_refl)
    as (loaded & Hload & _ & Hitems).
  exists loaded. split; [done|].
  destruct (Hitems 0 _ eq_refl) as (item & Hitem & Htaste).
  exists item. split; [done|]. exact Htaste.
Defined.

(** X5. Loading what the loader returned returns it unchanged, whatever
    the source was. *)
Theorem reloading_changes_nothing (repr : json → string)
    (json_load : string → result json) (file_path file_path' : string)
    (loaded : json) :
  load_food_data repr json_load file_path = Ok loaded →
  load_food_data repr (λ _, Ok loaded) file_path' = Ok loaded.
Proof.
  intros Hload.
  destruct (load_food_data_cases _ _ _ _ Hload)
    as [-> | [-> | [-> | (records & _ & ->)]]]; [done..|].
  rewrite (load_food_data_records repr _ file_path'
             (imap (preprocess_record repr) records) eq_refl).
  do 3 f_equal. apply list_eq. intros i.
  rewrite !list_lookup_imap. destruct (_ !! i) as [record|]; cbn;
    [|reflexivity].
  by rewrite preprocess_record_idempotent.
Qed.

Lemma reloading_changes_nothing_witness :
  ∃ loaded,
    load_food_data (λ _, "") (λ _, Ok Samples.raw_catalog) "foods.json" = Ok loaded
    ∧ load_food_data (λ _, "") (λ _, Ok loaded) "copy.json" = Ok loaded.
Proof.
  eexists. split; [reflexivity|].
  by apply (reloading_changes_nothing (λ _, "") (λ _, Ok Samples.raw_catalog)
              "foods.json").
Defined.

(** X6. Every record of a loaded catalog has [food_id] and
    [taste_profile] as strings and has [food_ingredients],
    [food_description], [cuisine_type] and [food_calories_per_serving];
    the loaded catalog has as many records as the source, in the same
    order (the name of a record stays where it was). *)
Theorem loaded_records_are_complete (repr : json → string)
    (json_load : string → result json) (file_path : string)
    (records : list dict) :
  json_load file_path = Ok (JArr (JObj <$> records)) →
  ∃ loaded,
    load_food_data repr json_load file_path = Ok (JArr (JObj <$> loaded))
    ∧ length loaded = length records
    ∧ ∀ i record, records !! i = Some record →
        ∃ item, loaded !! i = Some item
          ∧ (∃ id, dict_get "food_id" item = Some (JStr id))
          ∧ (∃ taste, dict_get "taste_profile" item = Some (JStr taste))
          ∧ is_Some (dict_get "food_ingredients" item)
          ∧ is_Some (dict_get "food_description" item)
          ∧ is_Some (dict_get "cuisine_type" item)
          ∧ is_Some (dict_get "food_calories_per_serving" item)
          ∧ dict_get "food_name" item = dict_get "food_name" record.
Proof.
  intros Hsource. exists (imap (preprocess_record repr) records).
  split; [by apply load_food_data_records|]. split; [by rewrite length_imap|].
  intros i record Hrecord. exists (preprocess_record repr i record).
  split; [by rewrite list_lookup_imap, Hrecord|].
  split; [eexists; dict_get_simpl|].
  split; [eexists; rewrite preprocess_record_unfold; cbv zeta;
          rewrite dict_get_set; by case_decide|].
  repeat split; dict_get_simpl.
Qed.

Lemma loaded_records_are_complete_witness :
  ∃ loaded,
    load_food_data (λ _, "") (λ _, Ok Samples.raw_catalog) "foods.json"
    = Ok (JArr (JObj <$> loaded))
    ∧ length loaded = 2.
Proof.
  destruct (loaded_records_are_complete (λ _, "") (λ _, Ok Samples.raw_catalog)
              "foods.json"
              [[("food_id", JInt 7); ("food_name", JStr "Pad Thai");
                ("cuisine_type", JStr "Thai");
                ("food_features", JObj [("taste", JStr "sweet");
                                        ("spicy", JBool false);
                                        ("texture", JStr "soft")])];
               [("food_name", JStr "Larb")]] eq_refl)
    as (loaded & Hload & Hlen & _).
  by exists loaded.
Defined.

(** ** The documents registered with the index *)

(** An id that is not in use is given as it is. *)
Lemma unique_id_free (base_id : string) (used_ids : gset string) :
  base_id ∉ used_ids → unique_id base_id used_ids = base_id.
Proof.
  intros Hfree.
  destruct (unique_id_spec base_id used_ids) as ([|k] & -> & _ & Hprev); [done|].
  destruct Hfree. apply (Hprev 0). lia.
Qed.

(** The base ids of a catalog: the [str] of [food_id], and the position
    for a record without one. *)
Lemma populate_loop_distinct_bases (repr : json → string)
    (food_items : list dict) (b : Batch) :
  let base_ids :=
    imap (λ k food,
      str repr (dict_get_default "food_id" (JInt (Z.of_nat k)) food)) food_items in
  populate_loop repr empty_batch 0 food_items = Ok b →
  NoDup base_ids →
  batch_ids b = base_ids.
Proof.
  intros base_ids Hloop Hnodup.
  destruct (populate_loop_Ok repr food_items empty_batch b 0 Hloop)
    as (new & Hids & _ & _ & Hlen & _ & _ & Hnew); [done | constructor |].
  cbn in Hids. subst new.
  assert (length base_ids = length food_items) as Hlen_base
    by (unfold base_ids; by rewrite length_imap).
  assert (∀ k, take k (batch_ids b) = take k base_ids) as Htake.
  { induction k as [|k IH]; [done|].
    destruct (food_items !! k) as [food|] eqn:Hfood.
    - specialize (Hnew k food Hfood).
      cbn [batch_ids empty_batch app Nat.add] in Hnew.
      assert (base_ids !! k
              = Some (str repr (dict_get_default "food_id"
                                  (JInt (Z.of_nat k)) food))) as Hbase.
      { unfold base_ids. by rewrite list_lookup_imap, Hfood. }
      rewrite (take_S_r _ _ _ Hnew), (take_S_r _ _ _ Hbase), IH. f_equal.
      f_equal. apply unique_id_free.
      rewrite elem_of_list_to_set.
      intros (j & Hj & Hlt)%elem_of_take.
      assert (j = k) by (by eapply NoDup_lookup). lia.
    - apply lookup_ge_None in Hfood.
      rewrite !take_ge in IH |- * by lia. done. }
  specialize (Htake (length food_items)).
  by rewrite !take_ge in Htake by lia.
Qed.

(** X7. When the ids of the records of a catalog ([str] of [food_id],
    the position for a record without one) are pairwise distinct, every
    document is registered under the id of its record, without a
    suffix. *)
Theorem distinct_ids_are_kept (repr : json → string)
    (food_items : list dict) (b : Batch) :
  populate_loop repr empty_batch 0 food_items = Ok b →
  NoDup (imap (λ k food,
           str repr (dict_get_default "food_id" (JInt (Z.of_nat k)) food))
           food_items) →
  batch_ids b
  = imap (λ k food,
      str repr (dict_get_default "food_id" (JInt (Z.of_nat k)) food)) food_items.
Proof. apply populate_loop_distinct_bases. Qed.

Lemma distinct_ids_are_kept_witness :
  ∃ b, populate_loop (λ _, "") empty_batch 0 Samples.catalog_with_distinct_ids = Ok b
       ∧ batch_ids b = ["a"; "7"; "2"].
Proof.
  destruct (populate_loop (λ _, "") empty_batch 0 Samples.catalog_with_distinct_ids)
    as [b|e] eqn:Hloop; [|vm_compute in Hloop; discriminate].
  exists b. split; [done|].
  apply (distinct_ids_are_kept (λ _, "") Samples.catalog_with_distinct_ids b Hloop).
  apply (bool_decide_unpack _). vm_compute. exact I.
Defined.

(** What one iteration appends for its record. *)
Lemma populate_step_record (repr : json → string) (b b' : Batch) (i : nat)
    (food : dict) :
  populate_step repr b i food = Ok b' →
  ∃ text md,
    document_text repr food = Ok text
    ∧ batch_documents b' = batch_documents b ++ [text]
    ∧ batch_metadatas b' = batch_metadatas b ++ [md]
    ∧ dict_get "food_name" food = Some (doc_name md)
    ∧ join_value ", " (dict_get_default "food_ingredients" (JArr []) food)
      = Ok (doc_ingredients md)
    ∧ doc_cuisine_type md = dict_get_default "cuisine_type" (JStr "Unknown") food
    ∧ doc_calories md = dict_get_default "food_calories_per_serving" (JInt 0) food
    ∧ doc_description md = dict_get_default "food_description" (JStr "") food.
Proof.
  unfold populate_step. intros H.
  apply bind_Ok in H as (text & Htext & H).
  apply bind_Ok in H as (name & Hname & H).
  apply bind_Ok in H as (ingredients & Hjoin & H).
  injection H as <-. cbn. eexists _, _. repeat split; [done..| | done].
  unfold dict_item in Hname.
  destruct (dict_get "food_name" food); by simplify_eq.
Qed.

(** The documents and the metadatas the loop appends, record by record. *)
Lemma populate_loop_records (repr : json → string) (food_items : list dict)
    (b b' : Batch) (i : nat) :
  populate_loop repr b i food_items = Ok b' →
  ∃ texts mds,
    batch_documents b' = batch_documents b ++ texts
    ∧ batch_metadatas b' = batch_metadatas b ++ mds
    ∧ Forall2 (λ food text, document_text repr food = Ok text) food_items texts
    ∧ Forall2 (λ food md,
        dict_get "food_name" food = Some (doc_name md)
        ∧ join_value ", " (dict_get_default "food_ingredients" (JArr []) food)
          = Ok (doc_ingredients md)
        ∧ doc_cuisine_type md
          = dict_get_default "cuisine_type" (JStr "Unknown") food
        ∧ doc_calories md
          = dict_get_default "food_calories_per_serving" (JInt 0) food
        ∧ doc_description md
          = dict_get_default "food_description" (JStr "") food) food_items mds.
Proof.
  revert b i. induction food_items as [|food rest IH]; intros b i H; cbn in H.
  - injection H as <-. exists [], []. rewrite !app_nil_r.
    repeat split; constructor.
  - apply bind_Ok in H as (b1 & Hstep & H).
    apply populate_step_record in Hstep
      as (text & md & Htext & Hdocs & Hmds & Hmd).
    apply IH in H as (texts & mds & Hdocs' & Hmds' & Htexts & Hall).
    exists (text :: texts), (md :: mds).
    rewrite Hdocs', Hdocs, Hmds', Hmds, <-!app_assoc.
    repeat split; try done; by constructor.
Qed.

(** X8. The three lists passed to [collection.add] are aligned with the
    catalog: at the position of a record stand the text built from that
    record and a metadata with the name of the record, its ingredients
    joined, and its cuisine, calories and description, which are
    ["Unknown"], 0 and the empty string for a record without them. *)
Theorem registered_documents_follow_catalog (repr : json → string)
    (food_items : list dict) (b : Batch) (k : nat) (food : dict) :
  populate_loop repr empty_batch 0 food_items = Ok b →
  food_items !! k = Some food →
  ∃ text md,
    batch_documents b !! k = Some text
    ∧ batch_metadatas b !! k = Some md
    ∧ is_Some (batch_ids b !! k)
    ∧ document_text repr food = Ok text
    ∧ dict_get "food_name" food = Some (doc_name md)
    ∧ join_value ", " (dict_get_default "food_ingredients" (JArr []) food)
      = Ok (doc_ingredients md)
    ∧ doc_cuisine_type md = dict_get_default "cuisine_type" (JStr "Unknown") food
    ∧ doc_calories md = dict_get_default "food_calories_per_serving" (JInt 0) food
    ∧ doc_description md = dict_get_default "food_description" (JStr "") food.
Proof.
  intros Hloop Hfood.
  destruct (populate_loop_records _ _ _ _ _ Hloop)
    as (texts & mds & Hdocs & Hmds & Htexts & Hall).
  destruct (populate_loop_Ok repr food_items empty_batch b 0 Hloop)
    as (new & Hids & _ & _ & Hlen & _); [done | constructor |].
  cbn in Hdocs, Hmds, Hids. subst texts mds new.
  destruct (Forall2_lookup_l _ _ _ k food Htexts Hfood) as (text & Htext & Hdoc).
  destruct (Forall2_lookup_l _ _ _ k food Hall Hfood) as (md & Hmd & Hfields).
  exists text, md. repeat split; try done; try apply Hfields.
  apply lookup_lt_is_Some. rewrite Hlen. by eapply lookup_lt_Some.
Qed.

Lemma registered_documents_follow_catalog_witness :
  ∃ b text md,
    populate_loop (λ _, "") empty_batch 0 Samples.catalog_with_distinct_ids = Ok b
    ∧ batch_documents b !! 2 = Some text
    ∧ batch_metadatas b !! 2 = Some md
    ∧ doc_name md = JStr "Larb"
    ∧ doc_cuisine_type md = JStr "Unknown"
    ∧ doc_calories md = JInt 0.
Proof.
  destruct (populate_loop (λ _, "") empty_batch 0 Samples.catalog_with_distinct_ids)
    as [b|e] eqn:Hloop; [|vm_compute in Hloop; discriminate].
  destruct (registered_documents_follow_catalog (λ _, "")
              Samples.catalog_with_distinct_ids b 2 [("food_name", JStr "Larb")]
              Hloop eq_refl)
    as (text & md & Hdoc & Hmd & _ & _ & Hname & _ & Hcuisine & Hcalories & _).
  exists b, text, md. repeat split; try done.
  by injection Hname as <-.
Defined.

(** Joining raises nothing but [TypeError]. *)
Lemma join_value_Raise (sep : string) (v : json) (e : exn) :
  join_value sep v = Raise e → e = TypeError.
Proof.
  destruct v as [| | | |s|l|kv]; cbn; try congruence.
  assert (∀ e', foldr (λ x acc,
              bind acc (λ parts,
                match x with
                | JStr s => Ok (s :: parts)
                | _ => Raise TypeError
                end)) (Ok []) l = Raise e' → e' = TypeError) as Hfold.
  { induction l as [|x l IH]; intros e'; cbn; [done|].
    destruct (foldr _ _ l) as [parts|e'']; cbn.
    - destruct x; congruence.
    - intros [= <-]. by apply IH. }
  destruct (foldr _ _ l) as [parts|e'] eqn:Hl; cbn; [done|].
  intros [= <-]. by apply Hfold.
Qed.

(** A list of strings is joined. *)
Lemma join_value_strings (sep : string) (names : list string) :
  join_value sep (JArr (JStr <$> names)) = Ok (join sep names).
Proof.
  cbn.
  assert (foldr (λ x acc,
            bind acc (λ parts,
              match x with
              | JStr s => Ok (s :: parts)
              | _ => Raise TypeError
              end)) (Ok []) (JStr <$> names) = Ok names) as ->; [|done].
  induction names as [|name names IH]; [done|]. cbn. by rewrite IH.
Qed.

(** The exceptions an iteration can raise. *)
Lemma populate_step_Raise (repr : json → string) (b : Batch) (i : nat)
    (food : dict) (e : exn) :
  populate_step repr b i food = Raise e →
  e = KeyError "food_name" ∨ e = TypeError.
Proof.
  unfold populate_step, document_text, dict_item.
  destruct (dict_get "food_name" food) as [name|]; cbn; [|intros [= <-]; by left].
  destruct (join_value ", " _) as [ingredients|e'] eqn:Hjoin; cbn; [done|].
  intros [= <-]. right. by eapply join_value_Raise.
Qed.

(** X9. A catalog with a record that has no [food_name] is not
    registered: [populate_similarity_collection] raises before it calls
    [collection.add], with [KeyError] for the name or with the
    [TypeError] of ingredients of an earlier record that cannot be
    joined. *)
Theorem nameless_record_stops_population (repr : json → string)
    (collection : Collection) (food_items : list dict) (k : nat) (food : dict) :
  food_items !! k = Some food →
  dict_get "food_name" food = None →
  ∃ e, populate_loop repr empty_batch 0 food_items = Raise e
       ∧ populate_similarity_collection repr collection food_items = Raise e
       ∧ (e = KeyError "food_name" ∨ e = TypeError).
Proof.
  intros Hfood Hname.
  assert (∀ b i, ∃ e, populate_loop repr b i food_items = Raise e
                      ∧ (e = KeyError "food_name" ∨ e = TypeError)) as Hloop.
  { revert k Hfood.
    induction food_items as [|food' rest IH]; intros k Hfood b i; [done|].
    cbn. destruct (populate_step repr b i food') as [b1|e] eqn:Hstep; cbn.
    - destruct k as [|k]; cbn in Hfood.
      + simplify_eq. unfold populate_step, document_text, dict_item in Hstep.
        by rewrite Hname in Hstep.
      + by apply (IH k).
    - exists e. split; [done|]. by eapply populate_step_Raise. }
  destruct (Hloop empty_batch 0) as (e & He & Hkind).
  exists e. repeat split; [done | | done].
  unfold populate_similarity_collection. by rewrite He.
Qed.

Lemma nameless_record_stops_population_witness :
  ∃ e, populate_similarity_collection (λ _, "") Samples.stub_collection
         Samples.catalog_with_nameless_record = Raise e
       ∧ (e = KeyError "food_name" ∨ e = TypeError).
Proof.
  destruct (nameless_record_stops_population (λ _, "") Samples.stub_collection
              Samples.catalog_with_nameless_record 1 [("food_id", JStr "b")]
              eq_refl eq_refl) as (e & _ & He & Hkind).
  by exists e.
Defined.

(** ** Loading, then registering *)

(** X10. A source of records that all have a name, and ingredients that
    are a list of strings when they have any, is loaded, and from what
    was loaded [populate_similarity_collection] builds its batch, one
    document per record, without raising: it reaches its call of
    [collection.add], and what it returns or raises is what that call
    returns or raises.  When no record of the source has a [food_id],
    the ids of the batch are 1, 2, ... in the order of the source. *)
Theorem loaded_catalog_is_registered (repr : json → string)
    (json_load : string → result json) (file_path : string)
    (collection : Collection) (records : list dict) :
  json_load file_path = Ok (JArr (JObj <$> records)) →
  Forall (λ record,
    is_Some (dict_get "food_name" record)
    ∧ ∀ v, dict_get "food_ingredients" record = Some v →
           ∃ names, v = JArr (JStr <$> names)) records →
  ∃ loaded b,
    load_food_data repr json_load file_path = Ok (JArr (JObj <$> loaded))
    ∧ populate_loop repr empty_batch 0 loaded = Ok b
    ∧ populate_similarity_collection repr collection loaded
      = add collection (batch_documents b) (batch_metadatas b) (batch_ids b)
    ∧ length (batch_ids b) = length records
    ∧ (Forall (λ record, dict_get "food_id" record = None) records →
       batch_ids b
       = (λ k, pretty (Z.of_nat k + 1)%Z) <$> seq 0 (length records)).
Proof.
  intros Hsource Hrecords.
  set (loaded := imap (preprocess_record repr) records).
  assert (∀ i item, loaded !! i = Some item →
            ∃ record, records !! i = Some record
                      ∧ item = preprocess_record repr i record) as Hloaded.
  { intros i item Hitem. unfold loaded in Hitem.
    rewrite list_lookup_imap in Hitem.
    destruct (records !! i) as [record|]; simplify_eq/=. by eexists. }
  destruct (populate_loop_succeeds repr loaded empty_batch 0) as [b Hloop].
  { apply Forall_lookup. intros i item Hitem.
    destruct (Hloaded i item Hitem) as (record & Hrecord & ->).
    destruct (Forall_lookup_1 _ _ _ _ Hrecords Hrecord) as [[name Hname] Hing].
    split.
    - exists name. dict_get_simpl.
    - unfold dict_get_default. dict_get_simpl.
      destruct (dict_get "food_ingredients" record) as [v|] eqn:Hv; cbn.
      + destruct (Hing v eq_refl) as [names ->]. eexists.
        apply join_value_strings.
      + by eexists. }
  destruct (populate_loop_Ok repr loaded empty_batch b 0 Hloop)
    as (new & Hids & _ & _ & Hlen & _); [done | constructor |].
  cbn in Hids. subst new.
  exists loaded, b. split; [by apply load_food_data_records|].
  split; [done|]. split; [unfold populate_similarity_collection; by rewrite Hloop|].
  split; [unfold loaded in Hlen; by rewrite length_imap in Hlen|].
  intros Hno_id.
  assert (imap (λ k food,
            str repr (dict_get_default "food_id" (JInt (Z.of_nat k)) food)) loaded
          = (λ k, pretty (Z.of_nat k + 1)%Z) <$> seq 0 (length records)) as Hbases.
  { apply list_eq. intros i.
    rewrite list_lookup_imap, list_lookup_fmap.
    unfold loaded. rewrite list_lookup_imap.
    destruct (records !! i) as [record|] eqn:Hrecord; cbn.
    - rewrite lookup_seq_lt by (by eapply lookup_lt_Some). cbn. f_equal.
      pose proof (Forall_lookup_1 _ _ _ _ Hno_id Hrecord) as Hnone.
      unfold dict_get_default. dict_get_simpl. by rewrite Hnone.
    - apply lookup_ge_None in Hrecord. by rewrite lookup_seq_ge. }
  rewrite <-Hbases. apply (populate_loop_distinct_bases repr loaded b Hloop).
  rewrite Hbases. apply NoDup_fmap_2; [|apply NoDup_seq].
  intros j k Hjk. apply (inj pretty) in Hjk. lia.
Qed.

Lemma loaded_catalog_is_registered_witness :
  ∃ loaded b,
    load_food_data (λ _, "")
      (λ _, Ok (JArr [JObj [("food_name", JStr "Pad Thai")];
                      JObj [("food_name", JStr "Larb");
                            ("food_ingredients", JArr [JStr "pork"; JStr "lime"])]]))
      "foods.json" = Ok (JArr (JObj <$> loaded))
    ∧ populate_loop (λ _, "") empty_batch 0 loaded = Ok b
    ∧ batch_ids b = ["1"; "2"].
Proof.
  destruct (loaded_catalog_is_registered (λ _, "")
              (λ _, Ok (JArr [JObj [("food_name", JStr "Pad Thai")];
                              JObj [("food_name", JStr "Larb");
                                    ("food_ingredients",
                                     JArr [JStr "pork"; JStr "lime"])]]))
              "foods.json" Samples.stub_collection
              [[("food_name", JStr "Pad Thai")];
               [("food_name", JStr "Larb");
                ("food_ingredients", JArr [JStr "pork"; JStr "lime"])]] eq_refl)
    as (loaded & b & Hload & Hloop & _ & _ & Hids).
  - constructor; [split; [by eexists | intros v Hv; discriminate]|].
    constructor; [|constructor].
    split; [by eexists | intros v [= <-]; by exists ["pork"; "lime"]].
  - exists loaded, b. repeat split; [done..|]. apply Hids.
    by repeat constructor.
Defined.

(** ** Recommendation and comparison *)

(** The context and the fallback summary read the first three results
    at most. *)
Lemma prepare_context_take_3 (format_1f : Q → string) (query : string)
    (search_results : list Result) :
  prepare_context_for_llm format_1f query (take 3 search_results)
  = prepare_context_for_llm format_1f query search_results.
Proof.
  destruct search_results as [|first rest]; [done|].
  unfold prepare_context_for_llm. cbn [take]. by rewrite take_take.
Qed.

Lemma generate_fallback_response_take_3 (query : string)
    (search_results : list Result) :
  generate_fallback_response query (take 3 search_results)
  = generate_fallback_response query search_results.
Proof.
  destruct search_results as [|top [|second rest]]; [done..|].
  cbn [take]. by rewrite !generate_fallback_response_cons.
Qed.

(** X11. A recommendation is never an error: it is either the fallback
    summary or the stripped text of the first choice of the completion,
    and in that case the text has at least 50 characters. *)
Theorem recommendation_is_answer_or_fallback (format_1f : Q → string)
    (client_openai : ChatRequest → result Completion)
    (query : string) (search_results : list Result) :
  ∃ text,
    generate_llm_rag_response format_1f client_openai query search_results
    = Ok text
    ∧ (text = generate_fallback_response query search_results
       ∨ ∃ completion content,
           client_openai
             (rag_request
                (rag_prompt query
                   (prepare_context_for_llm format_1f query search_results)))
           = Ok completion
           ∧ choices completion !! 0 = Some (Some content)
           ∧ text = strip content
           ∧ (50 ≤ len text)%Z).
Proof.
  unfold generate_llm_rag_response.
  destruct (client_openai _) as [completion|e] eqn:Hclient; cbn; [|eauto].
  unfold index. destruct (choices completion !! 0) as [[content|]|] eqn:Hchoice;
    cbn; [|eauto..].
  case_bool_decide as Hshort; [eauto|].
  eexists. split; [done|]. right. exists completion, content.
  repeat split; [done | lia].
Qed.

(** X12. Only the first three results can influence a recommendation:
    the results that follow them change neither the prompt nor the
    fallback summary. *)
Theorem recommendation_reads_first_three (format_1f : Q → string)
    (client_openai : ChatRequest → result Completion)
    (query : string) (search_results : list Result) :
  generate_llm_rag_response format_1f client_openai query (take 3 search_results)
  = generate_llm_rag_response format_1f client_openai query search_results.
Proof.
  unfold generate_llm_rag_response.
  by rewrite prepare_context_take_3, generate_fallback_response_take_3.
Qed.

(** X13. The deterministic comparison: a fixed message when neither
    query has results; a message naming both queries when one has none;
    otherwise a sentence naming the first result of each query.  It reads
    nothing of the lists but their first entries. *)
Theorem simple_comparison_cases (query1 query2 : string) :
  generate_simple_comparison query1 query2 [] []
    = "No results found for either query."
  ∧ (∀ first rest,
       generate_simple_comparison query1 query2 [] (first :: rest)
       = "Found results for '" +:+ query2 +:+ "' but none for '"
           +:+ query1 +:+ "'.")
  ∧ (∀ first rest,
       generate_simple_comparison query1 query2 (first :: rest) []
       = "Found results for '" +:+ query1 +:+ "' but none for '"
           +:+ query2 +:+ "'.")
  ∧ (∀ first1 rest1 first2 rest2,
       generate_simple_comparison query1 query2 (first1 :: rest1) (first2 :: rest2)
       = "For '" +:+ query1 +:+ "', I recommend " +:+ food_name first1
           +:+ ". For '" +:+ query2 +:+ "', " +:+ food_name first2
           +:+ " would be perfect.")
  ∧ (∀ results1 results2,
       generate_simple_comparison query1 query2 (take 1 results1) (take 1 results2)
       = generate_simple_comparison query1 query2 results1 results2).
Proof.
  repeat split; try done.
  by intros [|first1 rest1] [|first2 rest2].
Qed.

(** X14. A comparison is never an error.  The stripped text of the first
    choice of the completion is returned whatever its length, an empty
    text included: there is no threshold as for a recommendation.  The
    deterministic comparison is returned when the service raises, when
    the completion has no choice, and when the first choice has no
    content. *)
Theorem comparison_is_answer_or_fallback (format_1f : Q → string)
    (client_openai : ChatRequest → result Completion)
    (query1 query2 : string) (results1 results2 : list Result) :
  let request :=
    comparison_request
      (comparison_prompt query1 query2
         (prepare_context_for_llm format_1f query1 (take 3 results1))
         (prepare_context_for_llm format_1f query2 (take 3 results2))) in
  let answer :=
    generate_llm_comparison format_1f client_openai query1 query2
      results1 results2 in
  let fallback := generate_simple_comparison query1 query2 results1 results2 in
  (∀ completion content,
     client_openai request = Ok completion →
     choices completion !! 0 = Some (Some content) →
     answer = Ok (strip content))
  ∧ (∀ e, client_openai request = Raise e → answer = Ok fallback)
  ∧ (∀ completion,
       client_openai request = Ok completion →
       choices completion = [] ∨ choices completion !! 0 = Some None →
       answer = Ok fallback).
Proof.
  cbv zeta. unfold generate_llm_comparison, index. repeat split.
  - intros completion content -> Hchoice. cbn. by rewrite Hchoice.
  - by intros e ->.
  - intros completion -> [Hnone | Hnone]; cbn; by rewrite Hnone.
Qed.

Lemma comparison_is_answer_or_fallback_witness :
  generate_llm_comparison format_1f_exact Samples.terse_client "light" "spicy"
    Samples.four_results [] = Ok "Try the curry."
  ∧ generate_llm_comparison format_1f_exact Samples.raising_client "light" "spicy"
      Samples.four_results []
    = Ok (generate_simple_comparison "light" "spicy" Samples.four_results []).
Proof.
  pose proof (comparison_is_answer_or_fallback format_1f_exact Samples.terse_client
                "light" "spicy" Samples.four_results []) as (Hanswer & _).
  pose proof (comparison_is_answer_or_fallback format_1f_exact
                Samples.raising_client "light" "spicy" Samples.four_results [])
    as (_ & Hraise & _).
  split.
  - apply (Hanswer {| choices := [Some "  Try the curry.  "] |}
             "  Try the curry.  "); reflexivity.
  - by apply (Hraise (ServiceError "quota exceeded")).
Defined.

(** X15. Only the first three results of each query can influence a
    comparison. *)
Theorem comparison_reads_first_three (format_1f : Q → string)
    (client_openai : ChatRequest → result Completion)
    (query1 query2 : string) (results1 results2 : list Result) :
  generate_llm_comparison format_1f client_openai query1 query2
    (take 3 results1) (take 3 results2)
  = generate_llm_comparison format_1f client_openai query1 query2
      results1 results2.
Proof.
  unfold generate_llm_comparison. rewrite !take_take. cbn [Nat.min].
  assert (generate_simple_comparison query1 query2 (take 3 results1)
            (take 3 results2)
          = generate_simple_comparison query1 query2 results1 results2) as ->; [|done].
  by destruct results1 as [|first1 rest1], results2 as [|first2 rest2].
Qed.

(** ** The console functions *)

Import Console.

(** Running a program that starts with [print] or [input]. *)
Lemma run_print {A} (text : string) (k : unit → io A) (c : console) :
  (print text ≫= k) c
  = k () {| stdin := stdin c; stdout := stdout c ++ [text +:+ newline] |}.
Proof. done. Qed.

Lemma run_input_line {A} (prompt text : string) (rest : list key)
    (k : string → io A) (c : console) :
  stdin c = Line text :: rest →
  (input prompt ≫= k) c
  = k text {| stdin := rest; stdout := stdout c ++ [prompt] |}.
Proof.
  intros Hin. unfold mbind, io_bind, input. by rewrite Hin.
Qed.

Lemma run_input_eof {A} (prompt : string) (k : string → io A) (c : console) :
  stdin c = [] →
  (input prompt ≫= k) c
  = ({| stdin := []; stdout := stdout c ++ [prompt] |}, Raised EOFError).
Proof.
  intros Hin. unfold mbind, io_bind, input. by rewrite Hin.
Qed.

Lemma run_input_interrupt {A} (prompt : string) (rest : list key)
    (k : string → io A) (c : console) :
  stdin c = Interrupt :: rest →
  (input prompt ≫= k) c
  = ({| stdin := rest; stdout := stdout c ++ [prompt] |}, Raised KeyboardInterrupt).
Proof.
  intros Hin. unfold mbind, io_bind, input. by rewrite Hin.
Qed.

Lemma run_ret {A B} (a : A) (k : A → io B) (c : console) :
  (mret a ≫= k) c = k a c.
Proof. done. Qed.

Lemma run_bind_assoc {A B C} (m : io A) (f : A → io B) (g : B → io C)
    (c : console) :
  ((m ≫= f) ≫= g) c = (m ≫= λ a, f a ≫= g) c.
Proof.
  unfold mbind, io_bind. destruct (m c) as [c' [a|s]]; done.
Qed.

Lemma writes_ret {A} (a : A) : writes (mret a) [] a.
Proof. intros [i o]. cbn. by rewrite app_nil_r. Qed.

Lemma writes_print (text : string) : writes (print text) [text +:+ newline] ().
Proof. by intros c. Qed.

Lemma writes_bind {A B} (m : io A) (k : A → io B) (lines1 lines2 : list string)
    (a : A) (b : B) :
  writes m lines1 a → writes (k a) lines2 b →
  writes (m ≫= k) (lines1 ++ lines2) b.
Proof.
  intros Hm Hk c. unfold mbind, io_bind. rewrite Hm, Hk. cbn.
  by rewrite <-app_assoc.
Qed.

Lemma writes_eq {A} (m : io A) (lines lines' : list string) (a : A) :
  writes m lines a → lines = lines' → writes m lines' a.
Proof. by intros H <-. Qed.

(** Two lists of lines that agree line by line, up to the bracketing
    of each line. *)
Ltac lines_eq :=
  cbn [app]; repeat (apply (f_equal2 cons); [string_eq|]); try reflexivity.

(** A sequence of [print]s that ends with a program that writes. *)
Ltac writes_prints :=
  repeat (eapply writes_bind; [apply writes_print|]).

Import Advanced.
Import Chatbot.

(** Running a program that raises, and one that is known to write. *)
Lemma run_raise {A B} (s : signal) (k : A → io B) (c : console) :
  (raise s ≫= k) c = (c, Raised s).
Proof. done. Qed.

Lemma run_writes {A B} (m : io A) (k : A → io B) (lines : list string) (a : A)
    (c : console) :
  writes m lines a →
  (m ≫= k) c = k a {| stdin := stdin c; stdout := stdout c ++ lines |}.
Proof. intros Hm. unfold mbind, io_bind. by rewrite Hm. Qed.

(** The steps of a run that starts with a [print] or with an [input]
    that meets a line. *)
Ltac run :=
  repeat (first [rewrite run_print | erewrite run_input_line by reflexivity
                | rewrite run_bind_assoc];
          cbn beta; cbn [stdin stdout]).

Lemma console_ext {A} (rest : list key) (lines lines' : list string)
    (o : outcome A) :
  lines = lines' →
  ({| stdin := rest; stdout := lines |}, o)
  = ({| stdin := rest; stdout := lines' |}, o).
Proof. by intros ->. Qed.

(** Two final consoles that hold the same lines. *)
Ltac console_eq :=
  cbn [stdin stdout]; apply console_ext; rewrite <-?app_assoc; cbn [app];
  apply (f_equal (app _)); lines_eq.

(** Inversion of a sequence that returned. *)
Lemma bind_Return {A B} (m : io A) (k : A → io B) (c c' : console) (b : B) :
  (m ≫= k) c = (c', Return b) →
  ∃ a c1, m c = (c1, Return a) ∧ k a c1 = (c', Return b).
Proof.
  unfold mbind, io_bind. destruct (m c) as [c1 [a|s]]; [eauto | discriminate].
Qed.

(** A handler that is followed by [continue] does not leave the loop. *)
Lemma then_false_not_true {A} (m : io A) (c c' : console) :
  (m ≫= λ _, mret false) c ≠ (c', Return true).
Proof. intros (a & c1 & _ & [=])%bind_Return. Qed.

Lemma then_ret_value {A B} (m : io A) (v x : B) (c c' : console) :
  (m ≫= λ _, mret v) c = (c', Return x) → x = v.
Proof. by intros (a & c1 & _ & [= _ <-])%bind_Return. Qed.

Section Runs.
Variable format_1f : Q → string.
Variable format_0f : Q → string.
Variable str_title : string → string.
Variable str_exception : signal → string.
Variable client_openai : ChatRequest → result Completion.

(** *** display_search_results *)

Lemma display_loop_writes (show_details : bool) (results : list SearchResult)
    (i : Z) :
  writes (display_loop format_1f i results show_details)
    (concat (imap (λ k result,
               Spec.result_lines format_1f show_details (i + Z.of_nat k) result)
             results)) ().
Proof.
  revert i. induction results as [|result rest IH]; intros i.
  - apply writes_ret.
  - cbn [display_loop].
    eapply writes_eq.
    + eapply (writes_bind _ _ (Spec.result_lines format_1f show_details i result));
        [|apply IH].
      unfold Spec.result_lines.
      destruct show_details; eapply writes_eq;
        [writes_prints; apply writes_print | lines_eq
        |writes_prints; apply writes_print | lines_eq].
    + cbn [imap concat]. rewrite Z.add_0_r. f_equal.
      f_equal. apply imap_ext. intros k r _. cbn. f_equal. lia.
Qed.

Lemma display_writes (results : list SearchResult) (title : string)
    (show_details : bool) :
  writes (display_search_results format_1f results title show_details)
    (Spec.display_lines format_1f title show_details results) ().
Proof.
  unfold display_search_results, Spec.display_lines.
  destruct results as [|result rest].
  - eapply writes_eq; [writes_prints; apply writes_print | lines_eq].
  - eapply writes_eq.
    + writes_prints.
      eapply writes_bind; [apply display_loop_writes | apply writes_print].
    + lines_eq.
Qed.

(** X16. [display_search_results] reads nothing and raises nothing.  For
    an empty list it writes the title, a rule and the two messages that
    nothing was found.  Otherwise it writes the title, a rule, the lines
    of each result in the order of the list, numbered from 1 (five lines
    with details, one without), and a closing rule. *)
Theorem display_search_results_writes (results : list SearchResult)
    (title : string) (show_details : bool) :
  writes (display_search_results format_1f results title show_details)
    ([newline +:+ "📋 " +:+ title +:+ newline; repeat_str "=" 50 +:+ newline]
     ++ match results with
        | [] =>
            ["❌ No matching results found" +:+ newline;
             "💡 Try adjusting your search terms or filters" +:+ newline]
        | _ :: _ =>
            concat (imap (λ k result,
                      Spec.result_lines format_1f show_details
                        (1 + Z.of_nat k) result) results)
            ++ [repeat_str "=" 50 +:+ newline]
        end) ().
Proof.
  unfold display_search_results. destruct results as [|result rest].
  - eapply writes_eq; [writes_prints; apply writes_print | lines_eq].
  - eapply writes_eq.
    + writes_prints.
      eapply writes_bind; [apply display_loop_writes | apply writes_print].
    + lines_eq.
Qed.

(** *** The handlers that print *)

Lemma try_except_print_Ok {A} (a : A) (message : string) (fallback : A) :
  writes (OnConsole.try_except_print str_exception (Ok a) message fallback) [] a.
Proof. intros c. cbn. by rewrite app_nil_r; destruct c. Qed.

Lemma try_except_print_Raise {A} (e : exn) (message : string) (fallback : A) :
  writes (OnConsole.try_except_print str_exception (Raise e) message fallback)
    [message +:+ str_exception (Exception e) +:+ newline] fallback.
Proof.
  unfold OnConsole.try_except_print. eapply writes_eq.
  - eapply writes_bind; [apply writes_print | apply writes_ret].
  - lines_eq.
Qed.

Lemma try_except_print_agrees {A} (body : result A) (message : string)
    (fallback : A) :
  ∃ lines a,
    writes (OnConsole.try_except_print str_exception body message fallback)
      lines a
    ∧ try_except body (λ _, Ok fallback) = Ok a
    ∧ match body with
      | Ok _ => lines = []
      | Raise e =>
          lines = [message +:+ str_exception (Exception e) +:+ newline]
          ∧ a = fallback
      end.
Proof.
  destruct body as [a|e].
  - exists [], a. split; [apply try_except_print_Ok | done].
  - eexists _, fallback. split; [apply try_except_print_Raise | done].
Qed.

Lemma filtered_search_writes_Ok (collection : Collection) (query_text : string)
    (cuisine_filter : option string) (max_calories : option Z) (n_results : Z)
    (answer : QueryResult) (results : list SearchResult) :
  query collection [query_text] n_results
    (build_where_clause cuisine_filter max_calories) = Ok answer →
  format_results answer = Ok results →
  writes (OnConsole.perform_filtered_similarity_search str_exception collection
            query_text cuisine_filter max_calories n_results) [] results.
Proof.
  intros Hq Hf. unfold OnConsole.perform_filtered_similarity_search.
  rewrite Hq. cbn [mbind result_bind bind]. rewrite Hf.
  apply try_except_print_Ok.
Qed.

Lemma search_agrees (collection : Collection) (query_text : string)
    (n_results : Z) :
  ∃ lines results,
    writes (OnConsole.perform_similarity_search str_exception collection
              query_text n_results) lines results
    ∧ perform_similarity_search collection query_text n_results = Ok results
    ∧ (lines = []
       ∨ results = []
         ∧ ∃ e, lines = ["Error in similarity search: "
                         +:+ str_exception (Exception e) +:+ newline]).
Proof.
  unfold OnConsole.perform_similarity_search, perform_similarity_search.
  match goal with |- context [OnConsole.try_except_print _ ?body ?m ?f] =>
    destruct (try_except_print_agrees body m f) as (lines & a & Hw & Ha & Hl);
    destruct body as [results|e] end.
  - exists lines, a. auto.
  - destruct Hl as [-> ->]. eexists _, []. split_and!; eauto.
Qed.

(** X3. No predicate is built exactly when the cuisine filter is [None]
    or the empty string and there is no calorie bound.  The filtered
    search then asks the index what the unfiltered search asks and
    returns what it returns; on the console the two write the same,
    nothing, when the index answers, and differ in the line they write
    when it fails. *)
Theorem filtered_search_without_filter
    (collection : Collection) (query_text : string) (n_results : Z)
    (cuisine_filter : option string) (max_calories : option Z) :
  (build_where_clause cuisine_filter max_calories = None
   ↔ (cuisine_filter = None ∨ cuisine_filter = Some "") ∧ max_calories = None)
  ∧ (build_where_clause cuisine_filter max_calories = None →
     perform_filtered_similarity_search collection query_text cuisine_filter
       max_calories n_results
     = perform_similarity_search collection query_text n_results
     ∧ match query collection [query_text] n_results None ≫= format_results with
       | Ok results =>
           writes (OnConsole.perform_filtered_similarity_search str_exception
                     collection query_text cuisine_filter max_calories n_results)
             [] results
           ∧ writes (OnConsole.perform_similarity_search str_exception
                       collection query_text n_results)
               [] results
       | Raise e =>
           writes (OnConsole.perform_filtered_similarity_search str_exception
                     collection query_text cuisine_filter max_calories n_results)
             ["Error in filtered search: " +:+ str_exception (Exception e)
                +:+ newline] []
           ∧ writes (OnConsole.perform_similarity_search str_exception
                       collection query_text n_results)
               ["Error in similarity search: " +:+ str_exception (Exception e)
                  +:+ newline] []
       end).
Proof.
  split.
  - unfold build_where_clause, build_filters.
    destruct cuisine_filter as [c|], max_calories as [m|]; cbn.
    + case_bool_decide; cbn; split; try done; by intros [_ ?].
    + case_bool_decide as Hc; cbn; split; try done.
      * intros _. split; [right; by rewrite Hc | done].
      * intros [[?|?] _]; congruence.
    + split; [done | by intros [_ ?]].
    + split; [intros _; split; [by left | done] | done].
  - intros Hnone. split.
    { unfold perform_filtered_similarity_search. by rewrite Hnone. }
    unfold OnConsole.perform_filtered_similarity_search,
      OnConsole.perform_similarity_search. cbv zeta. rewrite Hnone.
    destruct (query collection [query_text] n_results None ≫= format_results)
      as [results|e].
    + split; apply try_except_print_Ok.
    + split; apply try_except_print_Raise.
Qed.

(** X17. On the console either search reads nothing, raises nothing and
    returns what the function of the first part returns.  It writes
    nothing, or it returns the empty list and writes the one line that
    names the exception. *)
Theorem console_search_agrees (collection : Collection) (query_text : string)
    (cuisine_filter : option string) (max_calories : option Z) (n_results : Z) :
  (∃ lines results,
     writes (OnConsole.perform_similarity_search str_exception collection
               query_text n_results) lines results
     ∧ perform_similarity_search collection query_text n_results = Ok results
     ∧ (lines = []
        ∨ results = []
          ∧ ∃ e, lines = ["Error in similarity search: "
                          +:+ str_exception (Exception e) +:+ newline]))
  ∧ (∃ lines results,
       writes (OnConsole.perform_filtered_similarity_search str_exception
                 collection query_text cuisine_filter max_calories n_results)
         lines results
       ∧ perform_filtered_similarity_search collection query_text
           cuisine_filter max_calories n_results = Ok results
       ∧ (lines = []
          ∨ results = []
            ∧ ∃ e, lines = ["Error in filtered search: "
                            +:+ str_exception (Exception e) +:+ newline])).
Proof.
  split; [apply search_agrees|].
  - unfold OnConsole.perform_filtered_similarity_search,
      perform_filtered_similarity_search. cbv zeta.
    match goal with |- context [OnConsole.try_except_print _ ?body ?m ?f] =>
      destruct (try_except_print_agrees body m f) as (lines & a & Hw & Ha & Hl);
      destruct body as [results|e] end.
    + exists lines, a. auto.
    + destruct Hl as [-> ->]. eexists _, []. split_and!; eauto.
Qed.

(** X18. On the console [generate_llm_rag_response] returns what the
    function of the first part returns.  It writes a line exactly when
    the service raises or its answer holds no text; the fallback for an
    answer that is too short is not announced. *)
Theorem console_generation_agrees (query : string)
    (search_results : list Result) :
  ∃ lines response,
    writes (OnConsole.generate_llm_rag_response format_1f str_exception
              client_openai query search_results) lines response
    ∧ generate_llm_rag_response format_1f client_openai query search_results
      = Ok response
    ∧ match client_openai
              (rag_request (rag_prompt query
                 (prepare_context_for_llm format_1f query search_results))) with
      | Ok {| choices := Some _ :: _ |} => lines = []
      | Ok {| choices := None :: _ |} =>
          lines = ["❌ LLM Error during RAG response generation: "
                   +:+ str_exception (Exception AttributeError) +:+ newline]
      | Ok {| choices := [] |} =>
          lines = ["❌ LLM Error during RAG response generation: "
                   +:+ str_exception (Exception IndexError) +:+ newline]
      | Raise e =>
          lines = ["❌ LLM Error during RAG response generation: "
                   +:+ str_exception (Exception e) +:+ newline]
      end.
Proof.
  unfold OnConsole.generate_llm_rag_response, generate_llm_rag_response.
  cbv zeta.
  match goal with |- context [OnConsole.try_except_print _ ?body ?m ?f] =>
    destruct (try_except_print_agrees body m f) as (lines & a & Hw & Ha & Hl)
  end.
  exists lines, a. split; [done|]. split; [done|].
  destruct (client_openai _) as [[[|[content|] rest]]|e]; cbn in Hl.
  - by destruct Hl.
  - by destruct (bool_decide _).
  - by destruct Hl.
  - by destruct Hl.
Qed.

(** *** The four searches of advanced_search.py *)

Lemma print_cuisines_writes (i : Z) (names : list string) :
  writes (print_cuisines i names)
    (imap (λ k name, "  " +:+ pretty (i + Z.of_nat k)%Z +:+ ". " +:+ name
                     +:+ newline) names) ().
Proof.
  revert i. induction names as [|name rest IH]; intros i.
  - apply writes_ret.
  - cbn [print_cuisines]. eapply writes_eq.
    + eapply writes_bind; [apply writes_print | apply IH].
    + cbn [imap app]. rewrite Z.add_0_r. f_equal; [string_eq|].
      apply imap_ext. intros k r _. cbn. do 3 f_equal. lia.
Qed.

(** X19. A blank search query ends each of the four search handlers with
    the request to enter a search term, after all of its inputs have
    been read: the index is not asked. *)
Theorem blank_query_is_not_searched (collection : Collection)
    (query_line second third : string) (rest : list key) (out : list string) :
  strip query_line = "" →
  perform_basic_search format_1f str_exception collection
    {| stdin := Line query_line :: rest; stdout := out |}
  = ({| stdin := rest;
        stdout := out ++
          [newline +:+ "🔍 BASIC SIMILARITY SEARCH" +:+ newline;
           repeat_str "-" 30 +:+ newline;
           "Enter search query: ";
           "❌ Please enter a search term" +:+ newline] |}, Return ())
  ∧ perform_cuisine_filtered_search format_1f str_title str_exception collection
      {| stdin := Line query_line :: Line second :: rest; stdout := out |}
    = ({| stdin := rest;
          stdout := out ++
            [newline +:+ "🍽️ CUISINE-FILTERED SEARCH" +:+ newline;
             repeat_str "-" 30 +:+ newline;
             "Available cuisines:" +:+ newline]
            ++ imap (λ k name, "  " +:+ pretty (1 + Z.of_nat k)%Z +:+ ". "
                               +:+ name +:+ newline) cuisines
            ++ [newline +:+ "Enter search query: ";
                "Enter cuisine number (or cuisine name): ";
                "❌ Please enter a search term" +:+ newline] |}, Return ())
  ∧ perform_calorie_filtered_search format_1f str_exception collection
      {| stdin := Line query_line :: Line second :: rest; stdout := out |}
    = ({| stdin := rest;
          stdout := out ++
            [newline +:+ "🔥 CALORIE-FILTERED SEARCH" +:+ newline;
             repeat_str "-" 30 +:+ newline;
             "Enter search query: ";
             "Enter maximum calories (or press Enter for no limit): ";
             "❌ Please enter a search term" +:+ newline] |}, Return ())
  ∧ perform_combined_filtered_search format_1f str_title str_exception collection
      {| stdin := Line query_line :: Line second :: Line third :: rest;
         stdout := out |}
    = ({| stdin := rest;
          stdout := out ++
            [newline +:+ "🎯 COMBINED FILTERS SEARCH" +:+ newline;
             repeat_str "-" 30 +:+ newline;
             "Enter search query: ";
             "Enter cuisine type (optional): ";
             "Enter maximum calories (optional): ";
             "❌ Please enter a search term" +:+ newline] |}, Return ()).
Proof.
  intros Hq. repeat split.
  - unfold perform_basic_search. run. rewrite Hq. rewrite bool_decide_eq_true_2 by done.
    unfold print. console_eq.
  - unfold perform_cuisine_filtered_search. run.
    rewrite (run_writes _ _ _ _ _ (print_cuisines_writes 1 cuisines)).
    run. rewrite Hq. rewrite bool_decide_eq_true_2 by done. unfold print.
    cbn [stdin stdout]. apply console_ext. rewrite <-!app_assoc.
    apply (f_equal (app _)). cbn [app].
    do 3 (apply (f_equal2 cons); [string_eq|]).
    apply (f_equal (app _)). lines_eq.
  - unfold perform_calorie_filtered_search. run. rewrite Hq. rewrite bool_decide_eq_true_2 by done.
    unfold print. console_eq.
  - unfold perform_combined_filtered_search. run. rewrite Hq. rewrite bool_decide_eq_true_2 by done.
    unfold print. console_eq.
Qed.

(** X20. In the calorie search a limit written in digits is passed to
    the index as [calories <= n], also when it is 0; the messages name
    the limit unless it is 0, where they read as if there were none. *)
Theorem calorie_limit_is_applied (collection : Collection)
    (query_line calories_line : string) (rest : list key) (out : list string)
    (n : Z) (answer : QueryResult) (results : list SearchResult) :
  strip query_line ≠ "" →
  isdigit (strip calories_line) = true →
  (len (strip calories_line) ≤ 4300)%Z →
  int_digits 0 (strip calories_line) = Some n →
  query collection [strip query_line] 5 (Some (WhereLte "calories" n))
    = Ok answer →
  format_results answer = Ok results →
  perform_calorie_filtered_search format_1f str_exception collection
    {| stdin := Line query_line :: Line calories_line :: rest; stdout := out |}
  = ({| stdin := rest;
        stdout := out ++
          [newline +:+ "🔥 CALORIE-FILTERED SEARCH" +:+ newline;
           repeat_str "-" 30 +:+ newline;
           "Enter search query: ";
           "Enter maximum calories (or press Enter for no limit): ";
           newline +:+ "🔍 Searching for '" +:+ strip query_line +:+ "'"
             +:+ (if bool_decide (n = 0%Z)
                  then "..."
                  else " with max " +:+ pretty n +:+ " calories...")
             +:+ newline]
          ++ Spec.display_lines format_1f
               ("Calorie-Filtered Results ("
                +:+ (if bool_decide (n = 0%Z)
                     then "any calories"
                     else "under " +:+ pretty n +:+ " calories")
                +:+ ")") true results |}, Return ()).
Proof.
  intros Hq Hd _ Hn Hanswer Hformat.
  unfold perform_calorie_filtered_search. run.
  rewrite bool_decide_eq_false_2 by done. rewrite Hd.
  unfold int. rewrite Hn. rewrite run_ret. run.
  rewrite (run_writes _ _ _ _ _
             (filtered_search_writes_Ok _ _ None (Some n) _ _ _ Hanswer Hformat)).
  rewrite display_writes. cbn [stdin stdout truthy_number str_number].
  apply console_ext. rewrite <-!app_assoc. apply (f_equal (app _)).
  cbn [app]. do 4 (apply (f_equal2 cons); [string_eq|]).
  assert ((n =? 0)%Z = bool_decide (n = 0%Z)) as ->.
  { case_bool_decide as Hz; [by apply Z.eqb_eq | by apply Z.eqb_neq]. }
  destruct (bool_decide (n = 0%Z)); cbn [negb]; f_equal; string_eq.
Qed.

(** X21. A calorie limit that is not a number is rejected by the calorie
    search, without a search; the combined search ignores it without a
    word and, with a blank cuisine, searches with no filter. *)
Theorem calories_text_rejected_or_ignored (collection : Collection)
    (query_line cuisine_line calories_line : string) (rest : list key)
    (out : list string) (answer : QueryResult) (results : list SearchResult) :
  strip query_line ≠ "" →
  strip cuisine_line = "" →
  strip calories_line ≠ "" →
  isdigit (strip calories_line) = false →
  query collection [strip query_line] 5 None = Ok answer →
  format_results answer = Ok results →
  perform_calorie_filtered_search format_1f str_exception collection
    {| stdin := Line query_line :: Line calories_line :: rest; stdout := out |}
  = ({| stdin := rest;
        stdout := out ++
          [newline +:+ "🔥 CALORIE-FILTERED SEARCH" +:+ newline;
           repeat_str "-" 30 +:+ newline;
           "Enter search query: ";
           "Enter maximum calories (or press Enter for no limit): ";
           "❌ Invalid calorie input. Please enter a number or leave blank."
             +:+ newline] |}, Return ())
  ∧ perform_combined_filtered_search format_1f str_title str_exception collection
      {| stdin := Line query_line :: Line cuisine_line :: Line calories_line
                  :: rest;
         stdout := out |}
    = ({| stdin := rest;
          stdout := out ++
            [newline +:+ "🎯 COMBINED FILTERS SEARCH" +:+ newline;
             repeat_str "-" 30 +:+ newline;
             "Enter search query: ";
             "Enter cuisine type (optional): ";
             "Enter maximum calories (optional): ";
             newline +:+ "🔍 Searching for '" +:+ strip query_line
               +:+ "' with no filters..." +:+ newline]
            ++ Spec.display_lines format_1f
                 "Combined Filtered Results (no filters)" true results |},
       Return ()).
Proof.
  intros Hq Hc Hm Hd Hanswer Hformat. split.
  - unfold perform_calorie_filtered_search. run.
    rewrite bool_decide_eq_false_2 by done. rewrite Hd.
    rewrite bool_decide_eq_false_2 by done. cbn [negb].
    unfold print. console_eq.
  - unfold perform_combined_filtered_search. run.
    rewrite bool_decide_eq_false_2 by done. rewrite Hd, Hc.
    rewrite bool_decide_eq_true_2 by done. rewrite run_ret.
    cbn [truthy_text app]. run.
    rewrite (run_writes _ _ _ _ _
               (filtered_search_writes_Ok _ _ None None _ _ _ Hanswer Hformat)).
    rewrite display_writes. cbn [stdin stdout].
    apply console_ext. rewrite <-!app_assoc. apply (f_equal (app _)).
    cbn [app]. do 5 (apply (f_equal2 cons); [string_eq|]).
    f_equal. string_eq.
Qed.

Lemma cuisines_not_empty (cuisine : string) :
  cuisine ∈ cuisines → cuisine ≠ "".
Proof.
  unfold cuisines. rewrite !elem_of_cons, elem_of_nil.
  intros H. repeat (destruct H as [->|H]; [done|]). done.
Qed.

(** X22. In the cuisine search the number n, from 1 to 11, selects the
    n-th cuisine of the list that was printed, and the index is asked
    for that cuisine. *)
Theorem cuisine_number_selects (collection : Collection)
    (query_line choice_line : string) (rest : list key) (out : list string)
    (n : Z) (cuisine : string) (answer : QueryResult)
    (results : list SearchResult) :
  strip query_line ≠ "" →
  isdigit (strip choice_line) = true →
  (len (strip choice_line) ≤ 4300)%Z →
  int_digits 0 (strip choice_line) = Some n →
  (1 ≤ n)%Z →
  cuisines !! Z.to_nat (n - 1) = Some cuisine →
  query collection [strip query_line] 5 (Some (WhereEq "cuisine_type" cuisine))
    = Ok answer →
  format_results answer = Ok results →
  perform_cuisine_filtered_search format_1f str_title str_exception collection
    {| stdin := Line query_line :: Line choice_line :: rest; stdout := out |}
  = ({| stdin := rest;
        stdout := out ++
          [newline +:+ "🍽️ CUISINE-FILTERED SEARCH" +:+ newline;
           repeat_str "-" 30 +:+ newline;
           "Available cuisines:" +:+ newline]
          ++ imap (λ k name, "  " +:+ pretty (1 + Z.of_nat k)%Z +:+ ". "
                             +:+ name +:+ newline) cuisines
          ++ [newline +:+ "Enter search query: ";
              "Enter cuisine number (or cuisine name): ";
              newline +:+ "🔍 Searching for '" +:+ strip query_line +:+ "' in "
                +:+ cuisine +:+ " cuisine..." +:+ newline]
          ++ Spec.display_lines format_1f
               ("Cuisine-Filtered Results (" +:+ cuisine +:+ ")") true results |},
     Return ()).
Proof.
  intros Hq Hd _ Hn Hpos Hcuisine Hanswer Hformat.
  unfold perform_cuisine_filtered_search. run.
  rewrite (run_writes _ _ _ _ _ (print_cuisines_writes 1 cuisines)).
  run. rewrite bool_decide_eq_false_2 by done. rewrite Hd.
  unfold int. rewrite Hn. rewrite run_bind_assoc, run_ret.
  pose proof (lookup_lt_Some _ _ _ Hcuisine) as Hlt.
  rewrite bool_decide_eq_true_2 by lia. cbv iota. rewrite run_ret.
  rewrite Hcuisine.
  rewrite bool_decide_eq_false_2
    by (apply cuisines_not_empty; by eapply list_elem_of_lookup_2).
  run.
  assert (build_where_clause (Some cuisine) None
          = Some (WhereEq "cuisine_type" cuisine)) as Hwhere.
  { unfold build_where_clause, build_filters.
    rewrite bool_decide_eq_false_2; [done|].
    apply cuisines_not_empty. by eapply list_elem_of_lookup_2. }
  rewrite <-Hwhere in Hanswer.
  rewrite (run_writes _ _ _ _ _
             (filtered_search_writes_Ok _ _ _ _ _ _ _ Hanswer Hformat)).
  rewrite display_writes. cbn [stdin stdout].
  apply console_ext. rewrite <-!app_assoc. apply (f_equal (app _)).
  cbn [app]. do 3 (apply (f_equal2 cons); [string_eq|]).
  apply (f_equal (app _)). cbn [app].
  do 2 (apply (f_equal2 cons); [string_eq|]). f_equal. string_eq.
Qed.

(** X23. In the cuisine search the number 0 and the numbers beyond 11
    select nothing: the selection is refused and the index is not
    asked. *)
Theorem cuisine_number_out_of_range (collection : Collection)
    (query_line choice_line : string) (rest : list key) (out : list string)
    (n : Z) :
  strip query_line ≠ "" →
  isdigit (strip choice_line) = true →
  (len (strip choice_line) ≤ 4300)%Z →
  int_digits 0 (strip choice_line) = Some n →
  (n = 0 ∨ 11 < n)%Z →
  perform_cuisine_filtered_search format_1f str_title str_exception collection
    {| stdin := Line query_line :: Line choice_line :: rest; stdout := out |}
  = ({| stdin := rest;
        stdout := out ++
          [newline +:+ "🍽️ CUISINE-FILTERED SEARCH" +:+ newline;
           repeat_str "-" 30 +:+ newline;
           "Available cuisines:" +:+ newline]
          ++ imap (λ k name, "  " +:+ pretty (1 + Z.of_nat k)%Z +:+ ". "
                             +:+ name +:+ newline) cuisines
          ++ [newline +:+ "Enter search query: ";
              "Enter cuisine number (or cuisine name): ";
              "❌ Invalid cuisine selection or empty input." +:+ newline] |},
     Return ()).
Proof.
  intros Hq Hd _ Hn Hrange.
  unfold perform_cuisine_filtered_search. run.
  rewrite (run_writes _ _ _ _ _ (print_cuisines_writes 1 cuisines)).
  run. rewrite bool_decide_eq_false_2 by done. rewrite Hd.
  unfold int. rewrite Hn. rewrite run_bind_assoc, run_ret.
  rewrite bool_decide_eq_false_2 by (cbn [length cuisines]; lia).
  cbv iota. rewrite run_ret. unfold print. cbn [stdin stdout].
  apply console_ext. rewrite <-!app_assoc. apply (f_equal (app _)).
  cbn [app]. do 3 (apply (f_equal2 cons); [string_eq|]).
  apply (f_equal (app _)). lines_eq.
Qed.

(** *** interactive_advanced_search *)

(** X24. A calorie limit written with a superscript digit passes
    [isdigit] and fails in [int]: the calorie search raises, and the menu
    loop reports the error and goes on. *)
Theorem superscript_digit_is_reported (collection : Collection)
    (choice_line query_line calories_line : string) (rest : list key)
    (out : list string) :
  strip choice_line = "3" →
  strip query_line ≠ "" →
  isdigit (strip calories_line) = true →
  int_digits 0 (strip calories_line) = None →
  option_step format_1f str_title str_exception collection
    {| stdin := Line choice_line :: Line query_line :: Line calories_line :: rest;
       stdout := out |}
  = ({| stdin := rest;
        stdout := out ++
          [newline +:+ "📋 Select option (1-7): ";
           newline +:+ "🔥 CALORIE-FILTERED SEARCH" +:+ newline;
           repeat_str "-" 30 +:+ newline;
           "Enter search query: ";
           "Enter maximum calories (or press Enter for no limit): ";
           "❌ Error: " +:+ str_exception ValueError +:+ newline] |},
     Return false).
Proof.
  intros Hchoice Hq Hd Hn. unfold option_step, try_except_interrupt.
  run. rewrite Hchoice.
  rewrite (bool_decide_eq_false_2 ("3" = "1")) by done.
  rewrite (bool_decide_eq_false_2 ("3" = "2")) by done.
  rewrite (bool_decide_eq_true_2 ("3" = "3")) by done. cbv iota.
  unfold perform_calorie_filtered_search. run.
  rewrite bool_decide_eq_false_2 by done. rewrite Hd. cbv iota.
  unfold int. rewrite Hn. rewrite run_bind_assoc, run_raise. cbv iota. run.
  unfold mret, io_ret. console_eq.
Qed.

Lemma option_step_eof (collection : Collection) (out : list string) :
  option_step format_1f str_title str_exception collection
    {| stdin := []; stdout := out |}
  = ({| stdin := [];
        stdout := out ++ [newline +:+ "📋 Select option (1-7): ";
                          "❌ Error: " +:+ str_exception EOFError +:+ newline] |},
     Return false).
Proof.
  unfold option_step, try_except_interrupt.
  erewrite run_input_eof by reflexivity. cbv iota. run.
  unfold mret, io_ret. console_eq.
Qed.

(** X25. Once the input is exhausted the menu loop never ends: every
    iteration writes the prompt and the error of [input], and the loop
    goes on. *)
Theorem advanced_loop_spins_at_end_of_input (fuel : nat) (collection : Collection) (out : list string) :
  option_loop format_1f str_title str_exception fuel collection
    {| stdin := []; stdout := out |}
  = ({| stdin := [];
        stdout := out ++ concat (replicate fuel
          [newline +:+ "📋 Select option (1-7): ";
           "❌ Error: " +:+ str_exception EOFError +:+ newline]) |},
     Return None).
Proof.
  revert out. induction fuel as [|fuel IH]; intros out.
  - cbn. by rewrite app_nil_r.
  - cbn [option_loop]. unfold mbind at 1, io_bind at 1.
    rewrite option_step_eof. rewrite IH. apply console_ext.
    cbn [replicate concat]. by rewrite <-app_assoc.
Qed.

Lemma option_step_outcome (collection : Collection) (c : console) :
  ∃ c' leave,
    option_step format_1f str_title str_exception collection c
    = (c', Return leave)
    ∧ (leave = true → ∃ front line, line ∈ Spec.goodbye ∧ stdout c' = front ++ [line]).
Proof.
  unfold option_step, try_except_interrupt.
  match goal with |- context [let (_, _) := ?body c in _] =>
    destruct (body c) as [c1 [leave|s]] eqn:Hbody end.
  - exists c1, leave. split; [done|]. intros ->.
    apply bind_Return in Hbody as (choice & c0 & _ & Hbody).
    repeat match type of Hbody with
    | (if ?b then _ else _) _ = _ => destruct b
    end; try (by apply then_false_not_true in Hbody).
    rewrite run_print in Hbody. injection Hbody as <-.
    eexists _, _. split; [|reflexivity]. unfold Spec.goodbye.
    apply elem_of_cons. by left.
  - destruct s.
    all: rewrite run_print; unfold mret, io_ret; eexists _, _; split; [done|].
    all: try discriminate.
    intros _. eexists _, _. split; [|reflexivity]. unfold Spec.goodbye.
    apply elem_of_cons. right. apply list_elem_of_singleton. string_eq.
Qed.

(** X26. [interactive_advanced_search] raises nothing, whatever is typed
    and whatever the index does; when its loop is left, the last line
    written is one of the two goodbyes. *)
Theorem advanced_loop_ends_with_goodbye (fuel : nat) (collection : Collection)
    (c : console) :
  ∃ c' r,
    interactive_advanced_search format_1f str_title str_exception fuel
      collection c = (c', Return r)
    ∧ (r = Some () →
       ∃ front,
         stdout c' = front ++ ["👋 Exiting Advanced Search System. Goodbye!"
                               +:+ newline]
         ∨ stdout c' = front ++ [newline +:+ newline
                                 +:+ "👋 System interrupted. Goodbye!"
                                 +:+ newline]).
Proof.
  assert (∀ c, ∃ c' r,
    option_loop format_1f str_title str_exception fuel collection c
    = (c', Return r)
    ∧ (r = Some () →
       ∃ front line, line ∈ Spec.goodbye ∧ stdout c' = front ++ [line])) as Hloop.
  { clear c. induction fuel as [|fuel IH]; intros c.
    - exists c, None. by split.
    - cbn [option_loop]. unfold mbind at 1, io_bind at 1.
      destruct (option_step_outcome collection c) as (c1 & leave & -> & Hleave).
      destruct leave.
      + exists c1, (Some ()). split; [done|]. intros _. by apply Hleave.
      + apply IH. }
  unfold interactive_advanced_search. run.
  match goal with |- context [option_loop _ _ _ _ _ ?c0] =>
    destruct (Hloop c0) as (c' & r & -> & Hr) end.
  exists c', r. split; [done|]. intros Hsome.
  destruct (Hr Hsome) as (front & line & Hline & ->). exists front.
  unfold Spec.goodbye in Hline.
  apply elem_of_cons in Hline as [->| ->%list_elem_of_singleton]; auto.
Qed.

(** The choice 7 and the interrupt key leave the loop at once, and what
    was typed after them is not read. *)
Lemma option_loop_is_left (fuel : nat) (collection : Collection)
    (choice_line : string) (rest : list key) (out : list string) :
  strip choice_line = "7" →
  option_loop format_1f str_title str_exception (S fuel) collection
    {| stdin := Line choice_line :: rest; stdout := out |}
  = ({| stdin := rest;
        stdout := out ++
          [newline +:+ "📋 Select option (1-7): ";
           "👋 Exiting Advanced Search System. Goodbye!" +:+ newline] |},
     Return (Some ()))
  ∧ option_loop format_1f str_title str_exception (S fuel) collection
      {| stdin := Interrupt :: rest; stdout := out |}
    = ({| stdin := rest;
          stdout := out ++
            [newline +:+ "📋 Select option (1-7): ";
             newline +:+ newline +:+ "👋 System interrupted. Goodbye!"
               +:+ newline] |},
       Return (Some ())).
Proof.
  intros Hchoice. split.
  - cbn [option_loop]. unfold option_step, try_except_interrupt.
    unfold mbind at 1, io_bind at 1. run. rewrite Hchoice.
    repeat (rewrite bool_decide_eq_false_2 by done).
    rewrite bool_decide_eq_true_2 by done. cbv iota. run.
    unfold mret, io_ret. console_eq.
  - cbn [option_loop]. unfold option_step, try_except_interrupt.
    unfold mbind at 1, io_bind at 1.
    erewrite run_input_interrupt by reflexivity. cbv iota. run.
    unfold mret, io_ret. console_eq.
Qed.

(** *** The chatbot *)

(** X27. When the search has nothing to return, [handle_enhanced_rag_query]
    writes the search line, the error line of the search if there is
    one, and the two lines of the apology: whatever the completion
    service would answer. *)
Theorem unanswered_query_skips_generation (collection : Collection)
    (query : string) :
  perform_similarity_search collection query 3 = Ok [] →
  ∃ report,
    (report = []
     ∨ ∃ e, report = ["Error in similarity search: "
                      +:+ str_exception (Exception e) +:+ newline])
    ∧ ∀ (client : ChatRequest → result Completion) (history : list string),
        writes (handle_enhanced_rag_query format_1f str_exception client
                  collection query history)
          ([newline +:+ "🔍 Searching vector database for: '" +:+ query
              +:+ "'..." +:+ newline]
           ++ report
           ++ ["🤖 Bot: I couldn't find any food items matching your request."
                 +:+ newline;
               "      Try describing what you're in the mood for with different words!"
                 +:+ newline]) ().
Proof.
  intros Hnone.
  destruct (search_agrees collection query 3)
    as (report & results & Hw & Hr & Hreport).
  rewrite Hnone in Hr. injection Hr as <-.
  exists report. split.
  { destruct Hreport as [->|[_ [e ->]]]; eauto. }
  intros client history. unfold handle_enhanced_rag_query.
  eapply writes_eq.
  - writes_prints. eapply writes_bind; [apply Hw|].
    cbv iota. writes_prints. apply writes_print.
  - cbn [app]. apply (f_equal2 cons); [string_eq|].
    apply (f_equal (app _)). lines_eq.
Qed.

Lemma last_three_length (history : list string) :
  5 < length history → length (last_three history) = 3.
Proof. intros H. unfold last_three. rewrite length_drop. lia. Qed.

Lemma chatbot_step_outcome (collection : Collection) (history : list string)
    (c : console) :
  ∃ c' leave history',
    chatbot_step format_1f format_0f str_exception client_openai collection
      history c = (c', Return (leave, history'))
    ∧ (length history ≤ 5 → length history' ≤ 5).
Proof.
  unfold chatbot_step, try_except_interrupt.
  match goal with |- context [let (_, _) := ?body c in _] =>
    destruct (body c) as [c1 [[leave history']|s]] eqn:Hbody end.
  - exists c1, leave, history'. split; [done|]. intros Hlen.
    apply bind_Return in Hbody as (line & c0 & _ & Hbody).
    repeat match type of Hbody with
    | (if ?b then _ else _) _ = _ => destruct b
    end;
    first [apply then_ret_value in Hbody
          |rewrite run_print in Hbody; apply then_ret_value in Hbody];
    injection Hbody as _ ->; try done.
    case_bool_decide as Hlong.
    + rewrite last_three_length by done. lia.
    + lia.
  - destruct s.
    all: rewrite run_print; unfold mret, io_ret; by eexists _, _, _.
Qed.

(** X28. [enhanced_rag_food_chatbot] raises nothing, and the conversation
    history it keeps never holds more than five queries. *)
Theorem chatbot_history_is_bounded (fuel : nat) (collection : Collection)
    (c : console) :
  ∃ c' r,
    enhanced_rag_food_chatbot format_1f format_0f str_exception client_openai
      fuel collection c = (c', Return r)
    ∧ ∀ history, r = Some history → length history ≤ 5.
Proof.
  assert (∀ history c, length history ≤ 5 → ∃ c' r,
    chatbot_loop format_1f format_0f str_exception client_openai fuel
      collection history c = (c', Return r)
    ∧ ∀ history', r = Some history' → length history' ≤ 5) as Hloop.
  { clear c. induction fuel as [|fuel IH]; intros history c Hlen.
    - exists c, None. by split.
    - cbn [chatbot_loop]. unfold mbind at 1, io_bind at 1.
      destruct (chatbot_step_outcome collection history c)
        as (c1 & leave & history1 & -> & Hbound).
      cbn [fst snd]. destruct leave.
      + exists c1, (Some history1). split; [done|]. intros ? [= <-]. auto.
      + apply IH. auto. }
  unfold enhanced_rag_food_chatbot. run. apply Hloop. cbn. lia.
Qed.

Lemma chatbot_step_eof (collection : Collection) (history : list string)
    (out : list string) :
  chatbot_step format_1f format_0f str_exception client_openai collection
    history {| stdin := []; stdout := out |}
  = ({| stdin := [];
        stdout := out ++
          [newline +:+ "👤 You: ";
           "❌ Bot: Sorry, I encountered an error: "
             +:+ str_exception EOFError +:+ newline] |},
     Return (false, history)).
Proof.
  unfold chatbot_step, try_except_interrupt.
  erewrite run_input_eof by reflexivity. cbv iota. run.
  unfold mret, io_ret. console_eq.
Qed.

(** X29. Once the input is exhausted the chatbot loop never ends: every
    iteration writes the prompt and the error of [input], and the
    history stays as it is. *)
Theorem chatbot_loop_spins_at_end_of_input (fuel : nat)
    (collection : Collection) (history : list string) (out : list string) :
  chatbot_loop format_1f format_0f str_exception client_openai fuel collection
    history {| stdin := []; stdout := out |}
  = ({| stdin := [];
        stdout := out ++ concat (replicate fuel
          [newline +:+ "👤 You: ";
           "❌ Bot: Sorry, I encountered an error: "
             +:+ str_exception EOFError +:+ newline]) |},
     Return None).
Proof.
  revert out. induction fuel as [|fuel IH]; intros out.
  - cbn. by rewrite app_nil_r.
  - cbn [chatbot_loop]. unfold mbind at 1, io_bind at 1.
    rewrite chatbot_step_eof. cbn [fst snd]. rewrite IH. apply console_ext.
    cbn [replicate concat]. by rewrite <-app_assoc.
Qed.

(** X30. The words quit, exit and q, in any case, and the interrupt key
    leave the chatbot loop at once: the farewell is written and what was
    typed after them is not read. *)
Theorem chatbot_loop_is_left (fuel : nat) (collection : Collection)
    (history : list string) (input_line : string) (rest : list key)
    (out : list string) :
  lower (strip input_line) ∈ ["quit"; "exit"; "q"] →
  chatbot_loop format_1f format_0f str_exception client_openai (S fuel)
    collection history {| stdin := Line input_line :: rest; stdout := out |}
  = ({| stdin := rest;
        stdout := out ++
          [newline +:+ "👤 You: ";
           newline +:+ "🤖 Bot: Thank you for using the Enhanced RAG Food Chatbot!"
             +:+ newline;
           "      Hope you found some delicious recommendations! 👋"
             +:+ newline] |},
     Return (Some history))
  ∧ chatbot_loop format_1f format_0f str_exception client_openai (S fuel)
      collection history {| stdin := Interrupt :: rest; stdout := out |}
    = ({| stdin := rest;
          stdout := out ++
            [newline +:+ "👤 You: ";
             newline +:+ newline
               +:+ "🤖 Bot: Goodbye! Hope you find something delicious! 👋"
               +:+ newline] |},
       Return (Some history)).
Proof.
  intros Hquit. split.
  - cbn [chatbot_loop]. unfold chatbot_step, try_except_interrupt.
    unfold mbind at 1, io_bind at 1. run.
    rewrite bool_decide_eq_false_2.
    2: { intros Hblank. rewrite Hblank in Hquit. cbn in Hquit.
         rewrite !elem_of_cons, elem_of_nil in Hquit.
         by destruct Hquit as [?|[?|[?|[]]]]. }
    rewrite (bool_decide_eq_true_2 _ Hquit). cbv iota. run.
    unfold mret, io_ret. cbn [fst snd]. console_eq.
  - cbn [chatbot_loop]. unfold chatbot_step, try_except_interrupt.
    unfold mbind at 1, io_bind at 1.
    erewrite run_input_interrupt by reflexivity. cbv iota. run.
    unfold mret, io_ret. cbn [fst snd]. console_eq.
Qed.

End Runs.
(** *** Examples of the runs *)

Lemma blank_query_is_not_searched_witness :
  stdout (perform_basic_search format_1f_exact Samples.str_exception
            Samples.stub_collection {| stdin := [Line "  "]; stdout := [] |}).1
  = [newline +:+ "🔍 BASIC SIMILARITY SEARCH" +:+ newline;
     repeat_str "-" 30 +:+ newline;
     "Enter search query: ";
     "❌ Please enter a search term" +:+ newline].
Proof.
  pose proof (blank_query_is_not_searched format_1f_exact Samples.str_title
                Samples.str_exception Samples.stub_collection "  " "2" "300"
                [] [] eq_refl) as [Hbasic _].
  by rewrite Hbasic.
Defined.

Lemma calorie_limit_is_applied_witness :
  stdout (perform_calorie_filtered_search format_1f_exact Samples.str_exception
            Samples.stub_collection
            {| stdin := [Line "pasta"; Line "0"]; stdout := [] |}).1 !! 4%nat
  = Some (newline +:+ "🔍 Searching for 'pasta'..." +:+ newline).
Proof.
  rewrite (calorie_limit_is_applied format_1f_exact Samples.str_exception
             Samples.stub_collection "pasta" "0" [] [] 0 Samples.two_hits
             [Samples.margherita_hit; Samples.green_curry_hit]).
  - reflexivity.
  - done.
  - reflexivity.
  - by vm_compute.
  - reflexivity.
  - reflexivity.
  - reflexivity.
Defined.

Lemma calories_text_rejected_or_ignored_witness :
  last (stdout (perform_calorie_filtered_search format_1f_exact
                  Samples.str_exception Samples.stub_collection
                  {| stdin := [Line "pasta"; Line "low"]; stdout := [] |}).1)
  = Some ("❌ Invalid calorie input. Please enter a number or leave blank."
          +:+ newline)
  ∧ stdout (perform_combined_filtered_search format_1f_exact Samples.str_title
              Samples.str_exception Samples.stub_collection
              {| stdin := [Line "pasta"; Line " "; Line "low"]; stdout := [] |}).1
    !! 5%nat
    = Some (newline +:+ "🔍 Searching for 'pasta' with no filters..." +:+ newline).
Proof.
  assert (strip "pasta" ≠ "") as Hquery by done.
  assert (strip "low" ≠ "") as Hcalories by done.
  pose proof (calories_text_rejected_or_ignored format_1f_exact Samples.str_title
                Samples.str_exception Samples.stub_collection "pasta" " " "low"
                [] [] Samples.two_hits
                [Samples.margherita_hit; Samples.green_curry_hit]
                Hquery eq_refl Hcalories eq_refl eq_refl eq_refl)
    as [Hrejected Hignored].
  split; [by rewrite Hrejected | by rewrite Hignored].
Defined.

Lemma cuisine_number_selects_witness :
  stdout (perform_cuisine_filtered_search format_1f_exact Samples.str_title
            Samples.str_exception Samples.stub_collection
            {| stdin := [Line "curry"; Line "2"]; stdout := [] |}).1 !! 16%nat
  = Some (newline +:+ "🔍 Searching for 'curry' in Thai cuisine..." +:+ newline).
Proof.
  rewrite (cuisine_number_selects format_1f_exact Samples.str_title
             Samples.str_exception Samples.stub_collection "curry" "2" [] [] 2
             "Thai" Samples.two_hits
             [Samples.margherita_hit; Samples.green_curry_hit]).
  - reflexivity.
  - done.
  - reflexivity.
  - by vm_compute.
  - reflexivity.
  - lia.
  - reflexivity.
  - reflexivity.
  - reflexivity.
Defined.

Lemma cuisine_number_out_of_range_witness :
  last (stdout (perform_cuisine_filtered_search format_1f_exact Samples.str_title
                  Samples.str_exception Samples.stub_collection
                  {| stdin := [Line "curry"; Line "12"]; stdout := [] |}).1)
  = Some ("❌ Invalid cuisine selection or empty input." +:+ newline).
Proof.
  rewrite (cuisine_number_out_of_range format_1f_exact Samples.str_title
             Samples.str_exception Samples.stub_collection "curry" "12" [] [] 12).
  - reflexivity.
  - done.
  - reflexivity.
  - by vm_compute.
  - reflexivity.
  - lia.
Defined.

Lemma superscript_digit_is_reported_witness :
  isdigit (String "178" "") = true
  ∧ (option_step format_1f_exact Samples.str_title Samples.str_exception
       Samples.stub_collection
       {| stdin := [Line "3"; Line "pasta"; Line (String "178" "")];
          stdout := [] |}).2
    = Return false.
Proof.
  split; [reflexivity|].
  rewrite (superscript_digit_is_reported format_1f_exact Samples.str_title
             Samples.str_exception Samples.stub_collection "3" "pasta"
             (String "178" "") [] []).
  - reflexivity.
  - reflexivity.
  - done.
  - reflexivity.
  - reflexivity.
Defined.

Lemma unanswered_query_skips_generation_witness :
  ∃ lines,
    writes (handle_enhanced_rag_query format_1f_exact Samples.str_exception
              Samples.helpful_client Samples.empty_collection "pasta" [])
      lines ().
Proof.
  destruct (unanswered_query_skips_generation format_1f_exact
              Samples.str_exception Samples.empty_collection "pasta" eq_refl)
    as (report & _ & Hwrites).
  eexists. apply Hwrites.
Defined.

Lemma chatbot_loop_is_left_witness :
  (chatbot_loop format_1f_exact Samples.format_0f_exact Samples.str_exception
     Samples.helpful_client 1 Samples.stub_collection ["pasta"]
     {| stdin := [Line " Quit "; Line "curry"]; stdout := [] |}).2
  = Return (Some ["pasta"]).
Proof.
  assert (lower (strip " Quit ") ∈ ["quit"; "exit"; "q"]) as Hquit.
  { apply elem_of_cons. by left. }
  pose proof (chatbot_loop_is_left format_1f_exact Samples.format_0f_exact
                Samples.str_exception Samples.helpful_client 0
                Samples.stub_collection ["pasta"] " Quit " [Line "curry"] []
                Hquit) as [Hleft _].
  by rewrite Hleft.
Defined.
